(** * Pupillometry pre-processing scripts: verbal fluency, HVLT encoding, HVLT recall

    A shallow embedding of the per-subject scripts
      - [fluency_proc_subject.py]
      - [hvlt_encoding_proc_subject.py]
      - [hvlt_recall_proc_subject.py]
    together with the fragment of pandas / numpy they rely on.

    Conventions.
    - A pandas [NaN] / missing cell is [None]; a present cell is [Some v].
    - A [DataFrame] is the list of its rows in storage order; every row
      carries its index label.
    - Timestamps are integers (milliseconds); measured values are rationals.
    - A Python exception is [Raise e]; normal completion is [Ok v]. *)

From Stdlib Require Import List Arith ZArith QArith Qfield Bool String Ascii Lia.
From Stdlib Require Import Sorting.Permutation Sorting.Sorted.
Import ListNotations.

Set Implicit Arguments.

(* ===================================================================== *)
(** ** Exceptions and the error monad *)
(* ===================================================================== *)

Inductive exn : Type :=
| ValueError
| IndexError
| TypeError
| AttributeError
| IOError (msg : string)
| NameError (name : string).

Inductive result (A : Type) : Type :=
| Ok (a : A)
| Raise (e : exn).

Arguments Ok {A} a.
Arguments Raise {A} e.

Definition rbind {A B} (m : result A) (k : A -> result B) : result B :=
  match m with
  | Ok a => k a
  | Raise e => Raise e
  end.

Declare Scope result_scope.
Delimit Scope result_scope with result.
Notation "'do' x <- m ; k" := (rbind m (fun x => k))
  (at level 10, x name, m at level 100, k at level 200) : result_scope.

Fixpoint rmapM {A B} (f : A -> result B) (l : list A) : result (list B) :=
  match l with
  | [] => Ok []
  | a :: l' =>
      (do b <- f a;
       do bs <- rmapM f l';
       Ok (b :: bs))%result
  end.

(* ===================================================================== *)
(** ** The pandas / numpy fragment *)
(* ===================================================================== *)

Module Pandas.

(** [numpy.tile(l, n)]: [n] copies of the whole array, end to end. *)
Fixpoint tile {A} (l : list A) (n : nat) : list A :=
  match n with
  | O => []
  | S n' => l ++ tile l n'
  end.

(** [numpy.repeat(l, k)]: every element repeated [k] times in place. *)
Definition np_repeat {A} (l : list A) (k : nat) : list A :=
  flat_map (fun x => repeat x k) l.

(** [range(a, b)] on naturals. *)
Definition range (a b : nat) : list nat := seq a (b - a).

(** [Series.shift()]: every value moves one row down, the first cell is
    missing and the last value falls off. *)
Definition shift {A} (l : list (option A)) : list (option A) :=
  match l with
  | [] => []
  | _ => None :: removelast l
  end.

(** [Series.shift(-1)]: every value moves one row up, the last cell is
    missing. *)
Definition shift_up {A} (l : list (option A)) : list (option A) :=
  match l with
  | [] => []
  | _ :: tl => tl ++ [None]
  end.

(** [Series.ffill()]: a missing cell takes the last present value above
    it (and stays missing when there is none). *)
Fixpoint ffill_from {A} (last : option A) (l : list (option A))
  : list (option A) :=
  match l with
  | [] => []
  | Some v :: tl => Some v :: ffill_from (Some v) tl
  | None :: tl => last :: ffill_from last tl
  end.

Definition ffill {A} (l : list (option A)) : list (option A) :=
  ffill_from None l.

(** [Series.bfill()]: a missing cell takes the next present value below. *)
Fixpoint bfill {A} (l : list (option A)) : list (option A) :=
  match l with
  | [] => []
  | Some v :: tl => Some v :: bfill tl
  | None :: tl =>
      let r := bfill tl in
      match r with
      | [] => [None]
      | nxt :: _ => nxt :: r
      end
  end.

(** Element-wise [!=] on string cells: a missing cell differs from
    everything, including another missing cell. *)
Definition ne_cell (a b : option string) : bool :=
  match a, b with
  | Some x, Some y => negb (String.eqb x y)
  | _, _ => true
  end.

(** [Series.ne(other)] on two aligned columns. *)
Fixpoint ne (a b : list (option string)) : list bool :=
  match a, b with
  | x :: a', y :: b' => ne_cell x y :: ne a' b'
  | _, _ => []
  end.

(** [Series == "literal"]: a missing cell is never equal. *)
Definition eq_lit (a : option string) (s : string) : bool :=
  match a with
  | Some x => String.eqb x s
  | None => false
  end.

(** [df.loc[mask]]: the rows whose mask entry is true. *)
Fixpoint loc_mask {A} (rows : list A) (mask : list bool) : list A :=
  match rows, mask with
  | r :: rows', m :: mask' =>
      if m then r :: loc_mask rows' mask' else loc_mask rows' mask'
  | _, _ => []
  end.

(** [DataFrame.sort_index()]: rows ordered by index label; rows with the
    same label keep their relative order (a stable insertion sort). *)
Section SortIndex.
Context {A : Type} (key : A -> nat).

Fixpoint insert_by (x : A) (l : list A) : list A :=
  match l with
  | [] => [x]
  | y :: l' =>
      if key x <=? key y then x :: y :: l' else y :: insert_by x l'
  end.

Fixpoint sort_by (l : list A) : list A :=
  match l with
  | [] => []
  | x :: l' => insert_by x (sort_by l')
  end.
End SortIndex.

(** [frame[col] = values] with an array on the right-hand side.
    - same length as the frame: the cells are written row by row;
    - the frame has no row at all and the array is not empty: pandas first
      gives the frame the array's default index [0 .. len-1] with every
      existing column missing ([DataFrame._ensure_valid_index]), then
      writes the cells;
    - any other length: [ValueError] (length of values does not match
      length of index). *)
Section SetColumn.
Context {R V : Type} (blank : nat -> R) (setv : V -> R -> R).

Fixpoint write_cells (rows : list R) (vals : list V) : list R :=
  match rows, vals with
  | r :: rows', v :: vals' => setv v r :: write_cells rows' vals'
  | _, _ => []
  end.

Definition set_column (rows : list R) (vals : list V) : result (list R) :=
  if List.length rows =? List.length vals then Ok (write_cells rows vals)
  else if List.length rows =? 0 then
    Ok (write_cells (map blank (seq 0 (List.length vals))) vals)
  else Raise ValueError.
End SetColumn.

(** Arithmetic on float cells: a missing operand gives a missing result. *)
Definition sub_cell (a b : option Q) : option Q :=
  match a, b with
  | Some x, Some y => Some (Qred (x - y))
  | _, _ => None
  end.

(** The present values of a column. *)
Definition valid (l : list (option Q)) : list Q :=
  flat_map (fun c => match c with Some v => [v] | None => [] end) l.

Definition Qsum (l : list Q) : Q := fold_right Qplus 0%Q l.

(** [Series.mean()]: the arithmetic mean of the present values; missing
    when there is none (an empty or all-missing column). *)
Definition mean (l : list (option Q)) : option Q :=
  match valid l with
  | [] => None
  | vs => Some (Qred (Qsum vs / inject_Z (Z.of_nat (List.length vs))))
  end.

(** [frame.resample(width, closed=..., label=...)] on an integer time
    axis.  Bin edges are the multiples of [width]; [closed] says which
    edge belongs to the bin and [label] which edge names it.  Every bin
    from the first to the last occupied one is emitted, empty ones
    included. *)
Inductive side : Type := left_side | right_side.

Definition bin_start (width : Z) (closed : side) (t : Z) : Z :=
  match closed with
  | left_side => width * (t / width)
  | right_side => width * (- ((- t) / width)) - width
  end.

Definition bin_label (width : Z) (label : side) (start : Z) : Z :=
  match label with
  | left_side => start
  | right_side => start + width
  end.

Section Resample.
Context {A : Type} (time : A -> Z).
Variables (width : Z) (closed label : side).

Definition in_bin (start : Z) (r : A) : bool :=
  (bin_start width closed (time r) =? start)%Z.

Definition resample (rows : list A) : list (Z * list A) :=
  match rows with
  | [] => []
  | r0 :: _ =>
      let starts := map (fun r => bin_start width closed (time r)) rows in
      let lo := fold_right Z.min (bin_start width closed (time r0)) starts in
      let hi := fold_right Z.max (bin_start width closed (time r0)) starts in
      map (fun k =>
             let start := (lo + width * Z.of_nat k)%Z in
             (bin_label width label start, filter (in_bin start) rows))
          (seq 0 (S (Z.to_nat ((hi - lo) / width))))
  end.
End Resample.

(** [Series.str.contains(pat)] for a pattern without metacharacters:
    [pat] occurs somewhere in the cell. *)
Fixpoint contains (pat s : string) : bool :=
  String.prefix pat s
  || match s with
     | EmptyString => false
     | String _ s' => contains pat s'
     end.

(** [Series.unique()]: the distinct values in order of first appearance. *)
Fixpoint unique (l : list nat) : list nat :=
  match l with
  | [] => []
  | x :: l' => x :: filter (fun y => negb (y =? x)) (unique l')
  end.

End Pandas.

(* ===================================================================== *)
(** ** Data model *)
(* ===================================================================== *)

Open Scope string_scope.

(** One row of the raw gaze file as [pd.read_csv] returns it. *)
Record sample : Type := mkSample {
  s_index : nat;                       (* index label of the row *)
  TETTime : Z;                         (* tracker time stamp *)
  CurrentObject : option string;       (* event label, missing when blank *)
  DiameterPupilLR : option Q;          (* pupil diameter *)
  Phase : option string                (* column added by the recall script *)
}.

(** One row of the trial-event table built by [get_trial_events] of the
    fluency and recall scripts.  The recall script writes the start marker
    into a column called [StatStop]; both columns are kept. *)
Record event : Type := mkEvent {
  e_index : nat;
  e_TETTime : option Z;
  e_CurrentObject : option string;
  TrialPhase : option string;
  StartStop : option string;
  StatStop : option string;
  Trial : option nat;
  Condition : option string
}.

Definition set_TrialPhase (v : string) (e : event) : event :=
  mkEvent (e_index e) (e_TETTime e) (e_CurrentObject e) (Some v)
          (StartStop e) (StatStop e) (Trial e) (Condition e).

Definition set_StartStop (v : string) (e : event) : event :=
  mkEvent (e_index e) (e_TETTime e) (e_CurrentObject e) (TrialPhase e)
          (Some v) (StatStop e) (Trial e) (Condition e).

Definition set_StatStop (v : string) (e : event) : event :=
  mkEvent (e_index e) (e_TETTime e) (e_CurrentObject e) (TrialPhase e)
          (StartStop e) (Some v) (Trial e) (Condition e).

Definition set_Trial (v : nat) (e : event) : event :=
  mkEvent (e_index e) (e_TETTime e) (e_CurrentObject e) (TrialPhase e)
          (StartStop e) (StatStop e) (Some v) (Condition e).

Definition set_Condition (v : string) (e : event) : event :=
  mkEvent (e_index e) (e_TETTime e) (e_CurrentObject e) (TrialPhase e)
          (StartStop e) (StatStop e) (Trial e) (Some v).

(** [df.loc[mask, ['TETTime','CurrentObject']]]: the two columns of a raw
    row, every later column still missing. *)
Definition event_of_sample (s : sample) : event :=
  mkEvent (s_index s) (Some (TETTime s)) (CurrentObject s)
          None None None None None.

(** The row pandas creates when it gives an empty frame a fresh index. *)
Definition blank_event (i : nat) : event :=
  mkEvent i None None None None None None None.

(* ===================================================================== *)
(** ** Trial events of the fluency and recall scripts *)
(* ===================================================================== *)

(** [get_trial_events] is the same text in [fluency_proc_subject.py] and
    [hvlt_recall_proc_subject.py] except for the name of the column that
    receives ['Start']; [mark_start] is that one assignment. *)
Module TrialEvents.
Import Pandas.

Definition labels (df : list sample) : list (option string) :=
  map CurrentObject df.

(** [df['CurrentObject'].ne(df['CurrentObject'].shift().ffill())] *)
Definition startidx (df : list sample) : list bool :=
  ne (labels df) (ffill (shift (labels df))).

(** [df['CurrentObject'].ne(df['CurrentObject'].shift(-1).bfill())] *)
Definition stopidx (df : list sample) : list bool :=
  ne (labels df) (bfill (shift_up (labels df))).

Definition is_start_label (e : event) : bool :=
  eq_lit (e_CurrentObject e) "ReadLetter"
  || eq_lit (e_CurrentObject e) "RecordLetter".

Definition is_stop_label (e : event) : bool :=
  eq_lit (e_CurrentObject e) "BeginFile"
  || eq_lit (e_CurrentObject e) "RecordLetter".

(** The start rows after the label filter (before any column is added). *)
Definition start_rows (df : list sample) : list event :=
  filter is_start_label (map event_of_sample (loc_mask df (startidx df))).

(** The stop rows after the label filter. *)
Definition stop_rows (df : list sample) : list event :=
  filter is_stop_label (map event_of_sample (loc_mask df (stopidx df))).

Section Body.
Variable mark_start : string -> event -> event.

Definition get_trial_events (df : list sample) : result (list event) :=
  (do trialevents_start <-
        set_column blank_event set_TrialPhase (start_rows df)
                   (tile ["Baseline"; "Response"] 6);
   let trialevents_start := map (mark_start "Start") trialevents_start in
   do trialevents_stop <-
        set_column blank_event set_TrialPhase (stop_rows df)
                   (tile ["Baseline"; "Response"] 6);
   let trialevents_stop := map (set_StartStop "Stop") trialevents_stop in
   let trialevents :=
     sort_by e_index (trialevents_start ++ trialevents_stop) in
   do trialevents <-
        set_column blank_event set_Trial trialevents
                   (np_repeat (range 1 7) 4);
   do trialevents <-
        set_column blank_event set_Condition trialevents
                   (np_repeat ["Letter"; "Category"] 12);
   Ok trialevents)%result.
End Body.
End TrialEvents.

Module fluency_proc_subject.
Import Pandas.

Definition get_trial_events : list sample -> result (list event) :=
  TrialEvents.get_trial_events set_StartStop.

(** [trialevents.loc[trialevents.Trial==trialnum,'TETTime']] *)
Definition trial_times (trialevents : list event) (trialnum : nat)
  : list (option Z) :=
  map e_TETTime
      (filter (fun e => match Trial e with
                        | Some k => (k =? trialnum)%nat
                        | None => false
                        end) trialevents).

Definition trial_numbers (trialevents : list event) : list nat :=
  unique (flat_map (fun e => match Trial e with
                             | Some k => [k]
                             | None => []
                             end) trialevents).

(** [.iloc[[0,-1]]]: first and last entry; [IndexError] on an empty
    selection. *)
Definition iloc_first_last {A} (l : list A) : result (A * A) :=
  match l with
  | [] => Raise IndexError
  | x :: _ => Ok (x, last l x)
  end.

(** [df.loc[(df.TETTime>=starttime) & (df.TETTime<=stoptime)]]; a
    comparison with a missing bound is false. *)
Definition in_window (starttime stoptime : option Z) (s : sample) : bool :=
  match starttime, stoptime with
  | Some a, Some b => ((a <=? TETTime s) && (TETTime s <=? b))%Z
  | _, _ => false
  end.

(** The raw window of one trial, as the loop body of [clean_trials]
    selects it. *)
Definition rawtrial (df : list sample) (trialevents : list event)
           (trialnum : nat) : result (list sample) :=
  (do se <- iloc_first_last (trial_times trialevents trialnum);
   Ok (filter (in_window (fst se) (snd se)) df))%result.

Section CleanTrials.
(** [pupil_utils.deblink] and [pupil_utils.resamp_filt_data] are not part
    of the script; the loop is stated over any two such stages. *)
Context {clean resamp : Type}.
Variable deblink : list sample -> result clean.
Variable resamp_filt_data : clean -> result resamp.

Definition clean_trials (df : list sample) (trialevents : list event)
  : result (list (nat * resamp)) :=
  rmapM (fun trialnum =>
           (do raw <- rawtrial df trialevents trialnum;
            do cleantrial <- deblink raw;
            do trial_resamp <- resamp_filt_data cleantrial;
            Ok (trialnum, trial_resamp))%result)
        (trial_numbers trialevents).
End CleanTrials.
End fluency_proc_subject.

(** One row of a conditioned trial, as [pupil_utils.resamp_filt_data]
    returns it and as [clean_trials] extends it. *)
Record resampled : Type := mkResampled {
  Timestamp : Z;                       (* DatetimeIndex *)
  r_CurrentObject : option string;
  r_Phase : option string;
  DiameterPupilLRFilt : option Q;
  BlinksLR : option Q;
  Baseline : option Q;
  Dilation : option Q;
  r_Condition : option string
}.

Definition set_Baseline (b : option Q) (r : resampled) : resampled :=
  mkResampled (Timestamp r) (r_CurrentObject r) (r_Phase r)
              (DiameterPupilLRFilt r) (BlinksLR r) b (Dilation r)
              (r_Condition r).

Definition set_Dilation (d : option Q) (r : resampled) : resampled :=
  mkResampled (Timestamp r) (r_CurrentObject r) (r_Phase r)
              (DiameterPupilLRFilt r) (BlinksLR r) (Baseline r) d
              (r_Condition r).

Definition set_Timestamp (t : Z) (r : resampled) : resampled :=
  mkResampled t (r_CurrentObject r) (r_Phase r)
              (DiameterPupilLRFilt r) (BlinksLR r) (Baseline r) (Dilation r)
              (r_Condition r).

Definition set_r_Condition (c : option string) (r : resampled) : resampled :=
  mkResampled (Timestamp r) (r_CurrentObject r) (r_Phase r)
              (DiameterPupilLRFilt r) (BlinksLR r) (Baseline r) (Dilation r)
              c.

Definition set_Phase (p : string) (s : sample) : sample :=
  mkSample (s_index s) (TETTime s) (CurrentObject s) (DiameterPupilLR s)
           (Some p).

(** One output row of the bin aggregation: [resample(...).mean()] restricted
    to the columns the scripts write out. *)
Record binned : Type := mkBinned {
  b_Timestamp : Z;
  b_Dilation : option Q;
  b_Baseline : option Q;
  b_Diameter : option Q;
  b_BlinkPct : option Q
}.

Definition mean_bin (g : Z * list resampled) : binned :=
  mkBinned (fst g)
           (Pandas.mean (map Dilation (snd g)))
           (Pandas.mean (map Baseline (snd g)))
           (Pandas.mean (map DiameterPupilLRFilt (snd g)))
           (Pandas.mean (map BlinksLR (snd g))).

(** [x.resample(width, ...).mean()] on one trial. *)
Definition resample_mean (width : Z) (closed label : Pandas.side)
           (rows : list resampled) : list binned :=
  map mean_bin (Pandas.resample Timestamp width closed label rows).

(** What the bins of one trial look like when they are closed and labelled
    on the right: every label is a bin edge, the bin labelled [L] is the mean
    of the rows with [L - width < t <= L], and every row falls in a bin. *)
Definition bins_right_closed (width : Z) (rows : list resampled)
           (bins : list binned) : Prop :=
  (forall b, In b bins ->
     (exists k, b_Timestamp b = width * k)%Z
     /\ b = mean_bin (b_Timestamp b,
                      filter (fun r => (b_Timestamp b - width <? Timestamp r)%Z
                                       && (Timestamp r <=? b_Timestamp b)%Z)
                             rows))
  /\ (forall r, In r rows ->
        exists b, In b bins
                  /\ (b_Timestamp b - width < Timestamp r <= b_Timestamp b)%Z).

(** The same for bins closed and labelled on the left: the bin labelled [L]
    is the mean of the rows with [L <= t < L + width]. *)
Definition bins_left_closed (width : Z) (rows : list resampled)
           (bins : list binned) : Prop :=
  (forall b, In b bins ->
     (exists k, b_Timestamp b = width * k)%Z
     /\ b = mean_bin (b_Timestamp b,
                      filter (fun r => (b_Timestamp b <=? Timestamp r)%Z
                                       && (Timestamp r <? b_Timestamp b + width)%Z)
                             rows))
  /\ (forall r, In r rows ->
        exists b, In b bins
                  /\ (b_Timestamp b <= Timestamp r < b_Timestamp b + width)%Z).

(** [a < t <= b] on the time stamp of a row. *)
Definition between_bool (a b : Z) (r : resampled) : bool :=
  ((a <? Timestamp r) && (Timestamp r <=? b))%Z.

(** The rows of the right-closed bin of width [width] labelled [L]. *)
Definition bin_rows (width L : Z) (rows : list resampled) : list resampled :=
  filter (between_bool (L - width) L) rows.

(** The six 1 s bins inside the 6 s bin labelled [L]. *)
Definition fine_bins (L : Z) (rows : list resampled)
  : list (list resampled) :=
  map (fun j => bin_rows 1000 (L - 6000 + 1000 * j) rows) [1; 2; 3; 4; 5; 6]%Z.

(** Total and number of the present dilation values of some rows. *)
Definition dilation_total (rows : list resampled) : Q :=
  Pandas.Qsum (Pandas.valid (map Dilation rows)).

Definition dilation_count (rows : list resampled) : nat :=
  List.length (Pandas.valid (map Dilation rows)).

(** Plain average of a list of bin values. *)
Definition Qmean (l : list Q) : Q :=
  Pandas.Qsum l / inject_Z (Z.of_nat (List.length l)).

(** The rows of a conditioned trial come in time order. *)
Definition time_ordered (rows : list resampled) : Prop :=
  Sorted Z.le (map Timestamp rows).

(** A row of the response phase of an encoding trial: its label starts
    with [PlayWord]. *)
Definition is_playword (r : resampled) : bool :=
  match r_CurrentObject r with
  | Some l => String.prefix "PlayWord" l
  | None => false
  end.




(** Offsets on a [DatetimeIndex], which is sorted: [searchsorted] is the
    number of entries before the insertion point. *)
Module Offsets.
Definition searchsorted_left (ts : list Z) (v : Z) : nat :=
  List.length (filter (fun t => (t <? v)%Z) ts).

Definition searchsorted_right (ts : list Z) (v : Z) : nat :=
  List.length (filter (fun t => (t <=? v)%Z) ts).

(** [Series.last(offset)]: the rows after [index[-1] - offset]. *)
Definition last_offset (offset : Z) (rows : list resampled)
  : list resampled :=
  match rows with
  | [] => []
  | r0 :: _ =>
      let start_date := (Timestamp (last rows r0) - offset)%Z in
      skipn (searchsorted_right (map Timestamp rows) start_date) rows
  end.

(** [Series.first(offset)]: the rows before [index[0] + offset]. *)
Definition first_offset (offset : Z) (rows : list resampled)
  : list resampled :=
  match rows with
  | [] => []
  | r0 :: _ =>
      let end_date := (Timestamp r0 + offset)%Z in
      firstn (searchsorted_left (map Timestamp rows) end_date) rows
  end.
End Offsets.

(* ===================================================================== *)
(** ** hvlt_encoding_proc_subject.py *)
(* ===================================================================== *)

Module hvlt_encoding_proc_subject.
Import Pandas.

(** [df.CurrentObject.isnull()] *)
Definition isnull (df : list sample) : list bool :=
  map (fun s => match CurrentObject s with None => true | Some _ => false end)
      df.

(** [isnull != isnull.shift()], cell by cell: the shifted column has a
    missing first cell, which differs from everything. *)
Definition ne_bool (a : bool) (b : option bool) : bool :=
  match b with
  | Some b' => xorb a b'
  | None => true
  end.

Fixpoint ne_shifted (a : list bool) (b : list (option bool)) : list bool :=
  match a, b with
  | x :: a', y :: b' => ne_bool x y :: ne_shifted a' b'
  | _, _ => []
  end.

(** [Series.cumsum()] of a boolean column. *)
Fixpoint cumsum_from (acc : nat) (l : list bool) : list nat :=
  match l with
  | [] => []
  | b :: l' =>
      let acc' := if b then S acc else acc in
      acc' :: cumsum_from acc' l'
  end.

Definition cumsum (l : list bool) : list nat := cumsum_from 0 l.

Definition partitions (df : list sample) : list nat :=
  cumsum (ne_shifted (isnull df) (shift (map Some (isnull df)))).

(** [df[~isnull]] with the partition number of every remaining row. *)
Definition keyed_rows (df : list sample) : list (nat * sample) :=
  filter (fun p => match CurrentObject (snd p) with
                   | None => false
                   | Some _ => true
                   end)
         (combine (partitions df) df).

(** Adjacent duplicates removed. *)
Fixpoint dedup (l : list nat) : list nat :=
  match l with
  | [] => []
  | x :: l' =>
      match l' with
      | [] => [x]
      | y :: _ => if (x =? y)%nat then dedup l' else x :: dedup l'
      end
  end.

(** [groupby(keys)]: one group per distinct key, keys in sorted order,
    rows of a group in frame order. *)
Definition groupby (kv : list (nat * sample)) : list (nat * list sample) :=
  map (fun k =>
         (k, map snd (filter (fun p => (fst p =? k)%nat) kv)))
      (dedup (sort_by (fun k => k) (map fst kv))).

(** [pd.concat(frames, keys=...)] followed by the two [reset_index]
    calls: the rows of every frame in turn, each with the key of its
    frame in the [Trial] column; [ValueError] when there is no frame. *)
Definition concat_keys (keys : list nat) (frames : list (list sample))
  : result (list (nat * sample)) :=
  match frames with
  | [] => Raise ValueError
  | _ => Ok (flat_map (fun kf => map (pair (fst kf)) (snd kf))
                      (combine keys frames))
  end.

Definition get_trial_events (df : list sample)
  : result (list (nat * sample)) :=
  let gb := groupby (keyed_rows df) in
  let trial_nums := range 1 (List.length gb + 1) in
  concat_keys trial_nums (map snd gb).

(** Line 54: rows labelled [Ready] or containing [PlayWord]. *)
Definition retained (s : sample) : bool :=
  eq_lit (CurrentObject s) "Ready"
  || match CurrentObject s with
     | Some l => contains "PlayWord" l
     | None => false
     end.

(** [trialevents.loc[trialevents.Trial==trial]] then line 54. *)
Definition rawtrial (trialevents : list (nat * sample)) (trial : nat)
  : list sample :=
  filter retained
         (map snd (filter (fun p => (fst p =? trial)%nat) trialevents)).

(** [frame[Series.str.match(pat)]]: the rows whose label starts with
    [pat]; a mask with a missing entry cannot index a frame. *)
Definition select_str_match (pat : string) (rows : list resampled)
  : result (list resampled) :=
  if forallb (fun r => match r_CurrentObject r with
                       | Some _ => true
                       | None => false
                       end) rows
  then Ok (filter (fun r => match r_CurrentObject r with
                            | Some l => String.prefix pat l
                            | None => false
                            end) rows)
  else Raise ValueError.

(** Line 59. *)
Definition baseline (trial_resamp : list resampled) : option Q :=
  mean (map DiameterPupilLRFilt
            (Offsets.last_offset 500
               (filter (fun r => eq_lit (r_CurrentObject r) "Ready")
                       trial_resamp))).

(** Lines 59-63 of [clean_trials]: what happens to a conditioned trial. *)
Definition dilation_rows (trial_resamp : list resampled)
  : result (list resampled) :=
  let b := baseline trial_resamp in
  let trial_resamp := map (set_Baseline b) trial_resamp in
  let trial_resamp :=
    map (fun r => set_Dilation
                    (sub_cell (DiameterPupilLRFilt r) (Baseline r)) r)
        trial_resamp in
  (do trial_resamp <- select_str_match "PlayWord" trial_resamp;
   match trial_resamp with
   | [] => Raise IndexError
   | r0 :: _ =>
       Ok (map (fun r => set_Timestamp (Timestamp r - Timestamp r0)%Z r)
               trial_resamp)
   end)%result.

Definition trial_numbers (trialevents : list (nat * sample)) : list nat :=
  unique (map fst trialevents).

Section CleanTrials.
(** [pupil_utils.deblink] (with its two thresholds) and
    [pupil_utils.resamp_filt_data] are not part of the script. *)
Variable deblink : Q -> Q -> list sample -> result (list sample).
Variable resamp_filt_data : list sample -> result (list resampled).

Definition clean_trials (trialevents : list (nat * sample))
  : result (list (nat * list resampled)) :=
  rmapM (fun trial =>
           (do cleantrial <-
                 deblink 4%Q (3 # 2)%Q (rawtrial trialevents trial);
            do trial_resamp <- resamp_filt_data cleantrial;
            do trial_resamp <- dilation_rows trial_resamp;
            Ok (trial, trial_resamp))%result)
        (trial_numbers trialevents).
End CleanTrials.

(** Line 109: the 1 s bins of every trial. *)
Definition pupildf (dfresamp : list (nat * list resampled))
  : list (nat * list binned) :=
  map (fun tr => (fst tr, resample_mean 1000 right_side right_side (snd tr)))
      dfresamp.

(** Line 125: the 6 s bins of every trial. *)
Definition dfresamp6s (dfresamp : list (nat * list resampled))
  : list (nat * list binned) :=
  map (fun tr => (fst tr, resample_mean 6000 right_side right_side (snd tr)))
      dfresamp.
End hvlt_encoding_proc_subject.

(* ===================================================================== *)
(** ** fluency_proc_subject.py: the bin aggregation *)
(* ===================================================================== *)

Module fluency_bins.
Import Pandas.

(** Line 94: [x.resample('500ms', level='Timestamp').mean()] per trial.
    No [closed] and no [label] argument is given; for a sub-daily width
    pandas then closes and labels every bin on its left edge. *)
Definition dfresamp500ms (dfresamp : list (nat * list resampled))
  : list (nat * list binned) :=
  map (fun tr => (fst tr, resample_mean 500 left_side left_side (snd tr)))
      dfresamp.
End fluency_bins.

(* ===================================================================== *)
(** ** Python names, effects and the interpreter state *)
(* ===================================================================== *)

Module Py.

(** What a name can be bound to in the scripts. *)
Inductive pyval : Type :=
| VStr (s : string)
| VFrame (df : list sample)
| VResamp (rows : list resampled)
| VTrials (trials : list (nat * list resampled))
| VBinned (rows : list (nat * list binned))
| VEvents (events : list event)
| VGlobal (name : string).       (* a module, function or import *)

(** Observable steps of a run, in the order they happen. *)
Inductive effect : Type :=
| Print (msg : string)
| ReadCsv (fname : string)
| ReadExcel (fname : string)
| PreFilter
| Deblink
| Resample
| CleanTrials
| ToCsv (outname : string)
| Plot (outname : string).

Record state : Type := mkState {
  locals : list (string * pyval);
  trace : list effect
}.

Definition prog (A : Type) : Type := state -> result A * state.

Definition ret {A} (a : A) : prog A := fun st => (Ok a, st).

Definition bind {A B} (m : prog A) (k : A -> prog B) : prog B :=
  fun st =>
    match m st with
    | (Ok a, st') => k a st'
    | (Raise e, st') => (Raise e, st')
    end.

Definition throw {A} (e : exn) : prog A := fun st => (Raise e, st).

Definition lift {A} (r : result A) : prog A := fun st => (r, st).

Definition emit (e : effect) : prog unit :=
  fun st => (Ok tt, mkState (locals st) (trace st ++ [e])).

Fixpoint assoc (name : string) (l : list (string * pyval)) : option pyval :=
  match l with
  | [] => None
  | (n, v) :: l' => if String.eqb n name then Some v else assoc name l'
  end.

(** [name = value] inside the function body. *)
Definition assign (name : string) (v : pyval) : prog unit :=
  fun st => (Ok tt, mkState ((name, v) :: locals st) (trace st)).

(** Reading a name: the function's locals, then the module's globals;
    [NameError] when neither binds it. *)
Definition load (globals : list string) (name : string) : prog pyval :=
  fun st =>
    match assoc name (locals st) with
    | Some v => (Ok v, st)
    | None =>
        if existsb (String.eqb name) globals
        then (Ok (VGlobal name), st)
        else (Raise (NameError name), st)
    end.

Definition as_frame (v : pyval) : prog (list sample) :=
  match v with VFrame df => ret df | _ => throw TypeError end.

Definition as_events (v : pyval) : prog (list event) :=
  match v with VEvents e => ret e | _ => throw TypeError end.

Definition as_trials (v : pyval) : prog (list (nat * list resampled)) :=
  match v with VTrials t => ret t | _ => throw TypeError end.

(** [os.path.splitext(fname)[-1]]: the text from the last dot of the last
    path component on, empty when that component has no dot after its
    first character. *)
Fixpoint ext_from (seen_char : bool) (cur : option string) (s : string)
  : string :=
  match s with
  | EmptyString => match cur with Some e => e | None => EmptyString end
  | String c s' =>
      if Ascii.eqb c "/"%char then ext_from false None s'
      else if Ascii.eqb c "."%char then
             if seen_char then ext_from true (Some s) s'
             else ext_from false None s'
           else ext_from true cur s'
  end.

Definition splitext_ext (fname : string) : string :=
  ext_from false None fname.

End Py.

Declare Scope prog_scope.
Delimit Scope prog_scope with prog.
Notation "x <- m ;; k" := (Py.bind m (fun x => k))
  (at level 61, m at next level, right associativity) : prog_scope.
Notation "m ;; k" := (Py.bind m (fun _ => k))
  (at level 61, right associativity) : prog_scope.

(* ===================================================================== *)
(** ** hvlt_recall_proc_subject.py *)
(* ===================================================================== *)

Module hvlt_recall_proc_subject.
Import Pandas.

(** Line 91 writes ['Start'] into the column [StatStop]. *)
Definition get_trial_events : list sample -> result (list event) :=
  TrialEvents.get_trial_events set_StatStop.

Definition trial_rows (trialevents : list event) (trialnum : nat)
  : list event :=
  filter (fun e => match Trial e with
                   | Some k => (k =? trialnum)%nat
                   | None => false
                   end) trialevents.

Definition trial_numbers (trialevents : list event) : list nat :=
  unique (flat_map (fun e => match Trial e with
                             | Some k => [k]
                             | None => []
                             end) trialevents).

(** Line 53: unpacking into exactly four names. *)
Definition unpack4 {A} (l : list A) : result (A * A * A * A) :=
  match l with
  | [a; b; c; d] => Ok (a, b, c, d)
  | _ => Raise ValueError
  end.

(** [(x.TETTime>=lo) & (x.TETTime<=hi)] with possibly missing bounds. *)
Definition between (lo hi : option Z) (s : sample) : bool :=
  match lo, hi with
  | Some a, Some b => ((a <=? TETTime s) && (TETTime s <=? b))%Z
  | _, _ => false
  end.

(** Lines 55-57: the raw window of a trial with its [Phase] column. *)
Definition rawtrial (df : list sample)
           (basestart basestop respstart respstop : option Z)
  : list sample :=
  let raw := filter (between basestart respstop) df in
  let raw := map (fun s => if between basestart basestop s
                           then set_Phase "Baseline" s else s) raw in
  map (fun s => if between respstart respstop s
                then set_Phase "Response" s else s) raw.

(** Lines 53-57 for one trial number. *)
Definition window (df : list sample) (trialevents : list event)
           (trialnum : nat) : result (list sample) :=
  (do t <- unpack4 (map e_TETTime (trial_rows trialevents trialnum));
   let '(basestart, basestop, respstart, respstop) := t in
   Ok (rawtrial df basestart basestop respstart respstop))%result.

(** Line 61. *)
Definition baseline (trial_resamp : list resampled) : option Q :=
  mean (map DiameterPupilLRFilt (Offsets.first_offset 2000 trial_resamp)).

(** Lines 61-66: what happens to a conditioned trial. *)
Definition dilation_rows (condition : option string)
           (trial_resamp : list resampled) : list resampled :=
  let b := baseline trial_resamp in
  let trial_resamp := map (set_Baseline b) trial_resamp in
  let trial_resamp :=
    map (fun r => set_Dilation
                    (sub_cell (DiameterPupilLRFilt r) (Baseline r)) r)
        trial_resamp in
  let trial_resamp :=
    filter (fun r => eq_lit (r_Phase r) "Response") trial_resamp in
  map (set_r_Condition condition) trial_resamp.

(** [df.CurrentObject.str]: the accessor exists for a column of strings
    only.  A column read from a file whose cells are all blank is a column
    of floats and has none; a column without any row is a column of
    objects and has one. *)
Definition has_str_accessor (df : list sample) : bool :=
  match df with
  | [] => true
  | _ => existsb (fun s => match CurrentObject s with
                           | Some _ => true
                           | None => false
                           end) df
  end.

(** Line 114: [df[df.CurrentObject.str.contains("Recall", na=False)]];
    [AttributeError] when the column has no [str] accessor. *)
Definition select_recall (df : list sample) : result (list sample) :=
  if has_str_accessor df
  then Ok (filter (fun s => match CurrentObject s with
                            | Some l => contains "Recall" l
                            | None => false
                            end) df)
  else Raise AttributeError.

Section Script.
(** Collaborators that are not part of the script. *)
Variable read_csv : string -> result (list sample).
Variable read_excel : string -> result (list sample).
Variable deblink : list sample -> result (list sample).
Variable resamp_filt_data : list sample -> result (list resampled).
Variable get_proc_outfile : string -> string -> string.

Definition clean_trials (df : list sample) (trialevents : list event)
  : result (list (nat * list resampled)) :=
  rmapM (fun trialnum =>
           (do raw <- window df trialevents trialnum;
            let condition :=
              match trial_rows trialevents trialnum with
              | e :: _ => Condition e
              | [] => None
              end in
            do cleantrial <- deblink raw;
            do trial_resamp <- resamp_filt_data cleantrial;
            Ok (trialnum, dilation_rows condition trial_resamp))%result)
        (trial_numbers trialevents).

(** Names bound at module level when [proc_subject] runs. *)
Definition globals : list string :=
  ["os"; "sys"; "np"; "pd"; "plt"; "sns"; "pupil_utils"; "tkinter";
   "filedialog"; "plot_trials"; "clean_trials"; "get_trial_events";
   "proc_subject"].

(** Line 121: elapsed time restarts at zero in every trial. *)
Definition rebase (rows : list resampled) : list resampled :=
  match rows with
  | [] => []
  | r0 :: _ =>
      map (fun r => set_Timestamp (Timestamp r - Timestamp r0)%Z r) rows
  end.

(** Line 122: the 1 s bins of every trial. *)
Definition dfresamp1s (dfresamp : list (nat * list resampled))
  : list (nat * list binned) :=
  map (fun tr =>
         (fst tr, resample_mean 1000 right_side right_side (snd tr)))
      dfresamp.

Import Py.

(** The body of the [for fname in filelist] loop, statement by
    statement; every name is read through [load]. *)
Definition proc_file (fname : string) : prog unit :=
  (emit (Print ("Processing " ++ fname)) ;;
   (if String.eqb (splitext_ext fname) ".gazedata"
       || String.eqb (splitext_ext fname) ".csv"
    then (emit (ReadCsv fname) ;;
          df <- lift (read_csv fname) ;;
          assign "df" (VFrame df))
    else if String.eqb (splitext_ext fname) ".xlsx"
    then (emit (ReadExcel fname) ;;
          df <- lift (read_excel fname) ;;
          assign "df" (VFrame df))
    else throw (IOError ("Could not open " ++ fname))) ;;
   (* line 114 *)
   v <- load globals "df" ;;
   df <- as_frame v ;;
   df <- lift (select_recall df) ;;
   emit PreFilter ;;
   assign "df" (VFrame df) ;;
   (* line 115 *)
   v <- load globals "df" ;;
   df <- as_frame v ;;
   emit Deblink ;;
   df <- lift (deblink df) ;;
   assign "df" (VFrame df) ;;
   (* line 116 *)
   v <- load globals "df" ;;
   df <- as_frame v ;;
   emit Resample ;;
   dfresamp <- lift (resamp_filt_data df) ;;
   assign "dfresamp" (VResamp dfresamp) ;;
   (* line 119 *)
   _ <- load globals "clean_trials" ;;
   v <- load globals "df" ;;
   df <- as_frame v ;;
   v <- load globals "trialevents" ;;
   trialevents <- as_events v ;;
   emit CleanTrials ;;
   dfresamp <- lift (clean_trials df trialevents) ;;
   assign "dfresamp" (VTrials dfresamp) ;;
   (* lines 120-121 *)
   v <- load globals "dfresamp" ;;
   dfresamp <- as_trials v ;;
   assign "dfresamp"
     (VTrials (map (fun tr => (fst tr, rebase (snd tr))) dfresamp)) ;;
   (* lines 122-128 *)
   v <- load globals "dfresamp" ;;
   dfresamp <- as_trials v ;;
   assign "pupildf" (VBinned (dfresamp1s dfresamp)) ;;
   (* lines 129-131 *)
   emit (ToCsv (get_proc_outfile fname "_ProcessedPupil.csv")) ;;
   emit (Plot (get_proc_outfile fname "_PupilPlot.png")))%prog.

(** [for fname in filelist: ...]: the first exception ends the loop. *)
Fixpoint proc_subject (filelist : list string) : prog unit :=
  match filelist with
  | [] => ret tt
  | fname :: rest =>
      (assign "fname" (VStr fname) ;;
       proc_file fname ;;
       proc_subject rest)%prog
  end.

(** The extensions [proc_subject] accepts. *)
Definition accepted (fname : string) : bool :=
  String.eqb (splitext_ext fname) ".gazedata"
  || String.eqb (splitext_ext fname) ".csv"
  || String.eqb (splitext_ext fname) ".xlsx".

(** The reader [proc_subject] picks for a file, and the step it shows
    up as. *)
Definition reader (fname : string) : result (list sample) :=
  if String.eqb (splitext_ext fname) ".gazedata"
     || String.eqb (splitext_ext fname) ".csv"
  then read_csv fname else read_excel fname.

Definition read_effect (fname : string) : effect :=
  if String.eqb (splitext_ext fname) ".gazedata"
     || String.eqb (splitext_ext fname) ".csv"
  then ReadCsv fname else ReadExcel fname.

(** The rows line 114 keeps when it returns. *)
Definition prefilter (df : list sample) : list sample :=
  filter (fun s => match CurrentObject s with
                   | Some l => contains "Recall" l
                   | None => false
                   end) df.

(** Steps that segment trials or produce output. *)
Definition is_late_effect (e : effect) : bool :=
  match e with
  | CleanTrials | ToCsv _ | Plot _ => true
  | _ => false
  end.

(** A run starts with no local bound and nothing done. *)
Definition run (filelist : list string) : result unit * state :=
  proc_subject filelist (mkState [] []).
End Script.
End hvlt_recall_proc_subject.

(* ===================================================================== *)
(** ** The grammar of a fluency / recall session *)
(* ===================================================================== *)

Module Grammar.
(** Start and stop rows strictly alternate in stream order, a start
    first: [s1 < e1 < s2 < e2 < ...]. *)
Fixpoint alternating (ss es : list nat) : bool :=
  match ss, es with
  | [], [] => true
  | s :: ss', e :: es' =>
      (s <? e)%nat
      && match ss' with
         | [] => true
         | s' :: _ => (e <? s')%nat
         end
      && alternating ss' es'
  | _, _ => false
  end.

(** A well-formed 24-boundary stream: twelve start rows, twelve stop
    rows, strictly alternating. *)
Definition well_formed (df : list sample) : bool :=
  (List.length (TrialEvents.start_rows df) =? 12)%nat
  && (List.length (TrialEvents.stop_rows df) =? 12)%nat
  && alternating (map e_index (TrialEvents.start_rows df))
                 (map e_index (TrialEvents.stop_rows df)).

(** Time stamps grow strictly with the index label. *)
Definition increasing_time (df : list sample) : Prop :=
  forall a b, In a df -> In b df ->
              (s_index a < s_index b)%nat -> (TETTime a < TETTime b)%Z.

Fixpoint interleave {A} (ss es : list A) : list A :=
  match ss, es with
  | s :: ss', e :: es' => s :: e :: interleave ss' es'
  | _, _ => []
  end.

(** What every event row says about itself. *)
Definition tags (e : event)
  : option nat * option string * option string :=
  (Trial e, TrialPhase e, StartStop e).

Definition trial_tags (k : nat)
  : list (option nat * option string * option string) :=
  [(Some k, Some "Baseline", Some "Start");
   (Some k, Some "Baseline", Some "Stop");
   (Some k, Some "Response", Some "Start");
   (Some k, Some "Response", Some "Stop")].

(** Trials 1-3 are letter trials, trials 4-6 category trials. *)
Definition condition_of (k : nat) : string :=
  if (k <=? 3)%nat then "Letter" else "Category".

Definition trial_phases (k : nat)
  : list (option nat * option string * option string) :=
  [(Some k, Some "Baseline", Some (condition_of k));
   (Some k, Some "Baseline", Some (condition_of k));
   (Some k, Some "Response", Some (condition_of k));
   (Some k, Some "Response", Some (condition_of k))].

Definition session_phases
  : list (option nat * option string * option string) :=
  flat_map trial_phases [1; 2; 3; 4; 5; 6]%nat.

(** Six trials of four events each. *)
Definition session_tags
  : list (option nat * option string * option string) :=
  flat_map trial_tags [1; 2; 3; 4; 5; 6]%nat.
End Grammar.

(** An event row carries a boundary kind. *)
Definition has_kind (e : event) : Prop :=
  StartStop e = Some "Start" \/ StartStop e = Some "Stop".

(** The events of one trial and phase, in table order. *)
Definition events_of (te : list event) (k : nat) (p : string) : list event :=
  filter (fun e => match Trial e, TrialPhase e with
                   | Some k', Some p' => (k' =? k)%nat && String.eqb p' p
                   | _, _ => false
                   end) te.

(** Rows ordered strictly by a key. *)
Definition index_lt {A} (key : A -> nat) (a b : A) : Prop :=
  (key a < key b)%nat.

(** The entries of a (trial, time) column pair that belong to trial [j]. *)
Definition trial_is (j : nat) (p : option nat * option Z) : bool :=
  match fst p with
  | Some k => (k =? j)%nat
  | None => false
  end.

(** Sample sessions. *)
Module Samples.
Definition row (i : nat) (l : string) : sample :=
  mkSample i (Z.of_nat (10 * i)) (Some l) None None.

(** One fluency trial: the letter is read, the recording file is opened,
    the answer is recorded. *)
Definition trial_block (base : nat) : list sample :=
  [row base "ReadLetter"; row (base + 1) "ReadLetter";
   row (base + 2) "BeginFile";
   row (base + 3) "RecordLetter"; row (base + 4) "RecordLetter"].

(** Six trials: 24 boundary rows. *)
Definition session6 : list sample :=
  flat_map trial_block [0; 5; 10; 15; 20; 25]%nat.

(** Five trials: 20 boundary rows. *)
Definition session5 : list sample :=
  flat_map trial_block [0; 5; 10; 15; 20]%nat.

(** A stream with twelve start rows and twelve stop rows that do not
    alternate: three letter prompts, nine one-row recordings, three
    one-row file openings, a pause between any two of them. *)
Definition scrambled : list sample :=
  [row 0 "ReadLetter"; row 1 "Pause"; row 2 "ReadLetter"; row 3 "Pause";
   row 4 "ReadLetter"; row 5 "Pause"; row 6 "RecordLetter"; row 7 "Pause";
   row 8 "RecordLetter"; row 9 "Pause"; row 10 "RecordLetter";
   row 11 "Pause"; row 12 "RecordLetter"; row 13 "Pause";
   row 14 "RecordLetter"; row 15 "Pause"; row 16 "RecordLetter";
   row 17 "Pause"; row 18 "RecordLetter"; row 19 "Pause";
   row 20 "RecordLetter"; row 21 "Pause"; row 22 "RecordLetter";
   row 23 "Pause"; row 24 "BeginFile"; row 25 "Pause"; row 26 "BeginFile";
   row 27 "Pause"; row 28 "BeginFile"].

(** One row of a conditioned trial: time, label, filtered diameter. *)
Definition conditioned (t : Z) (l : string) (v : Q) : resampled :=
  mkResampled t (Some l) None (Some v) (Some 0%Q) None None None.

(** Three rows, the last one exactly on the 500 ms edge. *)
Definition edge_rows : list resampled :=
  [conditioned 0 "RecordLetter" 1; conditioned 250 "RecordLetter" 2;
   conditioned 500 "RecordLetter" 6].


(** A conditioned encoding trial: one second of [Ready], then two words.
    The rows later than 500 ms before the last [Ready] row are those at
    750 and 1000 ms. *)
Definition encoding_trial : list resampled :=
  [conditioned 0 "Ready" 2; conditioned 500 "Ready" 2;
   conditioned 750 "Ready" 3; conditioned 1000 "Ready" 5;
   conditioned 1250 "PlayWord1" 6; conditioned 1500 "PlayWord2" 4].

Definition phased (t : Z) (p : string) (v : option Q) : resampled :=
  mkResampled t (Some "Recall") (Some p) v (Some 0%Q) None None None.


(** A conditioned recall trial. *)
Definition recall_trial : list resampled :=
  [phased 0 "Baseline" (Some 2%Q); phased 1000 "Baseline" (Some 4%Q);
   phased 2000 "Response" (Some 5%Q); phased 3000 "Response" (Some 3%Q)].

(** Stand-ins for the two conditioning stages, used to run the loops on
    sample data: every row passes unchanged. *)
Definition pass_deblink (hi lo : Q) (rows : list sample)
  : result (list sample) := Ok rows.

Definition pass_resamp (rows : list sample) : result (list resampled) :=
  Ok (map (fun s => mkResampled (TETTime s) (CurrentObject s) (Phase s)
                                (DiameterPupilLR s) (Some 0%Q)
                                None None None) rows).

Definition word_row (i : nat) (l : option string) (v : Q) : sample :=
  mkSample i (Z.of_nat (500 * i)) l (Some v) None.

(** An encoding stream of two trials; the first one has no [Ready] row. *)
Definition encoding_stream : list sample :=
  [word_row 0 None 3; word_row 1 (Some "PlayWord1") 3;
   word_row 2 (Some "PlayWord2") 4; word_row 3 None 3;
   word_row 4 (Some "Ready") 2; word_row 5 (Some "PlayWord1") 5].

(** One response row with its dilation. *)
Definition dilated (t : Z) (d : Q) : resampled :=
  mkResampled t (Some "PlayWord1") None (Some (d + 3)%Q) (Some 0%Q)
              (Some 3%Q) (Some d) None.

(** Twelve seconds of response: two rows in the first second, one row in
    every later second. *)
Definition uneven_rows : list resampled :=
  [dilated 0 0; dilated 500 0; dilated 1000 0; dilated 2000 6;
   dilated 3000 6; dilated 4000 6; dilated 5000 6; dilated 6000 6;
   dilated 7000 6; dilated 8000 6; dilated 9000 6; dilated 10000 6;
   dilated 11000 6; dilated 12000 6].

(** Twelve seconds of response, two rows in every second. *)
Definition even_rows : list resampled :=
  [dilated 500 1; dilated 1000 3; dilated 1500 2; dilated 2000 2;
   dilated 2500 5; dilated 3000 1; dilated 3500 4; dilated 4000 4;
   dilated 4500 0; dilated 5000 2; dilated 5500 7; dilated 6000 5].

(** Stand-ins for the collaborators of the recall script. *)
Definition recall_file : list sample :=
  [row 0 "RecallInstructions"; row 1 "RecallLetter"; row 2 "Pause"].

Definition read_sample (fname : string) : result (list sample) :=
  Ok recall_file.

(** A recording whose event label is blank in every row. *)
Definition blank_file : list sample :=
  [mkSample 0 0 None (Some 3%Q) None; mkSample 1 10 None (Some 3%Q) None].

Definition read_blank (fname : string) : result (list sample) :=
  Ok blank_file.

Definition outfile (fname suffix : string) : string := fname ++ suffix.

(** A stream without any boundary label. *)
Definition session0 : list sample :=
  [row 0 "Ready"; row 1 "PlayWord1"; row 2 "PlayWord2"].
End Samples.

(* ===================================================================== *)
(** ** Trials of an encoding session, in the words of the specification *)
(* ===================================================================== *)

(** A trial is a maximal run of consecutive rows with an event label; the
    runs are numbered from 1 in stream order.  The stream is read once:
    [n] is the number of the last run opened and [in_run] tells whether the
    previous row had a label.  A row with a label continues the open run or
    opens run [n + 1]; a row without one closes the run and is dropped. *)
Fixpoint label_runs (n : nat) (in_run : bool) (df : list sample)
  : list (nat * sample) :=
  match df with
  | [] => []
  | s :: rest =>
      match CurrentObject s with
      | None => label_runs n false rest
      | Some _ =>
          let n' := if in_run then n else S n in
          (n', s) :: label_runs n' true rest
      end
  end.

(** Auxiliary functions: the steps of the encoding [get_trial_events] read as
    single passes over the stream. *)
Module Runs.
Import hvlt_encoding_proc_subject.

(** [isnull != isnull.shift()] with the previous cell carried along. *)
Fixpoint changes (prev : option bool) (l : list bool) : list bool :=
  match l with
  | [] => []
  | b :: l' => ne_bool b prev :: changes (Some b) l'
  end.

Definition has_label (p : nat * sample) : bool :=
  match CurrentObject (snd p) with
  | None => false
  | Some _ => true
  end.

(** The labelled rows with their partition numbers, from a running sum
    [acc] and a previous null flag [prev]. *)
Definition keyed (acc : nat) (prev : option bool) (df : list sample)
  : list (nat * sample) :=
  filter has_label (combine (cumsum_from acc (changes prev (isnull df))) df).

(** Rows numbered by blocks of equal keys: the number grows when the key
    differs from the previous one. *)
Fixpoint renumber (n : nat) (prev : nat) (kv : list (nat * sample))
  : list (nat * sample) :=
  match kv with
  | [] => []
  | (k, a) :: kv' =>
      let n' := if (k =? prev)%nat then n else S n in
      (n', a) :: renumber n' k kv'
  end.

Definition rows_with (kv : list (nat * sample)) (k : nat) : list sample :=
  map snd (filter (fun p => (fst p =? k)%nat) kv).

(** Frames tagged with consecutive numbers from [n] on. *)
Definition tag_from (n : nat) (frames : list (list sample))
  : list (nat * sample) :=
  flat_map (fun kf => map (pair (fst kf)) (snd kf))
           (combine (seq n (List.length frames)) frames).
End Runs.

(* ===================================================================== *)
(** ** hvlt_encoding_proc_subject.py: the rest of the script *)
(* ===================================================================== *)

Module hvlt_encoding_script.
Import Pandas Py.

(** [define_condition], lines 68-70: every row gets ['Record'] when it is
    more than one second after the first row of the frame, ['Ready']
    otherwise; [TETTime.iloc[0]] needs a first row. *)
Definition define_condition (trialdf : list sample)
  : result (list (sample * string)) :=
  match trialdf with
  | [] => Raise IndexError
  | s0 :: _ =>
      Ok (map (fun s =>
                 (s, if (1000 <? TETTime s - TETTime s0)%Z
                     then "Record" else "Ready"))
              trialdf)
  end.

Section Script.
(** Collaborators that are not part of the script. *)
Variable read_csv : string -> result (list sample).
Variable read_excel : string -> result (list sample).
Variable get_subid : list sample -> string -> result string.
Variable get_timepoint : list sample -> string -> result string.
Variable deblink : Q -> Q -> list sample -> result (list sample).
Variable resamp_filt_data : list sample -> result (list resampled).
Variable get_proc_outfile : string -> string -> string.

(** The body of the [for fname in filelist] loop, lines 97-137.  The
    statement on line 136 is a bare string and does nothing.  The
    reshaping of the cleaned table (lines 108-118 and 125-134) and
    [plot_trials] are pandas and matplotlib calls; they show up as the
    steps they lead to and are taken to return. *)
Definition proc_file (fname : string) : prog unit :=
  (emit (Print ("Processing " ++ fname)) ;;
   df <- (if String.eqb (splitext_ext fname) ".gazedata"
             || String.eqb (splitext_ext fname) ".csv"
          then (emit (ReadCsv fname) ;; lift (read_csv fname))
          else if String.eqb (splitext_ext fname) ".xlsx"
          then (emit (ReadExcel fname) ;; lift (read_excel fname))
          else throw (IOError ("Could not open " ++ fname))) ;;
   subid <- lift (get_subid df fname) ;;
   timepoint <- lift (get_timepoint df fname) ;;
   trialevents <- lift (hvlt_encoding_proc_subject.get_trial_events df) ;;
   emit CleanTrials ;;
   dfresamp <- lift (hvlt_encoding_proc_subject.clean_trials
                       deblink resamp_filt_data trialevents) ;;
   let pupildf := hvlt_encoding_proc_subject.pupildf dfresamp in
   emit (ToCsv (get_proc_outfile fname "_ProcessedPupil.csv")) ;;
   emit (Print ("Writing processed data to "
                  ++ get_proc_outfile fname "_ProcessedPupil.csv")) ;;
   emit (Plot (get_proc_outfile fname "_PupilPlot.png")) ;;
   let pupildf6s := hvlt_encoding_proc_subject.dfresamp6s dfresamp in
   emit (ToCsv (get_proc_outfile fname "_ProcessedPupil_Quartiles.csv")))%prog.

(** [for fname in filelist: ...]: the first exception ends the loop. *)
Fixpoint proc_subject (filelist : list string) : prog unit :=
  match filelist with
  | [] => ret tt
  | fname :: rest => (proc_file fname ;; proc_subject rest)%prog
  end.

(** What a complete pass over one file leaves in the trace. *)
Definition file_trace (fname : string) : list effect :=
  [Print ("Processing " ++ fname);
   (if String.eqb (splitext_ext fname) ".gazedata"
       || String.eqb (splitext_ext fname) ".csv"
    then ReadCsv fname else ReadExcel fname);
   CleanTrials;
   ToCsv (get_proc_outfile fname "_ProcessedPupil.csv");
   Print ("Writing processed data to "
            ++ get_proc_outfile fname "_ProcessedPupil.csv");
   Plot (get_proc_outfile fname "_PupilPlot.png");
   ToCsv (get_proc_outfile fname "_ProcessedPupil_Quartiles.csv")].

(** All the steps of one file return normally. *)
Definition file_ok (fname : string) : Prop :=
  hvlt_recall_proc_subject.accepted fname = true
  /\ exists df subid timepoint trialevents dfresamp,
      hvlt_recall_proc_subject.reader read_csv read_excel fname = Ok df
      /\ get_subid df fname = Ok subid
      /\ get_timepoint df fname = Ok timepoint
      /\ hvlt_encoding_proc_subject.get_trial_events df = Ok trialevents
      /\ hvlt_encoding_proc_subject.clean_trials
           deblink resamp_filt_data trialevents = Ok dfresamp.

(** A run starts with no local bound and nothing done. *)
Definition run (filelist : list string) : result unit * state :=
  proc_subject filelist (mkState [] []).
End Script.
End hvlt_encoding_script.

(* ===================================================================== *)
(** ** Auxiliary notions for the trial-event table *)
(* ===================================================================== *)

(** The start mask read as one pass over the labels: [last] is the last
    present label met before the previous row, [prev] the label of the
    previous row. *)
Fixpoint start_mask (last prev : option string) (l : list (option string))
  : list bool :=
  match l with
  | [] => []
  | x :: l' =>
      let f := match prev with Some v => Some v | None => last end in
      Pandas.ne_cell x f :: start_mask f x l'
  end.

(** Where a row of the trial-event table comes from: it is one of the
    blank rows pandas creates for an empty frame, or it copies the index,
    time stamp and label of a raw row, a start row having a start label and
    a stop row a stop label. *)
Definition event_origin (df : list sample) (e : event) : Prop :=
  (e_TETTime e = None /\ e_CurrentObject e = None)
  \/ exists s,
      In s df
      /\ e_index e = s_index s
      /\ e_TETTime e = Some (TETTime s)
      /\ e_CurrentObject e = CurrentObject s
      /\ (StartStop e = Some "Start" ->
          CurrentObject s = Some "ReadLetter"
          \/ CurrentObject s = Some "RecordLetter")
      /\ (StartStop e = Some "Stop" ->
          CurrentObject s = Some "BeginFile"
          \/ CurrentObject s = Some "RecordLetter").

(** The counts of start and stop rows with which the extraction returns. *)
Definition counts_accepted (df : list sample) : Prop :=
  (List.length (TrialEvents.start_rows df) = 12
   \/ List.length (TrialEvents.start_rows df) = 0)%nat
  /\ (List.length (TrialEvents.stop_rows df) = 12
      \/ List.length (TrialEvents.stop_rows df) = 0)%nat.

(** What the loop body of the encoding [clean_trials] does with one trial
    number. *)
Definition encoding_trial_result
           (deblink : Q -> Q -> list sample -> result (list sample))
           (resamp_filt_data : list sample -> result (list resampled))
           (trialevents : list (nat * sample)) (trial : nat)
  : result (nat * list resampled) :=
  (do cleantrial <-
        deblink 4%Q (3 # 2)%Q
                (hvlt_encoding_proc_subject.rawtrial trialevents trial);
   do trial_resamp <- resamp_filt_data cleantrial;
   do trial_resamp <- hvlt_encoding_proc_subject.dilation_rows trial_resamp;
   Ok (trial, trial_resamp))%result.

(** A list of trial numbers is dense from [prev] on: every entry repeats
    the one before it or is its successor. *)
Fixpoint dense (prev : nat) (l : list nat) : Prop :=
  match l with
  | [] => True
  | x :: l' => (x = prev \/ x = S prev) /\ dense x l'
  end.

(** The state of the one-pass reading after a piece of the stream: the
    number of the last run opened and whether a run is open. *)
Fixpoint run_state (n : nat) (in_run : bool) (df : list sample)
  : nat * bool :=
  match df with
  | [] => (n, in_run)
  | s :: rest =>
      match CurrentObject s with
      | None => run_state n false rest
      | Some _ => run_state (if in_run then n else S n) true rest
      end
  end.

Definition labelled (s : sample) : Prop := CurrentObject s <> None.

Definition blank (s : sample) : Prop := CurrentObject s = None.

(** Every row of a conditioned trial has a label. *)
Definition all_labelled (rows : list resampled) : Prop :=
  Forall (fun r => r_CurrentObject r <> None) rows.

(** Stand-ins for the collaborators of the encoding script, used to run
    it on sample data: two trials, each with [Ready] rows and a word. *)
Module EncodingSamples.
Definition encoding_file : list sample :=
  [Samples.word_row 0 (Some "Ready") 2; Samples.word_row 1 (Some "Ready") 2;
   Samples.word_row 2 (Some "PlayWord1") 5; Samples.word_row 3 None 3;
   Samples.word_row 4 (Some "Ready") 3;
   Samples.word_row 5 (Some "PlayWord1") 4].

Definition read_encoding (fname : string) : result (list sample) :=
  Ok encoding_file.

Definition name_of (df : list sample) (fname : string) : result string :=
  Ok fname.
End EncodingSamples.

(* ===================================================================== *)
(** * Properties *)
(* ===================================================================== *)

Open Scope list_scope.
Open Scope nat_scope.

(** ** Sorting by index *)

Section SortFacts.
Context {A : Type} (key : A -> nat).

Local Abbreviation key_lt := (index_lt key).

Lemma insert_by_middle (x : A) (l1 l2 : list A) :
  Forall (fun a => key_lt a x) l1 ->
  Forall (fun b => key_lt x b) l2 ->
  Pandas.insert_by key x (l1 ++ l2) = l1 ++ x :: l2.
Proof.
  intros H1 H2. induction H1 as [|a l1 Ha _ IH]; simpl.
  - destruct l2 as [|b l2]; [reflexivity|].
    simpl. inversion H2 as [|? ? Hb _]; subst. unfold index_lt in Hb.
    destruct (Nat.leb_spec (key x) (key b)); [reflexivity | lia].
  - unfold index_lt in Ha.
    destruct (Nat.leb_spec (key x) (key a)); [lia|].
    now rewrite IH.
Qed.

Lemma strongly_sorted_split (l1 l2 : list A) (x : A) :
  StronglySorted key_lt (l1 ++ x :: l2) ->
  Forall (fun a => key_lt a x) l1 /\ Forall (fun b => key_lt x b) l2
  /\ StronglySorted key_lt (l1 ++ l2).
Proof.
  induction l1 as [|a l1 IH]; simpl; intros H.
  - inversion H; subst. auto.
  - inversion H as [|? ? Hs Hall]; subst.
    destruct (IH Hs) as (F1 & F2 & S12).
    rewrite Forall_app in Hall. destruct Hall as [Ha1 Ha2].
    inversion Ha2 as [|? ? Hax Ha2']; subst.
    repeat split; auto.
    constructor; auto. rewrite Forall_app. auto.
Qed.

(** A strictly sorted arrangement of the rows is the one [sort_index]
    returns. *)
Lemma sort_by_unique (l l' : list A) :
  StronglySorted key_lt l' -> Permutation l l' ->
  Pandas.sort_by key l = l'.
Proof.
  revert l'. induction l as [|x l IH]; intros l' Hs Hp.
  - apply Permutation_nil in Hp. now subst.
  - assert (Hin : In x l') by (eapply Permutation_in; [exact Hp | now left]).
    destruct (in_split _ _ Hin) as (l1 & l2 & ->).
    apply Permutation_cons_app_inv in Hp.
    destruct (strongly_sorted_split _ _ _ Hs) as (F1 & F2 & S12).
    simpl. rewrite (IH _ S12 Hp). now apply insert_by_middle.
Qed.

Lemma insert_by_perm (x : A) (l : list A) :
  Permutation (x :: l) (Pandas.insert_by key x l).
Proof.
  induction l as [|y l IH]; simpl; [reflexivity|].
  destruct (key x <=? key y)%nat; [reflexivity|].
  rewrite perm_swap. now constructor.
Qed.

Lemma sort_by_perm (l : list A) : Permutation l (Pandas.sort_by key l).
Proof.
  induction l as [|x l IH]; simpl; [constructor|].
  rewrite <- insert_by_perm. now constructor.
Qed.

Lemma sort_by_length (l : list A) :
  List.length (Pandas.sort_by key l) = List.length l.
Proof. symmetry. apply Permutation_length, sort_by_perm. Qed.

Lemma interleave_perm (ss es : list A) :
  List.length ss = List.length es ->
  Permutation (ss ++ es) (Grammar.interleave ss es).
Proof.
  revert es. induction ss as [|s ss IH]; intros [|e es] Hl;
    simpl in *; try discriminate; [constructor|].
  constructor. rewrite <- Permutation_middle. constructor.
  apply IH. lia.
Qed.

Lemma interleave_length (ss es : list A) :
  List.length ss = List.length es ->
  List.length (Grammar.interleave ss es) = List.length ss + List.length es.
Proof.
  intros H. rewrite <- length_app.
  symmetry. now apply Permutation_length, interleave_perm.
Qed.

Lemma interleave_sorted (ss es : list A) :
  Grammar.alternating (map key ss) (map key es) = true ->
  Sorted key_lt (Grammar.interleave ss es).
Proof.
  revert es. induction ss as [|s ss IH]; intros [|e es] H;
    simpl in *; try discriminate; [constructor|].
  apply andb_prop in H. destruct H as [H H3].
  apply andb_prop in H. destruct H as [H1 H2].
  apply Nat.ltb_lt in H1.
  constructor; [| constructor; exact H1].
  constructor; [now apply IH|].
  destruct ss as [|s' ss]; simpl; [constructor|].
  destruct es as [|e' es]; simpl in *; [discriminate|].
  constructor. apply Nat.ltb_lt in H2. exact H2.
Qed.

Lemma alternating_length (ss es : list nat) :
  Grammar.alternating ss es = true -> List.length ss = List.length es.
Proof.
  revert es. induction ss as [|s ss IH]; intros [|e es] H;
    simpl in *; try discriminate; [reflexivity|].
  apply andb_prop in H. destruct H as [_ H]. f_equal. now apply IH.
Qed.

(** Appending the stop rows to the start rows and sorting by index
    interleaves them when they alternate. *)
Lemma sort_by_alternating (ss es : list A) :
  Grammar.alternating (map key ss) (map key es) = true ->
  Pandas.sort_by key (ss ++ es) = Grammar.interleave ss es.
Proof.
  intros H. apply sort_by_unique.
  - apply Sorted_StronglySorted; [| now apply interleave_sorted].
    intros a b c; unfold index_lt; lia.
  - apply interleave_perm.
    apply alternating_length in H. now rewrite !length_map in H.
Qed.
End SortFacts.

(** ** Column assignment *)

Section SetColumnFacts.
Context {R V : Type} (blank : nat -> R) (setv : V -> R -> R).

Lemma set_column_same_length (rows : list R) (vals : list V) :
  List.length rows = List.length vals ->
  Pandas.set_column blank setv rows vals
  = Ok (Pandas.write_cells setv rows vals).
Proof.
  intros H. unfold Pandas.set_column.
  now rewrite (proj2 (Nat.eqb_eq _ _) H).
Qed.

Lemma set_column_mismatch (rows : list R) (vals : list V) :
  List.length rows <> List.length vals -> List.length rows <> 0 ->
  Pandas.set_column blank setv rows vals = Raise ValueError.
Proof.
  intros H1 H2. unfold Pandas.set_column.
  rewrite (proj2 (Nat.eqb_neq _ _) H1).
  now rewrite (proj2 (Nat.eqb_neq _ _) H2).
Qed.

Lemma set_column_ok_length (rows out : list R) (vals : list V) :
  Pandas.set_column blank setv rows vals = Ok out ->
  List.length out = List.length vals.
Proof.
  unfold Pandas.set_column.
  assert (W : forall (r : list R) (v : list V),
             List.length r = List.length v ->
             List.length (Pandas.write_cells setv r v) = List.length v).
  { induction r as [|a r IH]; intros [|b v] Hl; simpl in *;
      try discriminate; auto. }
  destruct (Nat.eqb_spec (List.length rows) (List.length vals)) as [E|E].
  - intros [= <-]. now apply W.
  - destruct (List.length rows =? 0); [|discriminate].
    intros [= <-]. apply W. now rewrite length_map, length_seq.
Qed.

Lemma write_cells_length (rows : list R) (vals : list V) :
  List.length rows = List.length vals ->
  List.length (Pandas.write_cells setv rows vals) = List.length rows.
Proof.
  revert vals. induction rows as [|a r IH]; intros [|b v] Hl; simpl in *;
    try discriminate; auto.
Qed.

Lemma write_cells_map {B} (f : R -> B) (rows : list R) (vals : list V) :
  (forall v r, f (setv v r) = f r) ->
  List.length rows = List.length vals ->
  map f (Pandas.write_cells setv rows vals) = map f rows.
Proof.
  intros Hf. revert vals.
  induction rows as [|a r IH]; intros [|b v] Hl; simpl in *;
    try discriminate; auto.
  rewrite Hf. f_equal. apply IH. lia.
Qed.

Lemma write_cells_read {B} (f : R -> B) (g : V -> B)
      (rows : list R) (vals : list V) :
  (forall v r, f (setv v r) = g v) ->
  List.length rows = List.length vals ->
  map f (Pandas.write_cells setv rows vals) = map g vals.
Proof.
  intros Hf. revert vals.
  induction rows as [|a r IH]; intros [|b v] Hl; simpl in *;
    try discriminate; auto.
  rewrite Hf. f_equal. apply IH. lia.
Qed.
End SetColumnFacts.

(** ** Trial events of the fluency and recall scripts *)

Section TrialEventFacts.
Import Pandas TrialEvents.

Variable mark_start : string -> event -> event.
Hypothesis mark_index : forall v e, e_index (mark_start v e) = e_index e.

Local Abbreviation phases := (tile ["Baseline"; "Response"] 6).

(** A start count or a stop count other than 12 and 0 raises. *)
Lemma get_trial_events_raises (df : list sample) :
  (List.length (start_rows df) <> 12 /\ List.length (start_rows df) <> 0)
  \/ (List.length (stop_rows df) <> 12 /\ List.length (stop_rows df) <> 0) ->
  get_trial_events mark_start df = Raise ValueError.
Proof.
  intros H. unfold get_trial_events.
  destruct (set_column blank_event set_TrialPhase (start_rows df)
                       (tile ["Baseline"; "Response"] 6)) as [st|e] eqn:Es.
  - cbn [rbind].
    destruct H as [[H1 H2]|[H1 H2]].
    + rewrite set_column_mismatch in Es; [discriminate | exact H1 | exact H2].
    + rewrite set_column_mismatch; [reflexivity | exact H1 | exact H2].
  - cbn [rbind]. unfold set_column in Es.
    destruct (_ =? _); [discriminate|].
    destruct (_ =? _); [discriminate|]. now injection Es as <-.
Qed.

(** On a well-formed stream the table is the interleaving of the start
    and stop rows with the four columns written position by position. *)
Lemma get_trial_events_well_formed (df : list sample) :
  Grammar.well_formed df = true ->
  get_trial_events mark_start df
  = Ok (write_cells set_Condition
          (write_cells set_Trial
             (Grammar.interleave
                (map (mark_start "Start")
                     (write_cells set_TrialPhase (start_rows df) phases))
                (map (set_StartStop "Stop")
                     (write_cells set_TrialPhase (stop_rows df) phases)))
             (np_repeat (range 1 7) 4))
          (np_repeat ["Letter"; "Category"] 12)).
Proof.
  unfold Grammar.well_formed. intros H.
  apply andb_prop in H. destruct H as [H Ha].
  apply andb_prop in H. destruct H as [Hs He].
  apply Nat.eqb_eq in Hs, He.
  unfold get_trial_events.
  rewrite (set_column_same_length _ _ (start_rows df)) by exact Hs.
  cbn [rbind].
  rewrite (set_column_same_length _ _ (stop_rows df)) by exact He.
  cbn [rbind].
  rewrite sort_by_alternating.
  2:{ replace (map e_index (map (mark_start "Start")
                 (write_cells set_TrialPhase (start_rows df) phases)))
        with (map e_index (start_rows df)).
      2:{ rewrite map_map.
          transitivity
            (map e_index (write_cells set_TrialPhase (start_rows df) phases)).
          - symmetry. apply write_cells_map; auto.
          - apply map_ext. intros. symmetry. apply mark_index. }
      replace (map e_index (map (set_StartStop "Stop")
                 (write_cells set_TrialPhase (stop_rows df) phases)))
        with (map e_index (stop_rows df)).
      2:{ rewrite map_map. symmetry.
          apply (write_cells_map set_TrialPhase
                   (fun x => e_index (set_StartStop "Stop" x))); auto. }
      exact Ha. }
  assert (Hl : List.length
                 (Grammar.interleave
                    (map (mark_start "Start")
                         (write_cells set_TrialPhase (start_rows df) phases))
                    (map (set_StartStop "Stop")
                         (write_cells set_TrialPhase (stop_rows df) phases)))
               = 24).
  { rewrite interleave_length;
      rewrite !length_map, !write_cells_length; auto.
    - rewrite Hs, He. reflexivity.
    - congruence. }
  rewrite set_column_same_length by exact Hl. cbn [rbind].
  rewrite set_column_same_length; [reflexivity|].
  rewrite write_cells_length; exact Hl.
Qed.

(** Whenever the extraction returns, the table has 24 rows and its
    [Trial] and [Condition] columns are the fixed positional patterns. *)
Lemma get_trial_events_positional (df : list sample) (te : list event) :
  get_trial_events mark_start df = Ok te ->
  map Trial te = map Some (np_repeat (range 1 7) 4)
  /\ map Condition te = map Some (np_repeat ["Letter"; "Category"] 12).
Proof.
  unfold get_trial_events. intros H.
  destruct (set_column blank_event set_TrialPhase (start_rows df) _)
    as [st|] eqn:Es; [|discriminate]. cbn [rbind] in H.
  destruct (set_column blank_event set_TrialPhase (stop_rows df) _)
    as [sp|] eqn:Ep; [|discriminate]. cbn [rbind] in H.
  apply set_column_ok_length in Es, Ep.
  set (sorted := sort_by e_index _) in H.
  assert (Hl : List.length sorted = 24).
  { unfold sorted. rewrite sort_by_length, length_app, !length_map.
    rewrite Es, Ep. reflexivity. }
  rewrite set_column_same_length in H by exact Hl. cbn [rbind] in H.
  rewrite set_column_same_length in H
    by (rewrite write_cells_length; exact Hl).
  cbn [rbind] in H. injection H as <-. split.
  - rewrite write_cells_map; [| reflexivity | rewrite write_cells_length; exact Hl].
    apply write_cells_read; [reflexivity | exact Hl].
  - apply write_cells_read; [reflexivity |].
    rewrite write_cells_length; exact Hl.
Qed.
End TrialEventFacts.

(** Splits a list of known length into its elements. *)
Ltac explode l H :=
  repeat (destruct l as [|? l]; simpl in H; try discriminate H).

Lemma well_formed_lengths (df : list sample) :
  Grammar.well_formed df = true ->
  List.length (TrialEvents.start_rows df) = 12
  /\ List.length (TrialEvents.stop_rows df) = 12.
Proof.
  unfold Grammar.well_formed. intros H.
  apply andb_prop in H. destruct H as [H _].
  apply andb_prop in H. destruct H as [Hs He].
  now apply Nat.eqb_eq in Hs, He.
Qed.

(** On a well-formed stream the fluency table has the six-trial layout. *)
Lemma fluency_well_formed_tags (df : list sample) :
  Grammar.well_formed df = true ->
  exists te,
    fluency_proc_subject.get_trial_events df = Ok te
    /\ List.length te = 24
    /\ map Grammar.tags te = Grammar.session_tags
    /\ map (fun e => (Trial e, TrialPhase e, Condition e)) te
       = Grammar.session_phases.
Proof.
  intros H. unfold fluency_proc_subject.get_trial_events.
  rewrite get_trial_events_well_formed by (auto; reflexivity).
  destruct (well_formed_lengths _ H) as [Hs He].
  eexists. split; [reflexivity|].
  remember (TrialEvents.start_rows df) as ss eqn:Ess.
  remember (TrialEvents.stop_rows df) as es eqn:Ees.
  clear Ess Ees H.
  explode ss Hs. explode es He.
  repeat split.
Qed.

(** ** C1 *)

(** C1 (as stated, refuted): a stream without any boundary row has a
    boundary count of 0, not 24, and yet the extraction returns a table. *)
Lemma C1_counterexample_no_boundary_rows :
  List.length (TrialEvents.start_rows Samples.session0)
  + List.length (TrialEvents.stop_rows Samples.session0) <> 24
  /\ exists te,
       fluency_proc_subject.get_trial_events Samples.session0 = Ok te
       /\ List.length te = 24.
Proof.
  split; [vm_compute; discriminate|].
  eexists. split; [vm_compute; reflexivity | reflexivity].
Qed.

(** C1 (amended): trial-event extraction raises, and so produces no table,
    whenever the number of start rows is neither 12 nor 0 or the number of
    stop rows is neither 12 nor 0; and for every well-formed 24-boundary
    stream the fluency extraction produces exactly 6 trials numbered 1
    through 6, each with 4 events: Baseline Start, Baseline Stop, Response
    Start, Response Stop. *)
Theorem C1_fail_fast_or_six_trials (df : list sample) :
  ((List.length (TrialEvents.start_rows df) <> 12
    /\ List.length (TrialEvents.start_rows df) <> 0)
   \/ (List.length (TrialEvents.stop_rows df) <> 12
       /\ List.length (TrialEvents.stop_rows df) <> 0) ->
   fluency_proc_subject.get_trial_events df = Raise ValueError
   /\ hvlt_recall_proc_subject.get_trial_events df = Raise ValueError)
  /\ (Grammar.well_formed df = true ->
      exists te,
        fluency_proc_subject.get_trial_events df = Ok te
        /\ List.length te = 24
        /\ map Grammar.tags te = Grammar.session_tags).
Proof.
  split.
  - intros H. split; now apply get_trial_events_raises.
  - intros H. destruct (fluency_well_formed_tags _ H) as (te & E & L & T & _).
    now exists te.
Qed.

(** The 20-boundary stream of five trials raises; the 24-boundary stream of
    six trials yields the six-trial table. *)
Lemma C1_witness :
  (fluency_proc_subject.get_trial_events Samples.session5 = Raise ValueError
   /\ hvlt_recall_proc_subject.get_trial_events Samples.session5
      = Raise ValueError)
  /\ exists te,
       fluency_proc_subject.get_trial_events Samples.session6 = Ok te
       /\ List.length te = 24
       /\ map Grammar.tags te = Grammar.session_tags.
Proof.
  split.
  - apply (proj1 (C1_fail_fast_or_six_trials Samples.session5)).
    left. split; vm_compute; discriminate.
  - apply (proj2 (C1_fail_fast_or_six_trials Samples.session6)).
    vm_compute. reflexivity.
Defined.

(** ** C6 *)

(** C6: whenever the fluency segmenter returns, it has assigned trial
    numbers 1..6, four rows each, and condition "Letter" to the first twelve
    rows (trials 1-3) and "Category" to the last twelve (trials 4-6), by
    position alone; on a well-formed session the phases within every trial
    run Baseline, Baseline, Response, Response. *)
Theorem C6_six_trials_fixed_pattern (df : list sample) :
  (forall te,
      fluency_proc_subject.get_trial_events df = Ok te ->
      map Trial te = map Some (Pandas.np_repeat [1; 2; 3; 4; 5; 6] 4)
      /\ map Condition te
         = map Some (repeat "Letter"%string 12 ++ repeat "Category"%string 12))
  /\ (Grammar.well_formed df = true ->
      exists te,
        fluency_proc_subject.get_trial_events df = Ok te
        /\ map (fun e => (Trial e, TrialPhase e, Condition e)) te
           = Grammar.session_phases).
Proof.
  split.
  - intros te H.
    apply (get_trial_events_positional set_StartStop) in H. exact H.
  - intros H. destruct (fluency_well_formed_tags _ H) as (te & E & _ & _ & P).
    now exists te.
Qed.

Lemma C6_witness :
  exists te,
    fluency_proc_subject.get_trial_events Samples.session6 = Ok te
    /\ map Trial te = map Some (Pandas.np_repeat [1; 2; 3; 4; 5; 6] 4)
    /\ map (fun e => (Trial e, TrialPhase e, Condition e)) te
       = Grammar.session_phases.
Proof.
  destruct (proj2 (C6_six_trials_fixed_pattern Samples.session6)
                  ltac:(vm_compute; reflexivity)) as (te & E & P).
  exists te. split; [exact E|]. split; [|exact P].
  exact (proj1 (proj1 (C6_six_trials_fixed_pattern Samples.session6) te E)).
Defined.

(** On the six-trial session the recall extraction returns a table whose
    start rows carry no boundary kind: line 91 of the recall script writes
    ['Start'] into a column named [StatStop]. *)
Lemma recall_start_rows_have_no_kind :
  exists te,
    hvlt_recall_proc_subject.get_trial_events Samples.session6 = Ok te
    /\ map StartStop te = Pandas.tile [None; Some "Stop"%string] 12
    /\ map StatStop te = Pandas.tile [Some "Start"%string; None] 12.
Proof.
  eexists. split; [vm_compute; reflexivity|]. split; reflexivity.
Qed.

(** ** Trial windows *)

Lemma loc_mask_In {A} (rows : list A) (mask : list bool) (x : A) :
  In x (Pandas.loc_mask rows mask) -> In x rows.
Proof.
  revert mask. induction rows as [|r rows IH]; intros [|m mask] H;
    simpl in *; try contradiction.
  destruct m; simpl in H; [destruct H as [H|H]|]; eauto.
Qed.

Lemma start_rows_from_df (df : list sample) :
  Forall (fun e => exists s, In s df /\ e = event_of_sample s)
         (TrialEvents.start_rows df).
Proof.
  apply Forall_forall. intros e He. unfold TrialEvents.start_rows in He.
  apply filter_In in He. destruct He as [He _].
  apply in_map_iff in He. destruct He as (s & <- & Hs).
  exists s. split; [eapply loc_mask_In; eauto | reflexivity].
Qed.

Lemma stop_rows_from_df (df : list sample) :
  Forall (fun e => exists s, In s df /\ e = event_of_sample s)
         (TrialEvents.stop_rows df).
Proof.
  apply Forall_forall. intros e He. unfold TrialEvents.stop_rows in He.
  apply filter_In in He. destruct He as [He _].
  apply in_map_iff in He. destruct He as (s & <- & Hs).
  exists s. split; [eapply loc_mask_In; eauto | reflexivity].
Qed.

Ltac split_bools :=
  repeat match goal with
         | H : (_ && _)%bool = true |- _ =>
             apply andb_prop in H; destruct H
         | H : (_ <? _) = true |- _ => apply Nat.ltb_lt in H
         end.

Ltac invert_foralls :=
  repeat match goal with
         | H : Forall _ (_ :: _) |- _ =>
             let a := fresh "Hd" in
             let b := fresh "Tl" in
             apply Forall_cons_iff in H; destruct H as [a b]
         | H : Forall _ [] |- _ => clear H
         | H : exists s, In s _ /\ _ = event_of_sample s |- _ =>
             let s := fresh "smp" in
             let i := fresh "Hin" in
             destruct H as (s & i & ->)
         end.

Section WindowFacts.
Import Pandas TrialEvents.

Variable mark_start : string -> event -> event.
Hypothesis mark_index : forall v e, e_index (mark_start v e) = e_index e.
Hypothesis mark_time : forall v e, e_TETTime (mark_start v e) = e_TETTime e.

(** On a well-formed stream with increasing time stamps the 24 events
    carry strictly increasing times, four per trial. *)
Lemma event_times_increase (df : list sample) :
  Grammar.well_formed df = true ->
  Grammar.increasing_time df ->
  exists te ts,
    get_trial_events mark_start df = Ok te
    /\ map (fun e => (Trial e, e_TETTime e)) te
       = combine (map Some (np_repeat (range 1 7) 4)) (map Some ts)
    /\ List.length ts = 24
    /\ Sorted Z.lt ts.
Proof.
  intros H Hinc.
  rewrite get_trial_events_well_formed by auto.
  destruct (well_formed_lengths _ H) as [Hs He].
  unfold Grammar.well_formed in H.
  apply andb_prop in H. destruct H as [_ Ha].
  pose proof (start_rows_from_df df) as Fs.
  pose proof (stop_rows_from_df df) as Fe.
  remember (start_rows df) as ss eqn:Ess.
  remember (stop_rows df) as es eqn:Ees.
  clear Ess Ees.
  explode ss Hs. explode es He.
  invert_foralls.
  simpl in Ha. split_bools.
  match goal with
  | |- exists te ts, Ok ?tbl = Ok te /\ _ =>
      exists tbl,
        (map (fun e => match e_TETTime e with Some z => z | None => 0%Z end)
             tbl)
  end.
  split; [reflexivity|].
  cbn [map write_cells Grammar.interleave np_repeat range seq flat_map
       repeat app tile combine Nat.sub].
  cbn [e_TETTime Trial set_Condition set_Trial set_StartStop].
  rewrite !mark_time.
  cbn [e_TETTime Trial set_TrialPhase event_of_sample].
  split; [reflexivity|].
  split; [reflexivity|].
  repeat (constructor; [| try constructor; try (apply Hinc; assumption)]).
  constructor.
Qed.
End WindowFacts.

Lemma trial_times_pairs (te : list event) (j : nat) :
  fluency_proc_subject.trial_times te j
  = map snd (filter (trial_is j) (map (fun e => (Trial e, e_TETTime e)) te)).
Proof.
  unfold fluency_proc_subject.trial_times.
  induction te as [|e te IH]; [reflexivity|].
  simpl. unfold trial_is at 1. simpl.
  destruct (Trial e) as [k|]; [destruct (k =? j)|]; simpl; now rewrite IH.
Qed.

Lemma trial_rows_pairs (te : list event) (j : nat) :
  map e_TETTime (hvlt_recall_proc_subject.trial_rows te j)
  = map snd (filter (trial_is j) (map (fun e => (Trial e, e_TETTime e)) te)).
Proof. exact (trial_times_pairs te j). Qed.

Lemma recall_rawtrial_between (df : list sample) (a b c d : option Z)
      (x : sample) :
  In x (hvlt_recall_proc_subject.rawtrial df a b c d) ->
  hvlt_recall_proc_subject.between a d x = true.
Proof.
  unfold hvlt_recall_proc_subject.rawtrial. intros H.
  apply in_map_iff in H. destruct H as (x1 & <- & H).
  apply in_map_iff in H. destruct H as (x0 & <- & H).
  apply filter_In in H. destruct H as [_ H].
  assert (P : forall p s, hvlt_recall_proc_subject.between a d
                            (set_Phase p s)
                          = hvlt_recall_proc_subject.between a d s)
    by reflexivity.
  destruct (hvlt_recall_proc_subject.between c d _);
    destruct (hvlt_recall_proc_subject.between a b _);
    rewrite ?P; exact H.
Qed.

Ltac invert_sorted :=
  repeat match goal with
         | H : Sorted _ (_ :: _) |- _ => apply Sorted_inv in H; destruct H
         | H : HdRel _ _ (_ :: _) |- _ => apply HdRel_inv in H
         | H : Sorted _ [] |- _ => clear H
         | H : HdRel _ _ [] |- _ => clear H
         end.

Ltac window_bounds :=
  repeat match goal with
         | H : In _ (filter _ _) |- _ => apply filter_In in H; destruct H
         | H : In _ (hvlt_recall_proc_subject.rawtrial _ _ _ _ _) |- _ =>
             apply recall_rawtrial_between in H
         | H : fluency_proc_subject.in_window (Some _) (Some _) _ = true |- _ =>
             unfold fluency_proc_subject.in_window in H;
             apply andb_prop in H; destruct H
         | H : hvlt_recall_proc_subject.between (Some _) (Some _) _ = true |- _ =>
             unfold hvlt_recall_proc_subject.between in H;
             apply andb_prop in H; destruct H
         | H : (_ <=? _)%Z = true |- _ => apply Z.leb_le in H
         end.

(** The fluency windows of a table whose events carry increasing times. *)
Lemma fluency_windows_disjoint (df : list sample) (te : list event)
      (ts : list Z) :
  map (fun e => (Trial e, e_TETTime e)) te
  = combine (map Some (Pandas.np_repeat (Pandas.range 1 7) 4)) (map Some ts) ->
  List.length ts = 24 -> Sorted Z.lt ts ->
  forall j k wj wk,
    j <> k ->
    fluency_proc_subject.rawtrial df te j = Ok wj ->
    fluency_proc_subject.rawtrial df te k = Ok wk ->
    forall x y, In x wj -> In y wk -> TETTime x <> TETTime y.
Proof.
  intros Hp Hl Hs j k wj wk Hjk Hj Hk x y Hx Hy.
  unfold fluency_proc_subject.rawtrial in Hj, Hk.
  rewrite trial_times_pairs, Hp in Hj, Hk.
  explode ts Hl. invert_sorted.
  destruct j as [|[|[|[|[|[|[|j]]]]]]];
    cbn in Hj; try discriminate Hj; injection Hj as <-;
    destruct k as [|[|[|[|[|[|[|k]]]]]]];
    cbn in Hk; try discriminate Hk; injection Hk as <-;
    try (exfalso; apply Hjk; reflexivity);
    window_bounds; lia.
Qed.

(** The recall windows of such a table. *)
Lemma recall_windows_disjoint (df : list sample) (te : list event)
      (ts : list Z) :
  map (fun e => (Trial e, e_TETTime e)) te
  = combine (map Some (Pandas.np_repeat (Pandas.range 1 7) 4)) (map Some ts) ->
  List.length ts = 24 -> Sorted Z.lt ts ->
  forall j k wj wk,
    j <> k ->
    hvlt_recall_proc_subject.window df te j = Ok wj ->
    hvlt_recall_proc_subject.window df te k = Ok wk ->
    forall x y, In x wj -> In y wk -> TETTime x <> TETTime y.
Proof.
  intros Hp Hl Hs j k wj wk Hjk Hj Hk x y Hx Hy.
  unfold hvlt_recall_proc_subject.window in Hj, Hk.
  rewrite trial_rows_pairs, Hp in Hj, Hk.
  explode ts Hl. invert_sorted.
  destruct j as [|[|[|[|[|[|[|j]]]]]]];
    cbn in Hj; try discriminate Hj; injection Hj as <-;
    destruct k as [|[|[|[|[|[|[|k]]]]]]];
    cbn in Hk; try discriminate Hk; injection Hk as <-;
    try (exfalso; apply Hjk; reflexivity);
    window_bounds; lia.
Qed.

(** ** C9 *)

Lemma scrambled_increasing_time : Grammar.increasing_time Samples.scrambled.
Proof.
  assert (F : Forall (fun s => TETTime s = Z.of_nat (10 * s_index s))
                     Samples.scrambled)
    by (repeat constructor).
  rewrite Forall_forall in F.
  intros a b Ha Hb Hlt. rewrite (F a Ha), (F b Hb). lia.
Qed.

(** C9 (as stated, refuted): a session with twelve start rows and twelve
    stop rows that do not alternate is segmented, its time stamps increase
    strictly, and the row at time 60 lies in the window of trial 1 and in the
    window of trial 2. *)
Lemma C9_counterexample_shared_sample :
  Grammar.increasing_time Samples.scrambled
  /\ exists te w1 w2 s,
       fluency_proc_subject.get_trial_events Samples.scrambled = Ok te
       /\ fluency_proc_subject.rawtrial Samples.scrambled te 1 = Ok w1
       /\ fluency_proc_subject.rawtrial Samples.scrambled te 2 = Ok w2
       /\ TETTime s = 60%Z
       /\ In s w1 /\ In s w2.
Proof.
  split; [exact scrambled_increasing_time|].
  eexists. eexists. eexists. exists (Samples.row 6 "RecordLetter").
  split; [vm_compute; reflexivity|].
  split; [vm_compute; reflexivity|].
  split; [vm_compute; reflexivity|].
  split; [reflexivity|].
  split; simpl; tauto.
Qed.

(** C9 (amended): for every well-formed session (twelve start and twelve
    stop rows, strictly alternating) whose time stamps increase strictly
    with the row index, the per-trial windows selected by the inclusive
    ranges [trial start time, trial stop time] occupy pairwise disjoint
    time ranges over the 6 trials, in the fluency and in the recall script:
    no raw sample belongs to two windows. *)
Theorem C9_windows_disjoint (df : list sample) :
  Grammar.well_formed df = true ->
  Grammar.increasing_time df ->
  (exists te,
      fluency_proc_subject.get_trial_events df = Ok te
      /\ forall j k wj wk,
          j <> k ->
          fluency_proc_subject.rawtrial df te j = Ok wj ->
          fluency_proc_subject.rawtrial df te k = Ok wk ->
          forall x y, In x wj -> In y wk -> TETTime x <> TETTime y)
  /\ (exists te,
         hvlt_recall_proc_subject.get_trial_events df = Ok te
         /\ forall j k wj wk,
             j <> k ->
             hvlt_recall_proc_subject.window df te j = Ok wj ->
             hvlt_recall_proc_subject.window df te k = Ok wk ->
             forall x y, In x wj -> In y wk -> TETTime x <> TETTime y).
Proof.
  intros Hw Hi. split.
  - destruct (event_times_increase set_StartStop
                (fun _ _ => eq_refl) (fun _ _ => eq_refl) Hw Hi)
      as (te & ts & E & P & L & S).
    exists te. split; [exact E|].
    eapply fluency_windows_disjoint; eassumption.
  - destruct (event_times_increase set_StatStop
                (fun _ _ => eq_refl) (fun _ _ => eq_refl) Hw Hi)
      as (te & ts & E & P & L & S).
    exists te. split; [exact E|].
    eapply recall_windows_disjoint; eassumption.
Qed.

Lemma session6_increasing_time : Grammar.increasing_time Samples.session6.
Proof.
  assert (F : Forall (fun s => TETTime s = Z.of_nat (10 * s_index s))
                     Samples.session6)
    by (repeat constructor).
  rewrite Forall_forall in F.
  intros a b Ha Hb Hlt. rewrite (F a Ha), (F b Hb). lia.
Defined.

Lemma C9_witness :
  Grammar.well_formed Samples.session6 = true
  /\ Grammar.increasing_time Samples.session6
  /\ (exists te,
         fluency_proc_subject.get_trial_events Samples.session6 = Ok te
         /\ forall j k wj wk,
             j <> k ->
             fluency_proc_subject.rawtrial Samples.session6 te j = Ok wj ->
             fluency_proc_subject.rawtrial Samples.session6 te k = Ok wk ->
             forall x y, In x wj -> In y wk -> TETTime x <> TETTime y).
Proof.
  split; [vm_compute; reflexivity|].
  split; [exact session6_increasing_time|].
  exact (proj1 (C9_windows_disjoint (df := Samples.session6)
                  ltac:(vm_compute; reflexivity) session6_increasing_time)).
Defined.

(** ** Bins *)

Section BinFacts.
Import Pandas.
Open Scope Z_scope.

Variable width : Z.
Hypothesis width_pos : 0 < width.

Lemma bin_start_multiple (closed : side) (t : Z) :
  exists q, bin_start width closed t = width * q.
Proof.
  destruct closed; simpl.
  - now exists (t / width).
  - exists (- (- t / width) - 1). ring.
Qed.

Lemma bin_start_right_bounds (t : Z) :
  bin_start width right_side t < t <= bin_start width right_side t + width.
Proof.
  simpl. pose proof (Z.div_mod (- t) width ltac:(lia)) as E.
  pose proof (Z.mod_pos_bound (- t) width width_pos) as B.
  nia.
Qed.

Lemma bin_start_left_bounds (t : Z) :
  bin_start width left_side t <= t < bin_start width left_side t + width.
Proof.
  simpl. pose proof (Z.div_mod t width ltac:(lia)) as E.
  pose proof (Z.mod_pos_bound t width width_pos) as B.
  nia.
Qed.

Lemma bin_start_right_unique (t k : Z) :
  width * k < t <= width * k + width ->
  bin_start width right_side t = width * k.
Proof.
  intros H. pose proof (bin_start_right_bounds t) as B.
  destruct (bin_start_multiple right_side t) as (q & E).
  rewrite E in *. f_equal. nia.
Qed.

Lemma bin_start_left_unique (t k : Z) :
  width * k <= t < width * k + width ->
  bin_start width left_side t = width * k.
Proof.
  intros H. pose proof (bin_start_left_bounds t) as B.
  destruct (bin_start_multiple left_side t) as (q & E).
  rewrite E in *. f_equal. nia.
Qed.

Lemma in_bin_right {A} (time : A -> Z) (k : Z) (r : A) :
  in_bin time width right_side (width * k) r
  = (width * k <? time r) && (time r <=? width * k + width).
Proof.
  unfold in_bin. pose proof (bin_start_right_bounds (time r)) as B.
  destruct (Z.eqb_spec (bin_start width right_side (time r)) (width * k))
    as [E|E].
  - rewrite E in B. symmetry. apply andb_true_iff.
    split; [apply Z.ltb_lt | apply Z.leb_le]; lia.
  - symmetry. apply not_true_is_false. intros H.
    apply andb_true_iff in H. destruct H as [H1 H2].
    apply Z.ltb_lt in H1. apply Z.leb_le in H2.
    apply E. apply bin_start_right_unique. lia.
Qed.

Lemma in_bin_left {A} (time : A -> Z) (k : Z) (r : A) :
  in_bin time width left_side (width * k) r
  = (width * k <=? time r) && (time r <? width * k + width).
Proof.
  unfold in_bin. pose proof (bin_start_left_bounds (time r)) as B.
  destruct (Z.eqb_spec (bin_start width left_side (time r)) (width * k))
    as [E|E].
  - rewrite E in B. symmetry. apply andb_true_iff.
    split; [apply Z.leb_le | apply Z.ltb_lt]; lia.
  - symmetry. apply not_true_is_false. intros H.
    apply andb_true_iff in H. destruct H as [H1 H2].
    apply Z.leb_le in H1. apply Z.ltb_lt in H2.
    apply E. apply bin_start_left_unique. lia.
Qed.

Lemma fold_min_spec (d : Z) (l : list Z) :
  (fold_right Z.min d l = d \/ In (fold_right Z.min d l) l)
  /\ fold_right Z.min d l <= d
  /\ Forall (fun x => fold_right Z.min d l <= x) l.
Proof.
  induction l as [|x l (IH1 & IH2 & IH3)]; simpl.
  - repeat split; auto. lia.
  - repeat split.
    + destruct (Z.min_spec x (fold_right Z.min d l)) as [[_ ->]|[_ ->]];
        [now right; left|].
      destruct IH1 as [->|H]; auto.
    + lia.
    + constructor; [lia|].
      eapply Forall_impl; [|exact IH3]. simpl. intros. lia.
Qed.

Lemma fold_max_spec (d : Z) (l : list Z) :
  d <= fold_right Z.max d l
  /\ Forall (fun x => x <= fold_right Z.max d l) l.
Proof.
  induction l as [|x l (IH2 & IH3)]; simpl.
  - split; auto. lia.
  - split; [lia|].
    constructor; [lia|].
    eapply Forall_impl; [|exact IH3]. simpl. intros. lia.
Qed.

Section Axis.
Context {A : Type} (time : A -> Z).
Variables (closed label : side).

(** Every emitted bin starts at a multiple of the width and holds the
    rows of that bin. *)
Lemma resample_In (rows : list A) (L : Z) (g : list A) :
  In (L, g) (resample time width closed label rows) ->
  exists k, L = bin_label width label (width * k)
            /\ g = filter (in_bin time width closed (width * k)) rows.
Proof.
  unfold resample. destruct rows as [|r0 rows']; [contradiction|].
  set (rows := r0 :: rows').
  set (starts := map (fun r => bin_start width closed (time r)) rows).
  set (d := bin_start width closed (time r0)).
  intros H. apply in_map_iff in H. destruct H as (n & E & _).
  assert (Hlo : exists q, fold_right Z.min d starts = width * q).
  { destruct (proj1 (fold_min_spec d starts)) as [->|Hin].
    - apply bin_start_multiple.
    - apply in_map_iff in Hin. destruct Hin as (r & <- & _).
      apply bin_start_multiple. }
  destruct Hlo as (q & Hq). rewrite Hq in E.
  exists (q + Z.of_nat n).
  replace (width * (q + Z.of_nat n)) with (width * q + width * Z.of_nat n)
    by ring.
  now injection E as <- <-.
Qed.

(** Every row lands in the emitted bin it belongs to. *)
Lemma resample_covers (rows : list A) (r : A) :
  In r rows ->
  exists g,
    In (bin_label width label (bin_start width closed (time r)), g)
       (resample time width closed label rows)
    /\ In r g.
Proof.
  unfold resample. destruct rows as [|r0 rows']; [contradiction|].
  set (rows := r0 :: rows').
  set (starts := map (fun r => bin_start width closed (time r)) rows).
  set (d := bin_start width closed (time r0)).
  intros Hr.
  set (lo := fold_right Z.min d starts).
  set (hi := fold_right Z.max d starts).
  set (b := bin_start width closed (time r)).
  assert (Hb : In b starts) by (apply in_map_iff; now exists r).
  destruct (fold_min_spec d starts) as (Hlo & _ & Fmin).
  destruct (fold_max_spec d starts) as (_ & Fmax).
  rewrite Forall_forall in Fmin, Fmax.
  pose proof (Fmin b Hb) as Lb. pose proof (Fmax b Hb) as Ub.
  fold lo in Lb, Hlo. fold hi in Ub.
  assert (Mlo : exists q, lo = width * q).
  { destruct Hlo as [->|Hin].
    - apply bin_start_multiple.
    - apply in_map_iff in Hin. destruct Hin as (r1 & <- & _).
      apply bin_start_multiple. }
  destruct Mlo as (q & Eq).
  destruct (bin_start_multiple closed (time r)) as (qb & Eb).
  fold b in Eb.
  assert (Hq : q <= qb) by nia.
  exists (filter (in_bin time width closed b) rows). split.
  - apply in_map_iff. exists (Z.to_nat (qb - q)). split.
    + f_equal.
      * f_equal. rewrite Z2Nat.id by lia. rewrite Eq, Eb. ring.
      * f_equal. f_equal. rewrite Z2Nat.id by lia. rewrite Eq, Eb. ring.
    + apply in_seq. split; [lia|]. simpl.
      assert (qb - q <= (hi - lo) / width).
      { apply Z.div_le_lower_bound; [exact width_pos|].
        rewrite Eq in *. rewrite Eb in *. nia. }
      lia.
  - apply filter_In. split; [exact Hr|].
    unfold in_bin. apply Z.eqb_refl.
Qed.
End Axis.
End BinFacts.

Lemma resample_mean_right (width : Z) (rows : list resampled) :
  (0 < width)%Z ->
  bins_right_closed width rows
    (resample_mean width Pandas.right_side Pandas.right_side rows).
Proof.
  intros Hw. split.
  - intros b Hb. unfold resample_mean in Hb.
    apply in_map_iff in Hb. destruct Hb as ([L g] & <- & Hg).
    apply resample_In in Hg. destruct Hg as (k & -> & ->).
    simpl. split; [exists (k + 1)%Z; ring|].
    unfold mean_bin. simpl.
    replace (width * k + width - width)%Z with (width * k)%Z by ring.
    rewrite (filter_ext _ _ (in_bin_right Hw Timestamp k)).
    reflexivity.
  - intros r Hr.
    destruct (resample_covers Hw Timestamp Pandas.right_side
                              Pandas.right_side rows r Hr) as (g & Hg & _).
    exists (mean_bin
              (Pandas.bin_label width Pandas.right_side
                 (Pandas.bin_start width Pandas.right_side (Timestamp r)), g)).
    split.
    + unfold resample_mean. apply in_map. exact Hg.
    + pose proof (bin_start_right_bounds Hw (Timestamp r)).
      cbn [mean_bin b_Timestamp fst Pandas.bin_label]. lia.
Qed.

Lemma resample_mean_left (width : Z) (rows : list resampled) :
  (0 < width)%Z ->
  bins_left_closed width rows
    (resample_mean width Pandas.left_side Pandas.left_side rows).
Proof.
  intros Hw. split.
  - intros b Hb. unfold resample_mean in Hb.
    apply in_map_iff in Hb. destruct Hb as ([L g] & <- & Hg).
    apply resample_In in Hg. destruct Hg as (k & -> & ->).
    simpl. split; [exists k; ring|].
    unfold mean_bin. simpl.
    rewrite (filter_ext _ _ (in_bin_left Hw Timestamp k)).
    reflexivity.
  - intros r Hr.
    destruct (resample_covers Hw Timestamp Pandas.left_side
                              Pandas.left_side rows r Hr) as (g & Hg & _).
    exists (mean_bin
              (Pandas.bin_label width Pandas.left_side
                 (Pandas.bin_start width Pandas.left_side (Timestamp r)), g)).
    split.
    + unfold resample_mean. apply in_map. exact Hg.
    + pose proof (bin_start_left_bounds Hw (Timestamp r)).
      cbn [mean_bin b_Timestamp fst Pandas.bin_label]. lia.
Qed.

Lemma Forall2_map_right {A B} (P : A -> B -> Prop) (f : A -> B) (l : list A) :
  (forall a, P a (f a)) -> Forall2 P l (map f l).
Proof. intros H. induction l; simpl; constructor; auto. Qed.

(** ** C2 *)

(** C2 (as stated, refuted): the 500 ms bins of the fluency script are not
    right-closed and right-labelled: of three rows at 0, 250 and 500 ms the
    row on the edge opens the bin labelled 500 instead of closing it. *)
Lemma C2_counterexample_fluency_bins :
  exists bins,
    fluency_bins.dfresamp500ms [(1, Samples.edge_rows)] = [(1, bins)]
    /\ ~ bins_right_closed 500 Samples.edge_rows bins.
Proof.
  eexists. split; [reflexivity|].
  intros [H _].
  destruct (H (mkBinned 500 None None (Some 6%Q) (Some 0%Q))) as [_ E].
  - vm_compute. right. left. reflexivity.
  - vm_compute in E. discriminate E.
Qed.

(** C2 (amended): every bin aggregation takes the arithmetic mean per bin;
    the encoding script (1 s and 6 s bins) and the recall script (1 s bins)
    use right-closed, right-labelled bins (a bin's label is its end time and
    a sample on a bin edge belongs to the earlier bin), while the fluency
    script (500 ms bins) passes no edge convention and gets left-closed,
    left-labelled bins (a bin's label is its start time and a sample on a
    bin edge belongs to the later bin). *)
Theorem C2_bin_edges (dfresamp : list (nat * list resampled)) :
  Forall2 (fun tr out => fst out = fst tr
                         /\ bins_right_closed 1000 (snd tr) (snd out))
          dfresamp (hvlt_encoding_proc_subject.pupildf dfresamp)
  /\ Forall2 (fun tr out => fst out = fst tr
                            /\ bins_right_closed 6000 (snd tr) (snd out))
             dfresamp (hvlt_encoding_proc_subject.dfresamp6s dfresamp)
  /\ Forall2 (fun tr out => fst out = fst tr
                            /\ bins_right_closed 1000 (snd tr) (snd out))
             dfresamp (hvlt_recall_proc_subject.dfresamp1s dfresamp)
  /\ Forall2 (fun tr out => fst out = fst tr
                            /\ bins_left_closed 500 (snd tr) (snd out))
             dfresamp (fluency_bins.dfresamp500ms dfresamp).
Proof.
  repeat split; apply Forall2_map_right; intros [trial rows]; simpl;
    (split; [reflexivity|]);
    (apply resample_mean_right || apply resample_mean_left); lia.
Qed.

(** ** Baseline and dilation *)

Section OffsetFacts.
Open Scope Z_scope.



Lemma time_ordered_strong (rows : list resampled) :
  time_ordered rows -> StronglySorted Z.le (map Timestamp rows).
Proof.
  apply Sorted_StronglySorted. intros a b c; lia.
Qed.

Lemma time_ordered_filter (p : resampled -> bool) (rows : list resampled) :
  time_ordered rows -> time_ordered (filter p rows).
Proof.
  intros H. apply time_ordered_strong in H.
  apply StronglySorted_Sorted.
  induction rows as [|r rows IH]; simpl in *; [constructor|].
  inversion H as [|? ? Hs Hall]; subst.
  destruct (p r); simpl; [|now apply IH].
  constructor; [now apply IH|].
  rewrite Forall_forall in *. intros t Ht.
  apply in_map_iff in Ht. destruct Ht as (x & <- & Hx).
  apply filter_In in Hx. destruct Hx as [Hx _].
  apply Hall. now apply in_map.
Qed.


End OffsetFacts.



Lemma filter_map_commute {A B} (p : B -> bool) (g : A -> B) (l : list A) :
  filter p (map g l) = map g (filter (fun a => p (g a)) l).
Proof.
  induction l as [|a l IH]; simpl; [reflexivity|].
  destruct (p (g a)); simpl; now rewrite IH.
Qed.



(** ** The per-trial loops *)


Lemma rmapM_Forall2 {A B} (f : A -> result B) (l : list A) (res : list B) :
  rmapM f l = Ok res -> Forall2 (fun a b => f a = Ok b) l res.
Proof.
  revert res. induction l as [|a l IH]; simpl; intros res H.
  - injection H as <-. constructor.
  - destruct (f a) as [b|] eqn:Ea; [|discriminate]. cbn [rbind] in H.
    destruct (rmapM f l) as [bs|] eqn:El; [|discriminate]. cbn [rbind] in H.
    injection H as <-. constructor; auto.
Qed.

Lemma Forall2_In_right {A B} (P : A -> B -> Prop) (l : list A)
      (res : list B) (b : B) :
  Forall2 P l res -> In b res -> exists a, In a l /\ P a b.
Proof.
  induction 1 as [|a b' l res Hab _ IH]; simpl; [contradiction|].
  intros [<-|Hin].
  - exists a. auto.
  - destruct (IH Hin) as (a' & Ha & HP). exists a'. auto.
Qed.


Lemma encoding_clean_trials_ok
      (deblink : Q -> Q -> list sample -> result (list sample))
      (resamp_filt_data : list sample -> result (list resampled))
      (trialevents : list (nat * sample))
      (res : list (nat * list resampled)) :
  hvlt_encoding_proc_subject.clean_trials deblink resamp_filt_data trialevents
  = Ok res ->
  Forall2 (fun trial out =>
             fst out = trial
             /\ exists cleantrial trial_resamp,
                 deblink 4%Q (3 # 2)%Q
                         (hvlt_encoding_proc_subject.rawtrial trialevents trial)
                 = Ok cleantrial
                 /\ resamp_filt_data cleantrial = Ok trial_resamp
                 /\ hvlt_encoding_proc_subject.dilation_rows trial_resamp
                    = Ok (snd out))
          (hvlt_encoding_proc_subject.trial_numbers trialevents) res.
Proof.
  intros H. apply rmapM_Forall2 in H.
  eapply Forall2_impl; [|exact H]. cbn beta.
  intros trial [k rows] E.
  destruct (deblink _ _ _) as [ct|] eqn:Ed; [|discriminate]. cbn [rbind] in E.
  destruct (resamp_filt_data ct) as [tr|] eqn:Er; [|discriminate].
  cbn [rbind] in E.
  destruct (hvlt_encoding_proc_subject.dilation_rows tr) as [o|] eqn:Eo;
    [|discriminate].
  cbn [rbind] in E. injection E as <- <-.
  split; [reflexivity|]. exists ct, tr. auto.
Qed.

Lemma recall_clean_trials_ok
      (deblink : list sample -> result (list sample))
      (resamp_filt_data : list sample -> result (list resampled))
      (df : list sample) (trialevents : list event)
      (res : list (nat * list resampled)) :
  hvlt_recall_proc_subject.clean_trials deblink resamp_filt_data df trialevents
  = Ok res ->
  Forall2 (fun trialnum out =>
             fst out = trialnum
             /\ exists raw cleantrial trial_resamp condition,
                 hvlt_recall_proc_subject.window df trialevents trialnum
                 = Ok raw
                 /\ deblink raw = Ok cleantrial
                 /\ resamp_filt_data cleantrial = Ok trial_resamp
                 /\ snd out
                    = hvlt_recall_proc_subject.dilation_rows condition
                                                             trial_resamp)
          (hvlt_recall_proc_subject.trial_numbers trialevents) res.
Proof.
  intros H. apply rmapM_Forall2 in H.
  eapply Forall2_impl; [|exact H]. cbn beta.
  intros trial [k rows] E.
  destruct (hvlt_recall_proc_subject.window _ _ _) as [raw|] eqn:Ew;
    [|discriminate].
  cbn [rbind] in E.
  destruct (deblink raw) as [ct|] eqn:Ed; [|discriminate]. cbn [rbind] in E.
  destruct (resamp_filt_data ct) as [tr|] eqn:Er; [|discriminate].
  cbn [rbind] in E. injection E as <- <-.
  split; [reflexivity|]. exists raw, ct, tr. eexists.
  repeat split; auto.
Qed.

Lemma rmapM_total {A B} (f : A -> result B) (l : list A) :
  (forall a, In a l -> exists b, f a = Ok b) ->
  exists res, rmapM f l = Ok res /\ Forall2 (fun a b => f a = Ok b) l res.
Proof.
  induction l as [|a l IH]; intros H.
  - exists []. split; [reflexivity | constructor].
  - destruct (H a (or_introl eq_refl)) as (b & Eb).
    destruct IH as (bs & Ebs & F); [intros x Hx; apply H; now right|].
    exists (b :: bs). cbn [rmapM]. rewrite Eb. cbn [rbind].
    rewrite Ebs. cbn [rbind]. split; [reflexivity | now constructor].
Qed.

Lemma forallb_labelled (rows : list resampled) :
  forallb (fun r => match r_CurrentObject r with
                    | Some _ => true
                    | None => false
                    end) rows = true
  <-> all_labelled rows.
Proof.
  unfold all_labelled. rewrite forallb_forall, Forall_forall.
  split; intros H r Hr; specialize (H r Hr);
    destruct (r_CurrentObject r); congruence.
Qed.

Lemma forallb_map_commute {A B} (p : B -> bool) (g : A -> B) (l : list A) :
  forallb p (map g l) = forallb (fun a => p (g a)) l.
Proof.
  induction l as [|a l IH]; cbn [map forallb]; [reflexivity|].
  now rewrite IH.
Qed.

(** The rows [dilation_rows] works on after the two column assignments. *)
Lemma dilation_rows_unfold (tr : list resampled) :
  hvlt_encoding_proc_subject.dilation_rows tr
  = if forallb (fun r => match r_CurrentObject r with
                         | Some _ => true
                         | None => false
                         end) tr
    then match filter is_playword tr with
         | [] => Raise IndexError
         | r0 :: rest =>
             Ok (map (fun r =>
                        set_Timestamp (Timestamp r - Timestamp r0)%Z
                          (set_Dilation
                             (Pandas.sub_cell
                                (DiameterPupilLRFilt r)
                                (hvlt_encoding_proc_subject.baseline tr))
                             (set_Baseline
                                (hvlt_encoding_proc_subject.baseline tr) r)))
                     (r0 :: rest))
         end
    else Raise ValueError.
Proof.
  unfold hvlt_encoding_proc_subject.dilation_rows.
  set (b := hvlt_encoding_proc_subject.baseline tr).
  rewrite map_map.
  unfold hvlt_encoding_proc_subject.select_str_match.
  rewrite forallb_map_commute. cbn [r_CurrentObject set_Dilation set_Baseline].
  destruct (forallb _ tr); [|reflexivity]. cbn [rbind].
  fold is_playword. rewrite filter_map_commute.
  change (fun a => is_playword
                     (set_Dilation
                        (Pandas.sub_cell (DiameterPupilLRFilt (set_Baseline b a))
                                         (Baseline (set_Baseline b a)))
                        (set_Baseline b a)))
    with is_playword.
  destruct (filter is_playword tr) as [|r0 rest]; [reflexivity|].
  cbn [map]. rewrite map_map. reflexivity.
Qed.


Lemma rmapM_Forall2_iff {A B} (f : A -> result B) (l : list A)
      (res : list B) :
  rmapM f l = Ok res <-> Forall2 (fun a b => f a = Ok b) l res.
Proof.
  split; [apply rmapM_Forall2|].
  induction 1 as [|a b l res E _ IH]; [reflexivity|].
  cbn [rmapM]. rewrite E. cbn [rbind]. rewrite IH. reflexivity.
Qed.





(** ** C5 *)




(** ** C3 *)





(** ** Trials of an encoding session *)

Section RunFacts.
Import Pandas hvlt_encoding_proc_subject Runs.

Lemma ne_shifted_changes (prev : option bool) (l : list bool) :
  ne_shifted l (prev :: removelast (map Some l)) = changes prev l.
Proof.
  revert prev. induction l as [|b l IH]; intros prev; [reflexivity|].
  destruct l as [|b' l]; [reflexivity|].
  change (removelast (map Some (b :: b' :: l)))
    with (Some b :: removelast (map Some (b' :: l))).
  cbn [ne_shifted changes]. f_equal. apply IH.
Qed.

Lemma partitions_changes (df : list sample) :
  partitions df = cumsum_from 0 (changes None (isnull df)).
Proof.
  unfold partitions, cumsum, shift.
  destruct df as [|s df]; [reflexivity|].
  change (map Some (isnull (s :: df)))
    with (Some (match CurrentObject s with None => true | Some _ => false end)
            :: map Some (isnull df)).
  cbv iota. now rewrite <- ne_shifted_changes.
Qed.

Lemma keyed_rows_keyed (df : list sample) : keyed_rows df = keyed 0 None df.
Proof. unfold keyed_rows, keyed. now rewrite partitions_changes. Qed.

Lemma keyed_cons (acc : nat) (prev : option bool) (s : sample)
      (df : list sample) :
  keyed acc prev (s :: df)
  = match CurrentObject s with
    | None =>
        keyed (if ne_bool true prev then S acc else acc) (Some true) df
    | Some _ =>
        ((if ne_bool false prev then S acc else acc), s)
          :: keyed (if ne_bool false prev then S acc else acc)
                   (Some false) df
    end.
Proof.
  unfold keyed. cbn [isnull map changes cumsum_from combine filter].
  unfold has_label at 1. cbn [snd].
  destruct (CurrentObject s); reflexivity.
Qed.

(** Partition numbers never decrease along the stream. *)
Lemma keyed_sorted (df : list sample) :
  forall acc prev,
    Forall (fun p => acc <= fst p) (keyed acc prev df)
    /\ StronglySorted le (map fst (keyed acc prev df)).
Proof.
  induction df as [|s df IH]; intros acc prev.
  - split; constructor.
  - rewrite keyed_cons. destruct (CurrentObject s).
    + destruct (IH (if ne_bool false prev then S acc else acc) (Some false))
        as [F S'].
      set (acc' := if ne_bool false prev then S acc else acc) in *.
      assert (acc <= acc') by (unfold acc'; destruct (ne_bool _ _); lia).
      split.
      * constructor; [simpl; lia|].
        eapply Forall_impl; [|exact F]. simpl. intros; lia.
      * simpl. constructor; [exact S'|].
        rewrite Forall_map. exact F.
    + destruct (IH (if ne_bool true prev then S acc else acc) (Some true))
        as [F S'].
      set (acc' := if ne_bool true prev then S acc else acc) in *.
      assert (acc <= acc') by (unfold acc'; destruct (ne_bool _ _); lia).
      split; [|exact S'].
      eapply Forall_impl; [|exact F]. simpl. intros; lia.
Qed.

(** Numbering blocks of equal partition numbers numbers the runs. *)
Lemma renumber_keyed (df : list sample) :
  forall (n acc : nat) (prev : option bool) (prevkey : nat) (in_run : bool),
    (if in_run then prev = Some false /\ prevkey = acc
     else (prev = None \/ prev = Some true) /\ prevkey <= acc) ->
    renumber n prevkey (keyed acc prev df) = label_runs n in_run df.
Proof.
  induction df as [|s df IH]; intros n acc prev prevkey in_run Inv;
    [reflexivity|].
  rewrite keyed_cons. cbn [label_runs].
  destruct (CurrentObject s) as [l|].
  - destruct in_run.
    + destruct Inv as [-> ->]. cbn [ne_bool xorb renumber].
      rewrite Nat.eqb_refl. f_equal. apply IH. auto.
    + destruct Inv as [Hp Hk].
      assert (E : ne_bool false prev = true)
        by (destruct Hp as [-> | ->]; reflexivity).
      rewrite E. cbn [renumber].
      destruct (Nat.eqb_spec (S acc) prevkey); [lia|].
      f_equal. apply IH. auto.
  - destruct in_run.
    + destruct Inv as [-> ->]. cbn [ne_bool xorb].
      apply IH. split; [now right | lia].
    + destruct Inv as [Hp Hk]. apply IH.
      split; [now right|].
      destruct (ne_bool true prev); lia.
Qed.
End RunFacts.

Section GroupFacts.
Import Pandas hvlt_encoding_proc_subject Runs.

Lemma sort_by_sorted (l : list nat) :
  StronglySorted le l -> sort_by (fun k => k) l = l.
Proof.
  induction 1 as [|x l Hs IH Hall]; [reflexivity|].
  cbn [sort_by]. rewrite IH.
  destruct l as [|y l]; [reflexivity|].
  cbn [insert_by]. inversion Hall; subst.
  destruct (Nat.leb_spec x y); [reflexivity | lia].
Qed.

Lemma dedup_Forall (P : nat -> Prop) (l : list nat) :
  Forall P l -> Forall P (dedup l).
Proof.
  induction 1 as [|x l Hx Hl IH]; [constructor|].
  cbn [dedup]. destruct l as [|y l]; [now constructor|].
  destruct (x =? y); [exact IH | now constructor].
Qed.

Lemma dedup_cons2 (x y : nat) (l : list nat) :
  dedup (x :: y :: l)
  = if x =? y then dedup (y :: l) else x :: dedup (y :: l).
Proof. reflexivity. Qed.

Lemma dedup_head (k : nat) (ks : list nat) :
  StronglySorted le (k :: ks) ->
  exists rest, dedup (k :: ks) = k :: rest /\ Forall (fun x => k < x) rest.
Proof.
  revert k. induction ks as [|k1 ks IH]; intros k Hs.
  - exists []. split; [reflexivity | constructor].
  - inversion Hs as [|? ? Hs' Hall]; subst.
    inversion Hall as [|? ? Hk1 Hall']; subst.
    rewrite dedup_cons2. destruct (Nat.eqb_spec k k1) as [->|Hne].
    + exact (IH k1 Hs').
    + exists (dedup (k1 :: ks)). split; [reflexivity|].
      apply dedup_Forall.
      inversion Hs' as [|? ? _ Hall1]; subst.
      constructor; [lia|].
      eapply Forall_impl; [|exact Hall1]. simpl. intros; lia.
Qed.

Lemma tag_from_cons (n : nat) (g : list sample) (gs : list (list sample)) :
  tag_from n (g :: gs) = map (pair n) g ++ tag_from (S n) gs.
Proof. reflexivity. Qed.

Lemma rows_with_cons (k0 : nat) (a0 : sample) (kv : list (nat * sample))
      (k : nat) :
  rows_with ((k0, a0) :: kv) k
  = if k0 =? k then a0 :: rows_with kv k else rows_with kv k.
Proof.
  unfold rows_with. cbn [filter fst]. now destruct (k0 =? k).
Qed.

Lemma rows_with_none (kv : list (nat * sample)) (k : nat) :
  Forall (fun x => k < x) (map fst kv) -> rows_with kv k = [].
Proof.
  induction kv as [|[k1 a1] kv IH]; intros H; [reflexivity|].
  cbn [map fst] in H. inversion H; subst.
  rewrite rows_with_cons.
  destruct (Nat.eqb_spec k1 k); [lia | now apply IH].
Qed.

Lemma map_rows_with_skip (k0 : nat) (a0 : sample)
      (kv : list (nat * sample)) (keys : list nat) :
  Forall (fun x => k0 < x) keys ->
  map (rows_with ((k0, a0) :: kv)) keys = map (rows_with kv) keys.
Proof.
  induction 1 as [|k keys Hk _ IH]; [reflexivity|].
  cbn [map]. rewrite IH, rows_with_cons.
  destruct (Nat.eqb_spec k0 k); [lia | reflexivity].
Qed.

(** Grouping rows with non-decreasing keys and tagging the groups with
    consecutive numbers numbers the blocks of equal keys. *)
Lemma tag_groups_renumber (kv : list (nat * sample)) :
  forall (k0 : nat) (a0 : sample) (n : nat),
    StronglySorted le (k0 :: map fst kv) ->
    tag_from n (map (rows_with ((k0, a0) :: kv)) (dedup (k0 :: map fst kv)))
    = (n, a0) :: renumber n k0 kv.
Proof.
  induction kv as [|[k1 a1] kv IH]; intros k0 a0 n Hs.
  - cbn [map dedup]. rewrite rows_with_cons, Nat.eqb_refl. reflexivity.
  - cbn [map fst] in *.
    inversion Hs as [|? ? Hs' Hall]; subst.
    inversion Hall as [|? ? Hk1 Hall']; subst.
    rewrite dedup_cons2. cbn [renumber].
    destruct (Nat.eqb_spec k0 k1) as [->|Hne].
    + rewrite Nat.eqb_refl.
      destruct (dedup_head Hs') as (rest & E & F).
      specialize (IH k1 a1 n Hs'). rewrite E in IH |- *.
      cbn [map]. rewrite map_rows_with_skip by exact F.
      rewrite rows_with_cons, Nat.eqb_refl.
      rewrite tag_from_cons. cbn [map app]. f_equal.
      rewrite <- tag_from_cons. exact IH.
    + destruct (Nat.eqb_spec k1 k0) as [E|_]; [congruence|].
      assert (F : Forall (fun x => k0 < x) (k1 :: map fst kv)).
      { inversion Hs' as [|? ? _ Hall1]; subst.
        constructor; [lia|].
        eapply Forall_impl; [|exact Hall1]. simpl. intros; lia. }
      cbn [map]. rewrite map_rows_with_skip by (apply dedup_Forall, F).
      rewrite rows_with_cons, Nat.eqb_refl.
      rewrite (rows_with_none ((k1, a1) :: kv)) by exact F.
      rewrite tag_from_cons. cbn [map app]. f_equal.
      exact (IH k1 a1 (S n) Hs').
Qed.

Lemma keyed_first_key (df : list sample) :
  Forall (fun p => 1 <= fst p) (keyed 0 None df).
Proof.
  destruct df as [|s df]; [constructor|].
  rewrite keyed_cons. cbn [ne_bool].
  destruct (CurrentObject s).
  - constructor; [simpl; lia|]. apply keyed_sorted.
  - apply keyed_sorted.
Qed.

Lemma concat_keys_tag_from (frames : list (list sample)) :
  concat_keys (range 1 (List.length frames + 1)) frames
  = match frames with
    | [] => Raise ValueError
    | _ => Ok (tag_from 1 frames)
    end.
Proof.
  unfold concat_keys, range, tag_from. rewrite Nat.add_sub.
  now destruct frames.
Qed.

(** The encoding [get_trial_events] numbers the maximal runs of labelled
    rows; a stream without any labelled row has nothing to concatenate. *)
Lemma get_trial_events_label_runs (df : list sample) :
  get_trial_events df
  = match label_runs 0 false df with
    | [] => Raise ValueError
    | te => Ok te
    end.
Proof.
  rewrite <- (renumber_keyed df 0 0 None 0 false) by (split; auto).
  unfold get_trial_events, groupby. rewrite keyed_rows_keyed.
  pose proof (keyed_first_key df) as F1.
  destruct (keyed_sorted df 0 None) as [_ Hs].
  rewrite sort_by_sorted by exact Hs.
  rewrite map_map. cbn [snd].
  change (fun x : nat =>
            map snd (filter (fun p : nat * sample => fst p =? x)
                            (keyed 0 None df)))
    with (rows_with (keyed 0 None df)).
  replace (List.length
             (map (fun k : nat =>
                     (k, map snd (filter (fun p : nat * sample => fst p =? k)
                                         (keyed 0 None df))))
                  (dedup (map fst (keyed 0 None df)))))
    with (List.length (map (rows_with (keyed 0 None df))
                           (dedup (map fst (keyed 0 None df)))))
    by (now rewrite !length_map).
  rewrite concat_keys_tag_from.
  destruct (keyed 0 None df) as [|[k0 a0] kv]; [reflexivity|].
  cbn [map fst] in Hs |- *.
  destruct (dedup_head Hs) as (rest & E & _).
  pose proof (@tag_groups_renumber kv k0 a0 1 Hs) as T.
  rewrite E in T |- *. cbn [map] in T |- *.
  rewrite T. cbn [renumber].
  inversion F1; subst. cbn [fst] in *.
  destruct (Nat.eqb_spec k0 0); [lia | reflexivity].
Qed.
End GroupFacts.

Lemma label_runs_rows (df : list sample) (n : nat) (in_run : bool) :
  map snd (label_runs n in_run df)
  = filter (fun s => match CurrentObject s with
                     | None => false
                     | Some _ => true
                     end) df.
Proof.
  revert n in_run. induction df as [|s df IH]; intros n in_run;
    [reflexivity|].
  cbn [label_runs filter]. destruct (CurrentObject s).
  - cbn [map snd]. now rewrite IH.
  - apply IH.
Qed.

(** ** C4 *)

(** The rows line 54 keeps, written out. *)
Lemma rawtrial_kept (te : list (nat * sample)) (trial : nat) :
  hvlt_encoding_proc_subject.rawtrial te trial
  = filter (fun s => match CurrentObject s with
                     | Some l =>
                         String.eqb l "Ready" || Pandas.contains "PlayWord" l
                     | None => false
                     end)
           (map snd (filter (fun p => (fst p =? trial)%nat) te)).
Proof.
  unfold hvlt_encoding_proc_subject.rawtrial.
  apply filter_ext. intros s.
  unfold hvlt_encoding_proc_subject.retained, Pandas.eq_lit.
  now destruct (CurrentObject s).
Qed.

(** The encoding loop, trial by trial. *)
Lemma encoding_clean_trials_iff
      (deblink : Q -> Q -> list sample -> result (list sample))
      (resamp_filt_data : list sample -> result (list resampled))
      (trialevents : list (nat * sample))
      (res : list (nat * list resampled)) :
  hvlt_encoding_proc_subject.clean_trials deblink resamp_filt_data trialevents
  = Ok res
  <-> Forall2 (fun trial out =>
                 fst out = trial
                 /\ exists cleantrial trial_resamp,
                     deblink 4%Q (3 # 2)%Q
                       (hvlt_encoding_proc_subject.rawtrial trialevents trial)
                     = Ok cleantrial
                     /\ resamp_filt_data cleantrial = Ok trial_resamp
                     /\ hvlt_encoding_proc_subject.dilation_rows trial_resamp
                        = Ok (snd out))
              (hvlt_encoding_proc_subject.trial_numbers trialevents) res.
Proof.
  split; [apply encoding_clean_trials_ok|].
  unfold hvlt_encoding_proc_subject.clean_trials.
  generalize (hvlt_encoding_proc_subject.trial_numbers trialevents).
  intros l H.
  induction H as [|trial [k rows] l res (Ek & ct & tr & Ed & Er & Eo) _ IH];
    [reflexivity|].
  cbn [fst snd] in Ek, Eo. subst k.
  cbn [rmapM]. rewrite Ed. cbn [rbind]. rewrite Er. cbn [rbind].
  rewrite Eo. cbn [rbind]. rewrite IH. reflexivity.
Qed.

(** C4: for every encoding stream the trial table returned by
    [get_trial_events] is the stream's labelled rows, in stream order, each
    with the number of the maximal run of labelled rows it lies in, the runs
    being numbered 1, 2, ... whatever their count (a stream without any
    labelled row has no run and the concatenation raises); and for every
    trial, [clean_trials] keeps for conditioning exactly the rows labelled
    [Ready] or containing [PlayWord]: on the table of the stream it
    returns exactly when, for every
    trial number of the table in turn, the conditioning stages return on
    those rows of the trial, in table order, and lines 59-63 return on the
    conditioned trial, and its result holds what they return. *)
Theorem C4_trials_are_label_runs (df : list sample) :
  hvlt_encoding_proc_subject.get_trial_events df
  = match label_runs 0 false df with
    | [] => Raise ValueError
    | te => Ok te
    end
  /\ map snd (label_runs 0 false df)
     = filter (fun s => match CurrentObject s with
                        | None => false
                        | Some _ => true
                        end) df
  /\ (forall (te : list (nat * sample)) (trial : nat) (s : sample),
         In s (hvlt_encoding_proc_subject.rawtrial te trial)
         <-> In (trial, s) te
             /\ (CurrentObject s = Some "Ready"%string
                 \/ exists l, CurrentObject s = Some l
                              /\ Pandas.contains "PlayWord" l = true))
  /\ forall (deblink : Q -> Q -> list sample -> result (list sample))
            (resamp_filt_data : list sample -> result (list resampled))
            (te : list (nat * sample)) (res : list (nat * list resampled)),
      hvlt_encoding_proc_subject.get_trial_events df = Ok te ->
      (hvlt_encoding_proc_subject.clean_trials deblink resamp_filt_data te
       = Ok res
       <-> Forall2
            (fun trial out =>
               fst out = trial
               /\ exists cleantrial trial_resamp,
                   deblink 4%Q (3 # 2)%Q
                     (filter (fun s =>
                                match CurrentObject s with
                                | Some l =>
                                    String.eqb l "Ready"
                                    || Pandas.contains "PlayWord" l
                                | None => false
                                end)
                             (map snd
                                  (filter (fun p => (fst p =? trial)%nat) te)))
                   = Ok cleantrial
                   /\ resamp_filt_data cleantrial = Ok trial_resamp
                   /\ hvlt_encoding_proc_subject.dilation_rows trial_resamp
                      = Ok (snd out))
            (hvlt_encoding_proc_subject.trial_numbers te) res).
Proof.
  split; [apply get_trial_events_label_runs|].
  split; [apply label_runs_rows|].
  split.
  - intros te trial s. unfold hvlt_encoding_proc_subject.rawtrial.
    rewrite filter_In, in_map_iff.
    unfold hvlt_encoding_proc_subject.retained, Pandas.eq_lit.
    split.
    + intros [([k x] & E & Hin) Hr]. cbn [snd] in E. subst x.
      apply filter_In in Hin. destruct Hin as [Hin Hk].
      cbn [fst] in Hk. apply Nat.eqb_eq in Hk. subst k.
      split; [exact Hin|].
      destruct (CurrentObject s) as [l|]; [|discriminate].
      apply orb_true_iff in Hr. destruct Hr as [Hr|Hr].
      * left. apply String.eqb_eq in Hr. now subst.
      * right. now exists l.
    + intros [Hin Hl]. split.
      * exists (trial, s). split; [reflexivity|].
        apply filter_In. split; [exact Hin|]. cbn [fst]. apply Nat.eqb_refl.
      * destruct Hl as [->|(l & -> & Hc)].
        -- reflexivity.
        -- rewrite Hc. apply orb_true_r.
  - intros deblink resamp_filt_data te res _.
    rewrite encoding_clean_trials_iff.
    split; intros H; (eapply Forall2_impl; [|exact H]); cbn beta;
      intros trial out (E & ct & tr & Hd & Hr & Ho);
      (split; [exact E|]); exists ct, tr;
      [rewrite <- rawtrial_kept | rewrite rawtrial_kept]; auto.
Qed.

(** ** Coarse and fine bins *)

Section CoarseFine.
Open Scope Z_scope.

Lemma dilation_total_cons (r : resampled) (rows : list resampled) :
  (dilation_total (r :: rows)
   == match Dilation r with Some d => d | None => 0 end
      + dilation_total rows)%Q.
Proof.
  unfold dilation_total. cbn [map Pandas.valid flat_map].
  destruct (Dilation r); cbn [app].
  - reflexivity.
  - symmetry. apply Qplus_0_l.
Qed.

Lemma dilation_count_cons (r : resampled) (rows : list resampled) :
  dilation_count (r :: rows)
  = (match Dilation r with Some _ => 1 | None => 0 end
     + dilation_count rows)%nat.
Proof.
  unfold dilation_count. cbn [map Pandas.valid flat_map].
  destruct (Dilation r); reflexivity.
Qed.

(** A bin cut at an inner edge: totals and counts add up. *)
Lemma interval_split (a b c : Z) (rows : list resampled) :
  a <= b <= c ->
  (dilation_total (filter (between_bool a c) rows)
   == dilation_total (filter (between_bool a b) rows)
      + dilation_total (filter (between_bool b c) rows))%Q
  /\ dilation_count (filter (between_bool a c) rows)
     = (dilation_count (filter (between_bool a b) rows)
        + dilation_count (filter (between_bool b c) rows))%nat.
Proof.
  intros H.
  assert (U : forall r, between_bool a c r
                        = between_bool a b r || between_bool b c r).
  { intros r. unfold between_bool.
    destruct (Z.ltb_spec a (Timestamp r));
      destruct (Z.leb_spec (Timestamp r) c);
      destruct (Z.ltb_spec b (Timestamp r));
      destruct (Z.leb_spec (Timestamp r) b); cbn; try reflexivity; lia. }
  assert (D : forall r, between_bool a b r = true ->
                        between_bool b c r = true -> False).
  { intros r. unfold between_bool.
    destruct (Z.ltb_spec b (Timestamp r));
      destruct (Z.leb_spec (Timestamp r) b);
      rewrite ?andb_false_r, ?andb_false_l; cbn; try discriminate; lia. }
  induction rows as [|r rows [IHt IHc]].
  - split; reflexivity.
  - cbn [filter]. rewrite U.
    destruct (between_bool a b r) eqn:E1;
      destruct (between_bool b c r) eqn:E2; cbn [orb];
      try (exfalso; now apply (D r));
      rewrite ?dilation_total_cons, ?dilation_count_cons, ?IHt, ?IHc;
      (split; [ring | lia]).
Qed.

Lemma mean_dilation (rows : list resampled) :
  (0 < dilation_count rows)%nat ->
  exists m,
    Pandas.mean (map Dilation rows) = Some m
    /\ (m == dilation_total rows
             / inject_Z (Z.of_nat (dilation_count rows)))%Q.
Proof.
  unfold dilation_count, dilation_total, Pandas.mean. intros H.
  destruct (Pandas.valid (map Dilation rows)) as [|v vs] eqn:E;
    [simpl in H; lia|].
  eexists. split; [reflexivity|]. apply Qred_correct.
Qed.

(** The 6 s bin labelled [L] is the union of its six 1 s bins. *)
Lemma coarse_splits (L : Z) (rows : list resampled) :
  (dilation_total (bin_rows 6000 L rows)
   == Pandas.Qsum (map dilation_total (fine_bins L rows)))%Q
  /\ dilation_count (bin_rows 6000 L rows)
     = list_sum (map dilation_count (fine_bins L rows)).
Proof.
  unfold fine_bins, bin_rows. cbn [map Pandas.Qsum fold_right list_sum].
  replace (L - 6000 + 1000 * 1 - 1000) with (L - 6000) by ring.
  replace (L - 6000 + 1000 * 2 - 1000) with (L - 6000 + 1000 * 1) by ring.
  replace (L - 6000 + 1000 * 3 - 1000) with (L - 6000 + 1000 * 2) by ring.
  replace (L - 6000 + 1000 * 4 - 1000) with (L - 6000 + 1000 * 3) by ring.
  replace (L - 6000 + 1000 * 5 - 1000) with (L - 6000 + 1000 * 4) by ring.
  replace (L - 6000 + 1000 * 6 - 1000) with (L - 6000 + 1000 * 5) by ring.
  replace (between_bool (L - 6000) L)
    with (between_bool (L - 6000) (L - 6000 + 1000 * 6))
    by (f_equal; ring).
  destruct (@interval_split (L - 6000) (L - 6000 + 1000 * 1)
              (L - 6000 + 1000 * 6) rows ltac:(lia)) as [T1 C1].
  destruct (@interval_split (L - 6000 + 1000 * 1) (L - 6000 + 1000 * 2)
              (L - 6000 + 1000 * 6) rows ltac:(lia)) as [T2 C2].
  destruct (@interval_split (L - 6000 + 1000 * 2) (L - 6000 + 1000 * 3)
              (L - 6000 + 1000 * 6) rows ltac:(lia)) as [T3 C3].
  destruct (@interval_split (L - 6000 + 1000 * 3) (L - 6000 + 1000 * 4)
              (L - 6000 + 1000 * 6) rows ltac:(lia)) as [T4 C4].
  destruct (@interval_split (L - 6000 + 1000 * 4) (L - 6000 + 1000 * 5)
              (L - 6000 + 1000 * 6) rows ltac:(lia)) as [T5 C5].
  split.
  - rewrite T1, T2, T3, T4, T5. ring.
  - rewrite C1, C2, C3, C4, C5. lia.
Qed.
End CoarseFine.

Lemma right_bin_value (width : Z) (rows : list resampled) (b : binned) :
  (0 < width)%Z ->
  In b (resample_mean width Pandas.right_side Pandas.right_side rows) ->
  (exists k, b_Timestamp b = width * k)%Z
  /\ b_Dilation b
     = Pandas.mean (map Dilation (bin_rows width (b_Timestamp b) rows)).
Proof.
  intros Hw Hb.
  destruct (resample_mean_right rows Hw) as [Hbins _].
  destruct (Hbins b Hb) as [Hk E]. split; [exact Hk|].
  rewrite E at 1. reflexivity.
Qed.

Lemma fine_bin_value (rows : list resampled) (L j : Z) (n : nat) :
  (exists k, L = 6000 * k)%Z ->
  0 < n ->
  dilation_count (bin_rows 1000 (L - 6000 + 1000 * j) rows) = n ->
  exists f m,
    In f (resample_mean 1000 Pandas.right_side Pandas.right_side rows)
    /\ b_Timestamp f = (L - 6000 + 1000 * j)%Z
    /\ b_Dilation f = Some m
    /\ (m == dilation_total (bin_rows 1000 (L - 6000 + 1000 * j) rows)
             / inject_Z (Z.of_nat n))%Q.
Proof.
  intros [k Hk] Hn Hc.
  set (Lj := (L - 6000 + 1000 * j)%Z) in *.
  assert (Hne : exists r, In r (bin_rows 1000 Lj rows)).
  { destruct (bin_rows 1000 Lj rows) as [|r l];
      [unfold dilation_count in Hc; simpl in Hc; lia|].
    exists r. now left. }
  destruct Hne as (r & Hr).
  unfold bin_rows in Hr. apply filter_In in Hr. destruct Hr as [Hin Hb].
  unfold between_bool in Hb. apply andb_prop in Hb. destruct Hb as [H1 H2].
  apply Z.ltb_lt in H1. apply Z.leb_le in H2.
  destruct (@resample_mean_right 1000 rows eq_refl) as [_ Hcov].
  destruct (Hcov r Hin) as (f & Hf & Hbounds).
  destruct (@right_bin_value 1000 rows f eq_refl Hf) as [[kf Hkf] Hv].
  assert (Ef : b_Timestamp f = Lj) by (unfold Lj in *; lia).
  rewrite Ef in Hv.
  destruct (@mean_dilation (bin_rows 1000 Lj rows) ltac:(lia)) as (m & Em & Hm).
  exists f, m. rewrite Hc in Hm. repeat split; auto. congruence.
Qed.

(** ** C7 *)

(** C7 (as stated, refuted): twelve seconds of response (two whole 6 s bins)
    with two rows in the first second and one row in every later second.
    The 6 s bin labelled 6 s is 30/7 while its six 1 s bins average to 5; the
    two 6 s bins after zero average to 36/7 while the twelve 1 s bins after
    zero average to 11/2; and all three 6 s values average to 24/7 while all
    thirteen 1 s values average to 66/13. *)
Lemma C7_counterexample_uneven_bins :
  exists cs fs,
    map b_Dilation
        (resample_mean 6000 Pandas.right_side Pandas.right_side
                       Samples.uneven_rows)
    = map Some cs
    /\ map b_Dilation
           (resample_mean 1000 Pandas.right_side Pandas.right_side
                          Samples.uneven_rows)
       = map Some fs
    /\ List.length cs = 3 /\ List.length fs = 13
    /\ ~ (nth 1 cs 0 == Qmean (firstn 6 (skipn 1 fs)))%Q
    /\ ~ (Qmean (skipn 1 cs) == Qmean (skipn 1 fs))%Q
    /\ ~ (Qmean cs == Qmean fs)%Q.
Proof.
  exists [0; 30 # 7; 6]%Q,
         [0; 0; 6; 6; 6; 6; 6; 6; 6; 6; 6; 6; 6]%Q.
  split; [vm_compute; reflexivity|].
  split; [vm_compute; reflexivity|].
  split; [reflexivity|]. split; [reflexivity|].
  repeat split; intros H; vm_compute in H; discriminate H.
Qed.

(** C7 (amended): every 6 s bin of an encoding trial is the union of the six
    1 s bins it spans, both taken from the same conditioned series: its
    dilation total and its sample count are the sums of theirs, so its mean
    is their mean weighted by sample count; when the six 1 s bins hold the
    same number of samples, the 6 s value equals the plain average of the
    six 1 s values that the 1 s aggregation returns. *)
Theorem C7_coarse_bin_from_fine_bins (rows : list resampled) (c : binned) :
  In c (resample_mean 6000 Pandas.right_side Pandas.right_side rows) ->
  b_Dilation c
  = Pandas.mean (map Dilation (bin_rows 6000 (b_Timestamp c) rows))
  /\ (dilation_total (bin_rows 6000 (b_Timestamp c) rows)
      == Pandas.Qsum (map dilation_total (fine_bins (b_Timestamp c) rows)))%Q
  /\ dilation_count (bin_rows 6000 (b_Timestamp c) rows)
     = list_sum (map dilation_count (fine_bins (b_Timestamp c) rows))
  /\ forall n,
      0 < n ->
      Forall (fun g => dilation_count g = n) (fine_bins (b_Timestamp c) rows) ->
      exists m ms fs,
        b_Dilation c = Some m
        /\ Forall (fun f =>
                     In f (resample_mean 1000 Pandas.right_side
                                         Pandas.right_side rows)) fs
        /\ map b_Timestamp fs
           = map (fun j => b_Timestamp c - 6000 + 1000 * j)%Z
                 [1; 2; 3; 4; 5; 6]%Z
        /\ map b_Dilation fs = map Some ms
        /\ (m == Qmean ms)%Q.
Proof.
  intros Hc.
  destruct (@right_bin_value 6000 rows c eq_refl Hc) as [HL Hv].
  destruct (coarse_splits (b_Timestamp c) rows) as [HT HC].
  split; [exact Hv|]. split; [exact HT|]. split; [exact HC|].
  intros n Hn Hall.
  set (L := b_Timestamp c) in *.
  unfold fine_bins in Hall, HT, HC.
  cbn [map Pandas.Qsum fold_right list_sum] in Hall, HT, HC.
  repeat match goal with
         | H : Forall _ (_ :: _) |- _ =>
             apply Forall_cons_iff in H; destruct H as [? H]
         end.
  destruct (@fine_bin_value rows L 1 n HL Hn ltac:(assumption))
    as (f1 & m1 & I1 & L1 & V1 & E1).
  destruct (@fine_bin_value rows L 2 n HL Hn ltac:(assumption))
    as (f2 & m2 & I2 & L2 & V2 & E2).
  destruct (@fine_bin_value rows L 3 n HL Hn ltac:(assumption))
    as (f3 & m3 & I3 & L3 & V3 & E3).
  destruct (@fine_bin_value rows L 4 n HL Hn ltac:(assumption))
    as (f4 & m4 & I4 & L4 & V4 & E4).
  destruct (@fine_bin_value rows L 5 n HL Hn ltac:(assumption))
    as (f5 & m5 & I5 & L5 & V5 & E5).
  destruct (@fine_bin_value rows L 6 n HL Hn ltac:(assumption))
    as (f6 & m6 & I6 & L6 & V6 & E6).
  destruct (@mean_dilation (bin_rows 6000 L rows) ltac:(lia)) as (m & Em & Hm).
  exists m, [m1; m2; m3; m4; m5; m6], [f1; f2; f3; f4; f5; f6].
  split; [congruence|].
  split; [repeat constructor; assumption|].
  split; [cbn [map]; congruence|].
  split; [cbn [map]; congruence|].
  unfold Qmean. cbn [Pandas.Qsum fold_right List.length].
  rewrite Hm, HT, HC, E1, E2, E3, E4, E5, E6.
  repeat match goal with
         | H : dilation_count _ = n |- _ => rewrite H; clear H
         end.
  replace (n + (n + (n + (n + (n + (n + 0)))))) with (6 * n) by lia.
  rewrite Nat2Z.inj_mul, inject_Z_mult.
  assert (Hq : ~ (inject_Z (Z.of_nat n) == 0)%Q).
  { intros E. unfold Qeq in E. simpl in E. lia. }
  change (inject_Z (Z.of_nat 6)) with 6%Q.
  field. exact Hq.
Qed.

Lemma even_rows_coarse_bin :
  In (mkBinned 6000 (Some 3%Q) (Some 3%Q) (Some 6%Q) (Some 0%Q))
     (resample_mean 6000 Pandas.right_side Pandas.right_side
                    Samples.even_rows).
Proof. vm_compute. left. reflexivity. Defined.

(** Twelve rows, two in every second of one 6 s bin: the 6 s value 3 is the
    plain average of the six 1 s values. *)
Lemma C7_witness :
  exists c,
    In c (resample_mean 6000 Pandas.right_side Pandas.right_side
                        Samples.even_rows)
    /\ exists m ms fs,
        b_Dilation c = Some m
        /\ Forall (fun f =>
                     In f (resample_mean 1000 Pandas.right_side
                                         Pandas.right_side Samples.even_rows))
                  fs
        /\ map b_Timestamp fs
           = map (fun j => b_Timestamp c - 6000 + 1000 * j)%Z
                 [1; 2; 3; 4; 5; 6]%Z
        /\ map b_Dilation fs = map Some ms
        /\ (m == Qmean ms)%Q.
Proof.
  exists (mkBinned 6000 (Some 3%Q) (Some 3%Q) (Some 6%Q) (Some 0%Q)).
  split; [exact even_rows_coarse_bin|].
  refine (proj2 (proj2 (proj2 (C7_coarse_bin_from_fine_bins
                                 _ _ even_rows_coarse_bin))) 2 _ _).
  - repeat constructor.
  - vm_compute. repeat constructor.
Defined.

(** ** C10 *)

Section RecallScript.
Import Py hvlt_recall_proc_subject.

Variable read_csv : string -> result (list sample).
Variable read_excel : string -> result (list sample).
Variable deblink : list sample -> result (list sample).
Variable resamp_filt_data : list sample -> result (list resampled).
Variable get_proc_outfile : string -> string -> string.

Local Abbreviation run_script :=
  (run read_csv read_excel deblink resamp_filt_data get_proc_outfile).

Lemma select_recall_prefilter (df : list sample) :
  select_recall df
  = if has_str_accessor df then Ok (prefilter df) else Raise AttributeError.
Proof. reflexivity. Qed.

(** A column of labels without any string stops the run at line 114. *)
Lemma recall_run_no_accessor (fname : string) (rest : list string)
      (df : list sample) :
  accepted fname = true ->
  reader read_csv read_excel fname = Ok df ->
  has_str_accessor df = false ->
  fst (run_script (fname :: rest)) = Raise AttributeError
  /\ trace (snd (run_script (fname :: rest)))
     = [Print ("Processing " ++ fname)%string; read_effect fname].
Proof.
  unfold accepted, reader, read_effect, run.
  intros Ha Hr Hs.
  cbn [proc_subject]. unfold proc_file.
  destruct (String.eqb (splitext_ext fname) ".gazedata"
            || String.eqb (splitext_ext fname) ".csv")%bool eqn:E1.
  - unfold bind, assign, emit, lift, load, as_frame, ret.
    cbn. rewrite Hr. cbn. rewrite select_recall_prefilter, Hs. cbn.
    split; reflexivity.
  - cbn [orb] in Ha. rewrite Ha.
    unfold bind, assign, emit, lift, load, as_frame, ret.
    cbn. rewrite Hr. cbn. rewrite select_recall_prefilter, Hs. cbn.
    split; reflexivity.
Qed.

(** With the three conditioning steps done, the next statement reads a
    name nothing has bound. *)
Lemma recall_run_name_error (fname : string) (rest : list string)
      (df cleaned : list sample) (dfresamp : list resampled) :
  accepted fname = true ->
  reader read_csv read_excel fname = Ok df ->
  has_str_accessor df = true ->
  deblink (prefilter df) = Ok cleaned ->
  resamp_filt_data cleaned = Ok dfresamp ->
  fst (run_script (fname :: rest)) = Raise (NameError "trialevents")
  /\ trace (snd (run_script (fname :: rest)))
     = [Print ("Processing " ++ fname)%string;
        read_effect fname; PreFilter; Deblink; Resample]
  /\ assoc "dfresamp" (locals (snd (run_script (fname :: rest))))
     = Some (VResamp dfresamp).
Proof.
  unfold accepted, reader, read_effect, run.
  intros Ha Hr Hacc Hd Hs.
  cbn [proc_subject]. unfold proc_file.
  destruct (String.eqb (splitext_ext fname) ".gazedata"
            || String.eqb (splitext_ext fname) ".csv")%bool eqn:E1.
  - unfold bind, assign, emit, lift, load, as_frame, ret.
    cbn. rewrite Hr. cbn. rewrite select_recall_prefilter, Hacc. cbn.
    rewrite Hd. cbn. rewrite Hs. cbn.
    repeat split.
  - cbn [orb] in Ha. rewrite Ha.
    unfold bind, assign, emit, lift, load, as_frame, ret.
    cbn. rewrite Hr. cbn. rewrite select_recall_prefilter, Hacc. cbn.
    rewrite Hd. cbn. rewrite Hs. cbn.
    repeat split.
Qed.

(** Whatever the collaborators do, no file is processed to the end: the
    run stops with an exception before any trial is segmented and before
    anything is written or plotted. *)
Lemma recall_run_never_completes (fname : string) (rest : list string) :
  (exists e, fst (run_script (fname :: rest)) = Raise e)
  /\ Forall (fun e => is_late_effect e = false)
            (trace (snd (run_script (fname :: rest)))).
Proof.
  unfold run. cbn [proc_subject]. unfold proc_file.
  unfold bind, assign, emit, lift, load, as_frame, ret, throw.
  cbn.
  destruct (String.eqb (splitext_ext fname) ".gazedata"
            || String.eqb (splitext_ext fname) ".csv")%bool.
  - cbn. destruct (read_csv fname) as [df|e]; cbn;
      [|split; [eexists; reflexivity | repeat constructor]].
    destruct (select_recall df) as [kept|e]; cbn;
      [|split; [eexists; reflexivity | repeat constructor]].
    destruct (deblink _) as [cl|e]; cbn;
      [|split; [eexists; reflexivity | repeat constructor]].
    destruct (resamp_filt_data cl) as [rs|e]; cbn;
      split; try (eexists; reflexivity); repeat constructor.
  - destruct (String.eqb (splitext_ext fname) ".xlsx"); cbn;
      [|split; [eexists; reflexivity | repeat constructor]].
    destruct (read_excel fname) as [df|e]; cbn;
      [|split; [eexists; reflexivity | repeat constructor]].
    destruct (select_recall df) as [kept|e]; cbn;
      [|split; [eexists; reflexivity | repeat constructor]].
    destruct (deblink _) as [cl|e]; cbn;
      [|split; [eexists; reflexivity | repeat constructor]].
    destruct (resamp_filt_data cl) as [rs|e]; cbn;
      split; try (eexists; reflexivity); repeat constructor.
Qed.
End RecallScript.

(** C10 (as stated, refuted): a file with an accepted extension whose
    event label is blank in every row does not reach the unbound name.
    Line 114 asks the label column for its [str] accessor, a column
    without any string has none, and the run ends there with
    [AttributeError]: after the read, before the pre-filter, the deblink
    and the resample steps. *)
Lemma C10_counterexample_blank_labels :
  let final :=
    hvlt_recall_proc_subject.run
      Samples.read_blank Samples.read_blank
      (Samples.pass_deblink 0%Q 0%Q) Samples.pass_resamp Samples.outfile
      ["sub-01_recall.gazedata"%string] in
  hvlt_recall_proc_subject.accepted "sub-01_recall.gazedata" = true
  /\ fst final = Raise AttributeError
  /\ fst final <> Raise (NameError "trialevents")
  /\ Py.trace (snd final)
     = [Py.Print "Processing sub-01_recall.gazedata";
        Py.ReadCsv "sub-01_recall.gazedata"].
Proof.
  cbv zeta. split; [reflexivity|].
  split; [vm_compute; reflexivity|].
  split; [vm_compute; discriminate|].
  vm_compute. reflexivity.
Qed.

(** C10 (amended): for every input file with an accepted extension that
    is read without error, the recall [proc_subject] never gets to the
    trials.  When the label column holds no string although the frame has
    rows, the run ends at the pre-filter of line 114 with
    [AttributeError], right after the read.  Otherwise, when the deblink
    and the resample steps return, the run reads the name [trialevents],
    which nothing has bound: it ends with [NameError] right after the
    pre-filter, deblink and resample steps, and the resampled frame is
    left bound to [dfresamp] and never used.  In every case no trial is
    segmented, no dilation is computed and no file is written or
    plotted. *)
Theorem C10_recall_reads_unbound_trialevents
        (read_csv read_excel : string -> result (list sample))
        (deblink : list sample -> result (list sample))
        (resamp_filt_data : list sample -> result (list resampled))
        (get_proc_outfile : string -> string -> string)
        (fname : string) (rest : list string) (df : list sample) :
  hvlt_recall_proc_subject.accepted fname = true ->
  hvlt_recall_proc_subject.reader read_csv read_excel fname = Ok df ->
  let final :=
    hvlt_recall_proc_subject.run read_csv read_excel deblink resamp_filt_data
                                 get_proc_outfile (fname :: rest) in
  (hvlt_recall_proc_subject.has_str_accessor df = false ->
   fst final = Raise AttributeError
   /\ Py.trace (snd final)
      = [Py.Print ("Processing " ++ fname)%string;
         hvlt_recall_proc_subject.read_effect fname])
  /\ (hvlt_recall_proc_subject.has_str_accessor df = true ->
      forall cleaned dfresamp,
        deblink (hvlt_recall_proc_subject.prefilter df) = Ok cleaned ->
        resamp_filt_data cleaned = Ok dfresamp ->
        fst final = Raise (NameError "trialevents")
        /\ Py.trace (snd final)
           = [Py.Print ("Processing " ++ fname)%string;
              hvlt_recall_proc_subject.read_effect fname;
              Py.PreFilter; Py.Deblink; Py.Resample]
        /\ Py.assoc "dfresamp" (Py.locals (snd final))
           = Some (Py.VResamp dfresamp))
  /\ (exists e, fst final = Raise e)
  /\ Forall (fun e => hvlt_recall_proc_subject.is_late_effect e = false)
            (Py.trace (snd final)).
Proof.
  intros Ha Hr final. split; [|split].
  - intros Hs.
    exact (recall_run_no_accessor read_csv read_excel deblink
             resamp_filt_data get_proc_outfile fname rest Ha Hr Hs).
  - intros Hs cleaned dfresamp Hd Hp.
    exact (recall_run_name_error read_csv read_excel deblink
             resamp_filt_data get_proc_outfile fname rest Ha Hr Hs Hd Hp).
  - apply recall_run_never_completes.
Qed.

Lemma C10_witness :
  let final :=
    hvlt_recall_proc_subject.run
      Samples.read_sample Samples.read_sample
      (Samples.pass_deblink 0%Q 0%Q) Samples.pass_resamp Samples.outfile
      ["sub-01_recall.gazedata"%string] in
  hvlt_recall_proc_subject.accepted "sub-01_recall.gazedata" = true
  /\ hvlt_recall_proc_subject.has_str_accessor Samples.recall_file = true
  /\ fst final = Raise (NameError "trialevents")
  /\ Py.trace (snd final)
     = [Py.Print "Processing sub-01_recall.gazedata";
        Py.ReadCsv "sub-01_recall.gazedata";
        Py.PreFilter; Py.Deblink; Py.Resample].
Proof.
  split; [reflexivity|]. split; [reflexivity|].
  destruct (proj1 (proj2 (C10_recall_reads_unbound_trialevents
                     Samples.read_sample Samples.read_sample
                     (Samples.pass_deblink 0%Q 0%Q) Samples.pass_resamp
                     Samples.outfile "sub-01_recall.gazedata" []
                     (df := Samples.recall_file) eq_refl eq_refl))
              eq_refl
              (hvlt_recall_proc_subject.prefilter Samples.recall_file)
              _ eq_refl eq_refl)
    as (E & T & _).
  split; [exact E | exact T].
Defined.

(** ** C8 *)

Lemma write_cells_Forall {R V} (setv : V -> R -> R) (P : R -> Prop)
      (rows : list R) (vals : list V) :
  (forall v r, P r -> P (setv v r)) ->
  Forall P rows -> Forall P (Pandas.write_cells setv rows vals).
Proof.
  intros Hp H. revert vals.
  induction H as [|r rows Hr _ IH]; intros [|v vals]; simpl;
    constructor; auto.
Qed.

(** Every row of a fluency table says [Start] or [Stop]. *)
Lemma fluency_rows_have_kind (df : list sample) (te : list event) :
  fluency_proc_subject.get_trial_events df = Ok te -> Forall has_kind te.
Proof.
  unfold fluency_proc_subject.get_trial_events, TrialEvents.get_trial_events.
  intros H.
  destruct (Pandas.set_column blank_event set_TrialPhase
              (TrialEvents.start_rows df) _) as [st|] eqn:Es; [|discriminate].
  cbn [rbind] in H.
  destruct (Pandas.set_column blank_event set_TrialPhase
              (TrialEvents.stop_rows df) _) as [sp|] eqn:Ep; [|discriminate].
  cbn [rbind] in H.
  set (sorted := Pandas.sort_by e_index _) in H.
  assert (Fs : Forall has_kind sorted).
  { unfold sorted.
    eapply Permutation_Forall; [apply sort_by_perm|].
    apply Forall_app. split; apply Forall_forall; intros e He;
      apply in_map_iff in He; destruct He as (x & <- & _);
      [left | right]; reflexivity. }
  destruct (Pandas.set_column blank_event set_Trial sorted _)
    as [t1|] eqn:E1; [|discriminate].
  cbn [rbind] in H.
  destruct (Pandas.set_column blank_event set_Condition t1 _)
    as [t2|] eqn:E2; [|discriminate].
  cbn [rbind] in H. injection H as <-.
  apply set_column_ok_length in Es, Ep.
  assert (Hl : List.length sorted = 24).
  { unfold sorted. rewrite sort_by_length, length_app, !length_map.
    rewrite Es, Ep. reflexivity. }
  rewrite set_column_same_length in E1 by exact Hl. injection E1 as <-.
  rewrite set_column_same_length in E2
    by (rewrite write_cells_length; exact Hl).
  injection E2 as <-.
  apply write_cells_Forall; [intros v r Hr; exact Hr|].
  apply write_cells_Forall; [intros v r Hr; exact Hr|].
  exact Fs.
Qed.

(** On a well-formed session with increasing time stamps every trial and
    phase has its start event, then its stop event, the start earlier. *)
Lemma fluency_start_before_stop (df : list sample) :
  Grammar.well_formed df = true ->
  Grammar.increasing_time df ->
  exists te,
    fluency_proc_subject.get_trial_events df = Ok te
    /\ forall k p,
        In k [1; 2; 3; 4; 5; 6] ->
        In p ["Baseline"; "Response"]%string ->
        exists s e ts tstop,
          events_of te k p = [s; e]
          /\ StartStop s = Some "Start"%string
          /\ StartStop e = Some "Stop"%string
          /\ e_TETTime s = Some ts /\ e_TETTime e = Some tstop
          /\ (ts < tstop)%Z.
Proof.
  intros H Hinc. unfold fluency_proc_subject.get_trial_events.
  rewrite get_trial_events_well_formed by auto.
  destruct (well_formed_lengths _ H) as [Hs He].
  unfold Grammar.well_formed in H.
  apply andb_prop in H. destruct H as [_ Ha].
  pose proof (start_rows_from_df df) as Fs.
  pose proof (stop_rows_from_df df) as Fe.
  remember (TrialEvents.start_rows df) as ss eqn:Ess.
  remember (TrialEvents.stop_rows df) as es eqn:Ees.
  clear Ess Ees.
  explode ss Hs. explode es He.
  invert_foralls.
  simpl in Ha. split_bools.
  eexists. split; [reflexivity|].
  intros k p Hk Hp.
  simpl in Hk, Hp.
  repeat (destruct Hk as [<-|Hk]; [|]); try contradiction;
    (repeat (destruct Hp as [<-|Hp]; [|]); try contradiction);
    do 4 eexists;
    (split; [reflexivity|]);
    (split; [reflexivity|]);
    (split; [reflexivity|]);
    (split; [reflexivity|]);
    (split; [reflexivity|]);
    apply Hinc; assumption.
Qed.

(** C8 (as stated, refuted): the session with twelve start and twelve stop
    rows that do not alternate is segmented, and in the table its trial 1 has
    two Start events and no Stop event in the Baseline phase. *)
Lemma C8_counterexample_two_starts :
  exists te,
    fluency_proc_subject.get_trial_events Samples.scrambled = Ok te
    /\ map StartStop (events_of te 1 "Baseline")
       = [Some "Start"%string; Some "Start"%string].
Proof.
  eexists. split; [vm_compute; reflexivity | reflexivity].
Qed.

(** C8 (amended): for every trial-event table produced by the fluency
    segmentation every event row carries a boundary kind equal to "Start" or
    "Stop"; and when the session is well-formed (twelve start and twelve stop
    rows, strictly alternating) and its time stamps increase strictly, every
    trial+phase has exactly one Start event followed by exactly one Stop
    event, the Start time stamp strictly less than the Stop time stamp. *)
Theorem C8_start_stop_pairs (df : list sample) :
  (forall te,
      fluency_proc_subject.get_trial_events df = Ok te -> Forall has_kind te)
  /\ (Grammar.well_formed df = true ->
      Grammar.increasing_time df ->
      exists te,
        fluency_proc_subject.get_trial_events df = Ok te
        /\ forall k p,
            In k [1; 2; 3; 4; 5; 6] ->
            In p ["Baseline"; "Response"]%string ->
            exists s e ts tstop,
              events_of te k p = [s; e]
              /\ StartStop s = Some "Start"%string
              /\ StartStop e = Some "Stop"%string
              /\ e_TETTime s = Some ts /\ e_TETTime e = Some tstop
              /\ (ts < tstop)%Z).
Proof.
  split.
  - intros te. apply fluency_rows_have_kind.
  - apply fluency_start_before_stop.
Qed.

Lemma C8_witness :
  exists te,
    fluency_proc_subject.get_trial_events Samples.session6 = Ok te
    /\ Forall has_kind te
    /\ forall k p,
        In k [1; 2; 3; 4; 5; 6] ->
        In p ["Baseline"; "Response"]%string ->
        exists s e ts tstop,
          events_of te k p = [s; e]
          /\ StartStop s = Some "Start"%string
          /\ StartStop e = Some "Stop"%string
          /\ e_TETTime s = Some ts /\ e_TETTime e = Some tstop
          /\ (ts < tstop)%Z.
Proof.
  destruct (proj2 (C8_start_stop_pairs Samples.session6)
                  ltac:(vm_compute; reflexivity) session6_increasing_time)
    as (te & E & P).
  exists te. split; [exact E|]. split; [|exact P].
  exact (proj1 (C8_start_stop_pairs Samples.session6) te E).
Defined.

(* ===================================================================== *)
(** * Further properties of the scripts *)
(* ===================================================================== *)

(** ** Start and stop candidates *)

Section MaskFacts.
Import Pandas TrialEvents.

Lemma ne_start_mask (last prev : option string) (l : list (option string)) :
  l <> [] ->
  ne l (ffill_from last (prev :: removelast l)) = start_mask last prev l.
Proof.
  revert last prev. induction l as [|x l IH]; intros last prev Hne;
    [congruence|].
  destruct l as [|y l].
  - cbn [removelast start_mask]. destruct prev; reflexivity.
  - change (removelast (x :: y :: l)) with (x :: removelast (y :: l)).
    cbn [start_mask]. destruct prev as [v|]; cbn [ffill_from ne].
    + f_equal. apply IH. discriminate.
    + destruct last as [w|]; cbn [ffill_from ne]; f_equal;
        apply IH; discriminate.
Qed.

Lemma startidx_start_mask (df : list sample) :
  startidx df = start_mask None None (labels df).
Proof.
  unfold startidx, ffill, shift.
  destruct (labels df) as [|x l] eqn:E; [reflexivity|].
  apply ne_start_mask. discriminate.
Qed.

Lemma start_mask_interior (pre post : list (option string)) (l : string) :
  forall last prev,
    nth (S (List.length pre))
        (start_mask last prev (pre ++ Some l :: Some l :: post)) true
    = false.
Proof.
  induction pre as [|p pre IH]; intros last prev.
  - cbn [app List.length start_mask nth ne_cell].
    now rewrite String.eqb_refl.
  - cbn [app List.length start_mask nth]. apply IH.
Qed.

Lemma bfill_cons {A} (x : option A) (l : list (option A)) :
  exists h, bfill (x :: l) = h :: bfill l.
Proof.
  destruct x as [v|]; cbn [bfill]; [now exists (Some v)|].
  destruct (bfill l) as [|n r]; [now exists None | now exists n].
Qed.

Lemma stopidx_cons (s : sample) (df : list sample) :
  df <> [] -> exists b, stopidx (s :: df) = b :: stopidx df.
Proof.
  unfold stopidx. destruct df as [|s1 df]; [congruence|]. intros _.
  cbn [labels map shift_up].
  change ((CurrentObject s1 :: map CurrentObject df) ++ [None])
    with (CurrentObject s1 :: (map CurrentObject df ++ [None])).
  destruct (bfill_cons (CurrentObject s1) (map CurrentObject df ++ [None]))
    as (h & E).
  rewrite E. cbn [ne]. eexists. reflexivity.
Qed.

Lemma stopidx_interior (pre post : list sample) (a b : sample) (l : string) :
  CurrentObject a = Some l -> CurrentObject b = Some l ->
  nth (List.length pre) (stopidx (pre ++ a :: b :: post)) true = false.
Proof.
  intros Ha Hb. induction pre as [|p pre IH].
  - unfold stopidx. cbn [app labels map shift_up List.length].
    rewrite Ha, Hb.
    change ((Some l :: map CurrentObject post) ++ [None])
      with (Some l :: (map CurrentObject post ++ [None])).
    cbn [bfill ne nth ne_cell]. now rewrite String.eqb_refl.
  - cbn [app List.length].
    destruct (stopidx_cons p (df := pre ++ a :: b :: post)) as (h & E).
    { destruct pre; discriminate. }
    rewrite E. cbn [nth]. exact IH.
Qed.
End MaskFacts.

(** X1: a row that carries the same label as the row before it is never a
    start candidate, and a row that carries the same label as the row after
    it is never a stop candidate: only the first row of a run of equal
    labels can start, only the last one can stop. *)
Theorem X1_interior_rows_are_no_boundaries
        (pre post : list sample) (a b : sample) (l : string) :
  CurrentObject a = Some l -> CurrentObject b = Some l ->
  nth (S (List.length pre))
      (TrialEvents.startidx (pre ++ a :: b :: post)) true = false
  /\ nth (List.length pre)
         (TrialEvents.stopidx (pre ++ a :: b :: post)) true = false.
Proof.
  intros Ha Hb. split.
  - rewrite startidx_start_mask. unfold TrialEvents.labels.
    rewrite map_app. cbn [map]. rewrite Ha, Hb.
    rewrite <- (length_map CurrentObject pre).
    apply start_mask_interior.
  - now apply stopidx_interior with (l := l).
Qed.

Lemma X1_witness :
  nth 1 (TrialEvents.startidx
           ([] ++ Samples.row 0 "ReadLetter" :: Samples.row 1 "ReadLetter"
               :: [Samples.row 2 "BeginFile"])) true = false
  /\ nth 0 (TrialEvents.stopidx
              ([] ++ Samples.row 0 "ReadLetter" :: Samples.row 1 "ReadLetter"
                  :: [Samples.row 2 "BeginFile"])) true = false.
Proof.
  exact (@X1_interior_rows_are_no_boundaries
           [] [Samples.row 2 "BeginFile"]
           (Samples.row 0 "ReadLetter") (Samples.row 1 "ReadLetter")
           "ReadLetter" eq_refl eq_refl).
Defined.

Lemma stop_rows_cons (s : sample) (df : list sample) :
  df <> [] ->
  exists front, TrialEvents.stop_rows (s :: df)
                = front ++ TrialEvents.stop_rows df.
Proof.
  intros H. unfold TrialEvents.stop_rows.
  destruct (stopidx_cons s H) as (b & E). rewrite E.
  cbn [Pandas.loc_mask]. destruct b.
  - cbn [map filter].
    destruct (TrialEvents.is_stop_label (event_of_sample s)).
    + now exists [event_of_sample s].
    + now exists [].
  - now exists [].
Qed.

(** X2: the first row of a stream is always a start candidate and the last
    row always a stop candidate: a recording that begins on a row labelled
    ReadLetter or RecordLetter has that row as its first start row, and a
    recording that ends on a row labelled BeginFile or RecordLetter has that
    row as its last stop row. *)
Theorem X2_stream_ends_are_boundaries (s : sample) (df : list sample) :
  (TrialEvents.is_start_label (event_of_sample s) = true ->
   hd_error (TrialEvents.start_rows (s :: df)) = Some (event_of_sample s))
  /\ (TrialEvents.is_stop_label (event_of_sample s) = true ->
      exists front,
        TrialEvents.stop_rows (df ++ [s]) = front ++ [event_of_sample s]).
Proof.
  split.
  - intros H. unfold TrialEvents.start_rows, TrialEvents.startidx.
    unfold Pandas.ffill, Pandas.shift. cbn [TrialEvents.labels map].
    cbn [Pandas.ffill_from Pandas.ne].
    replace (Pandas.ne_cell (CurrentObject s) None) with true
      by (now destruct (CurrentObject s)).
    cbn [Pandas.loc_mask map filter]. now rewrite H.
  - intros H. induction df as [|p df IH].
    + exists []. unfold TrialEvents.stop_rows, TrialEvents.stopidx.
      cbn [app TrialEvents.labels map Pandas.shift_up Pandas.bfill Pandas.ne].
      replace (Pandas.ne_cell (CurrentObject s) None) with true
        by (now destruct (CurrentObject s)).
      cbn [Pandas.loc_mask map filter]. now rewrite H.
    + destruct IH as (front & E).
      destruct (stop_rows_cons p (df := df ++ [s])) as (f0 & E0).
      { destruct df; discriminate. }
      exists (f0 ++ front). cbn [app]. rewrite E0, E.
      now rewrite app_assoc.
Qed.

Lemma X2_witness :
  hd_error (TrialEvents.start_rows
              (Samples.row 0 "RecordLetter" :: Samples.trial_block 1))
  = Some (event_of_sample (Samples.row 0 "RecordLetter"))
  /\ exists front,
      TrialEvents.stop_rows
        (Samples.trial_block 0 ++ [Samples.row 5 "BeginFile"])
      = front ++ [event_of_sample (Samples.row 5 "BeginFile")].
Proof.
  split.
  - exact (proj1 (X2_stream_ends_are_boundaries
                    (Samples.row 0 "RecordLetter") (Samples.trial_block 1))
                 eq_refl).
  - exact (proj2 (X2_stream_ends_are_boundaries
                    (Samples.row 5 "BeginFile") (Samples.trial_block 0))
                 eq_refl).
Defined.

(** ** The trial-event table as a whole *)

Section TableFacts.
Import Pandas TrialEvents.

Variable mark_start : string -> event -> event.
Hypothesis mark_index : forall v e, e_index (mark_start v e) = e_index e.

Lemma insert_by_sorted {A} (key : A -> nat) (x : A) (l : list A) :
  Sorted le (map key l) -> Sorted le (map key (insert_by key x l)).
Proof.
  induction l as [|y l IH]; intros H; cbn [insert_by map].
  - repeat constructor.
  - destruct (Nat.leb_spec (key x) (key y)) as [Hle|Hgt].
    + cbn [map]. constructor; [exact H | now constructor].
    + cbn [map] in *. apply Sorted_inv in H. destruct H as [Hs Hh].
      constructor; [now apply IH|].
      destruct l as [|z l]; cbn [insert_by map].
      * constructor. lia.
      * apply HdRel_inv in Hh.
        destruct (key x <=? key z); cbn [map]; constructor; lia.
Qed.

Lemma sort_by_is_sorted {A} (key : A -> nat) (l : list A) :
  Sorted le (map key (sort_by key l)).
Proof.
  induction l as [|x l IH]; [constructor|].
  cbn [sort_by]. now apply insert_by_sorted.
Qed.

(** The shape of the table whenever the extraction returns. *)
Lemma get_trial_events_ok_inv (df : list sample) (te : list event) :
  get_trial_events mark_start df = Ok te ->
  exists st sp,
    set_column blank_event set_TrialPhase (start_rows df)
               (tile ["Baseline"; "Response"]%string 6) = Ok st
    /\ set_column blank_event set_TrialPhase (stop_rows df)
                  (tile ["Baseline"; "Response"]%string 6) = Ok sp
    /\ List.length st = 12 /\ List.length sp = 12
    /\ te = write_cells set_Condition
              (write_cells set_Trial
                 (sort_by e_index
                    (map (mark_start "Start") st
                       ++ map (set_StartStop "Stop") sp))
                 (np_repeat (range 1 7) 4))
              (np_repeat ["Letter"; "Category"]%string 12)
    /\ List.length
         (sort_by e_index
            (map (mark_start "Start") st ++ map (set_StartStop "Stop") sp))
       = 24.
Proof.
  unfold get_trial_events. intros H.
  destruct (set_column blank_event set_TrialPhase (start_rows df) _)
    as [st|] eqn:Es; [|discriminate]. cbn [rbind] in H.
  destruct (set_column blank_event set_TrialPhase (stop_rows df) _)
    as [sp|] eqn:Ep; [|discriminate]. cbn [rbind] in H.
  exists st, sp.
  pose proof (set_column_ok_length _ _ _ _ Es) as Ls.
  pose proof (set_column_ok_length _ _ _ _ Ep) as Lp.
  set (sorted := sort_by e_index _) in *.
  assert (Hl : List.length sorted = 24).
  { unfold sorted. rewrite sort_by_length, length_app, !length_map.
    rewrite Ls, Lp. reflexivity. }
  rewrite set_column_same_length in H by exact Hl. cbn [rbind] in H.
  rewrite set_column_same_length in H
    by (rewrite write_cells_length; exact Hl).
  cbn [rbind] in H. injection H as <-.
  repeat split; auto.
Qed.

Lemma table_sorted_by_index (df : list sample) (te : list event) :
  get_trial_events mark_start df = Ok te -> Sorted le (map e_index te).
Proof.
  intros H.
  destruct (@get_trial_events_ok_inv df te H)
    as (st & sp & _ & _ & _ & _ & -> & Hl).
  rewrite write_cells_map;
    [| reflexivity | rewrite write_cells_length; exact Hl].
  rewrite write_cells_map; [| reflexivity | exact Hl].
  apply sort_by_is_sorted.
Qed.
End TableFacts.

(** X3: whenever the extraction returns, in the fluency script and in the
    recall script, the rows of the trial-event table are in non-decreasing
    order of their index label, so that start and stop events are merged in
    the order in which they occur in the recording. *)
Theorem X3_table_sorted_by_index (df : list sample) (te : list event) :
  fluency_proc_subject.get_trial_events df = Ok te
  \/ hvlt_recall_proc_subject.get_trial_events df = Ok te ->
  Sorted le (map e_index te).
Proof.
  intros [H|H]; eapply table_sorted_by_index; exact H.
Qed.

Lemma X3_witness :
  exists te,
    fluency_proc_subject.get_trial_events Samples.scrambled = Ok te
    /\ Sorted le (map e_index te).
Proof.
  eexists. split; [vm_compute; reflexivity|].
  refine (@X3_table_sorted_by_index Samples.scrambled _ (or_introl _)).
  vm_compute. reflexivity.
Defined.

Lemma write_cells_from {R V} (setv : V -> R -> R) (rows : list R)
      (vals : list V) :
  Forall (fun o => exists v r, In r rows /\ o = setv v r)
         (Pandas.write_cells setv rows vals).
Proof.
  revert vals. induction rows as [|r rows IH]; intros [|v vals];
    cbn [Pandas.write_cells]; constructor.
  - exists v, r. split; [now left | reflexivity].
  - eapply Forall_impl; [|apply IH]. cbn beta.
    intros o (v' & r' & Hin & ->). exists v', r'. split; [now right | auto].
Qed.

Lemma set_column_from {R V} (blank : nat -> R) (setv : V -> R -> R)
      (rows out : list R) (vals : list V) :
  Pandas.set_column blank setv rows vals = Ok out ->
  Forall (fun o => exists v,
              (exists r, In r rows /\ o = setv v r)
              \/ (exists i, o = setv v (blank i))) out.
Proof.
  unfold Pandas.set_column.
  destruct (_ =? _).
  - intros [= <-]. eapply Forall_impl; [|apply write_cells_from].
    cbn beta. intros o (v & r & Hin & ->). exists v. left. now exists r.
  - destruct (_ =? _); [|discriminate].
    intros [= <-]. eapply Forall_impl; [|apply write_cells_from].
    cbn beta. intros o (v & r & Hin & ->). exists v. right.
    apply in_map_iff in Hin. destruct Hin as (i & <- & _). now exists i.
Qed.

Lemma eq_lit_true (a : option string) (s : string) :
  Pandas.eq_lit a s = true -> a = Some s.
Proof.
  destruct a as [x|]; cbn; [|discriminate].
  intros H. apply String.eqb_eq in H. now subst.
Qed.

Lemma start_rows_origin (df : list sample) (e : event) :
  In e (TrialEvents.start_rows df) ->
  exists s, In s df /\ e = event_of_sample s
            /\ (CurrentObject s = Some "ReadLetter"%string
                \/ CurrentObject s = Some "RecordLetter"%string).
Proof.
  unfold TrialEvents.start_rows. intros H.
  apply filter_In in H. destruct H as [H L].
  apply in_map_iff in H. destruct H as (s & <- & Hs).
  exists s. split; [eapply loc_mask_In; eauto|]. split; [reflexivity|].
  unfold TrialEvents.is_start_label in L. cbn [event_of_sample e_CurrentObject] in L.
  apply orb_true_iff in L.
  destruct L as [L|L]; apply eq_lit_true in L; auto.
Qed.

Lemma stop_rows_origin (df : list sample) (e : event) :
  In e (TrialEvents.stop_rows df) ->
  exists s, In s df /\ e = event_of_sample s
            /\ (CurrentObject s = Some "BeginFile"%string
                \/ CurrentObject s = Some "RecordLetter"%string).
Proof.
  unfold TrialEvents.stop_rows. intros H.
  apply filter_In in H. destruct H as [H L].
  apply in_map_iff in H. destruct H as (s & <- & Hs).
  exists s. split; [eapply loc_mask_In; eauto|]. split; [reflexivity|].
  unfold TrialEvents.is_stop_label in L. cbn [event_of_sample e_CurrentObject] in L.
  apply orb_true_iff in L.
  destruct L as [L|L]; apply eq_lit_true in L; auto.
Qed.

(** X4: whenever the fluency extraction returns, every row of the table is
    either one of the blank rows pandas creates for an empty frame (no time
    stamp, no label) or a copy of a raw row of the recording: same index,
    same time stamp, same label, a Start row being labelled ReadLetter or
    RecordLetter and a Stop row BeginFile or RecordLetter.  No time stamp is
    invented or altered. *)
Theorem X4_events_copy_raw_rows (df : list sample) (te : list event) :
  fluency_proc_subject.get_trial_events df = Ok te ->
  Forall (event_origin df) te.
Proof.
  intros H. unfold fluency_proc_subject.get_trial_events in H.
  destruct (@get_trial_events_ok_inv set_StartStop df te H)
    as (st & sp & Es & Ep & _ & _ & -> & Hl).
  apply write_cells_Forall; [intros v r Hr; exact Hr|].
  apply write_cells_Forall; [intros v r Hr; exact Hr|].
  eapply Permutation_Forall; [apply sort_by_perm|].
  apply set_column_from in Es, Ep. rewrite Forall_forall in Es, Ep.
  apply Forall_app. split; apply Forall_forall; intros e He;
    apply in_map_iff in He; destruct He as (x & <- & Hx).
  - destruct (Es x Hx) as (v & [(r & Hr & ->)|(i & ->)]).
    + destruct (start_rows_origin _ _ Hr) as (s & Hs & -> & Hl').
      right. exists s. repeat split; auto. discriminate.
    + left. split; reflexivity.
  - destruct (Ep x Hx) as (v & [(r & Hr & ->)|(i & ->)]).
    + destruct (stop_rows_origin _ _ Hr) as (s & Hs & -> & Hl').
      right. exists s. repeat split; auto. discriminate.
    + left. split; reflexivity.
Qed.

Lemma X4_witness :
  exists te,
    fluency_proc_subject.get_trial_events Samples.session6 = Ok te
    /\ Forall (event_origin Samples.session6) te.
Proof.
  eexists. split; [vm_compute; reflexivity|].
  refine (@X4_events_copy_raw_rows Samples.session6 _ _).
  vm_compute. reflexivity.
Defined.

Lemma set_column_accepts {R V} (blank : nat -> R) (setv : V -> R -> R)
      (rows : list R) (vals : list V) :
  List.length rows = List.length vals \/ List.length rows = 0 ->
  exists out, Pandas.set_column blank setv rows vals = Ok out
              /\ List.length out = List.length vals.
Proof.
  intros H. unfold Pandas.set_column.
  destruct (Nat.eqb_spec (List.length rows) (List.length vals)) as [E|E].
  - eexists. split; [reflexivity|]. rewrite write_cells_length; auto.
  - destruct H as [H|H]; [contradiction|]. rewrite H. cbn [Nat.eqb].
    eexists. split; [reflexivity|].
    rewrite write_cells_length; rewrite length_map, length_seq; reflexivity.
Qed.

Lemma get_trial_events_accepts (mark_start : string -> event -> event)
      (df : list sample) :
  counts_accepted df ->
  exists te, TrialEvents.get_trial_events mark_start df = Ok te
             /\ List.length te = 24.
Proof.
  intros [Hs Hp]. unfold TrialEvents.get_trial_events.
  destruct (set_column_accepts blank_event set_TrialPhase
              (TrialEvents.start_rows df)
              (Pandas.tile ["Baseline"; "Response"]%string 6) Hs)
    as (st & Es & Ls).
  destruct (set_column_accepts blank_event set_TrialPhase
              (TrialEvents.stop_rows df)
              (Pandas.tile ["Baseline"; "Response"]%string 6) Hp)
    as (sp & Ep & Lp).
  rewrite Es. cbn [rbind]. rewrite Ep. cbn [rbind].
  set (sorted := Pandas.sort_by e_index _).
  assert (Hl : List.length sorted = 24).
  { unfold sorted. rewrite sort_by_length, length_app, !length_map.
    rewrite Ls, Lp. reflexivity. }
  rewrite set_column_same_length by exact Hl. cbn [rbind].
  rewrite set_column_same_length by (rewrite write_cells_length; exact Hl).
  cbn [rbind]. eexists. split; [reflexivity|].
  rewrite !write_cells_length; auto. rewrite write_cells_length; auto.
Qed.

Lemma counts_accepted_dec (df : list sample) :
  counts_accepted df
  \/ ((List.length (TrialEvents.start_rows df) <> 12
       /\ List.length (TrialEvents.start_rows df) <> 0)
      \/ (List.length (TrialEvents.stop_rows df) <> 12
          /\ List.length (TrialEvents.stop_rows df) <> 0)).
Proof. unfold counts_accepted. lia. Qed.

(** X5: the extraction has exactly two outcomes, in both scripts.  It
    returns, and then with a table of 24 rows, exactly when the number of
    start rows is 12 or 0 and the number of stop rows is 12 or 0; in every
    other case it raises, and the exception is a [ValueError]. *)
Theorem X5_extraction_outcomes (df : list sample) :
  match fluency_proc_subject.get_trial_events df with
  | Ok te => counts_accepted df /\ List.length te = 24
  | Raise e => ~ counts_accepted df /\ e = ValueError
  end
  /\ match hvlt_recall_proc_subject.get_trial_events df with
     | Ok te => counts_accepted df /\ List.length te = 24
     | Raise e => ~ counts_accepted df /\ e = ValueError
     end.
Proof.
  unfold fluency_proc_subject.get_trial_events,
    hvlt_recall_proc_subject.get_trial_events.
  destruct (counts_accepted_dec df) as [Ha|Hn].
  - destruct (get_trial_events_accepts set_StartStop Ha) as (t1 & E1 & L1).
    destruct (get_trial_events_accepts set_StatStop Ha) as (t2 & E2 & L2).
    rewrite E1, E2. auto.
  - rewrite !get_trial_events_raises by exact Hn.
    assert (~ counts_accepted df) by (unfold counts_accepted; lia).
    auto.
Qed.

(** ** From the table to the windows *)

Lemma trial_times_length (te : list event) (k : nat) :
  List.length (fluency_proc_subject.trial_times te k)
  = List.length (filter (fun t => match t with
                                  | Some k' => k' =? k
                                  | None => false
                                  end) (map Trial te)).
Proof.
  unfold fluency_proc_subject.trial_times. rewrite length_map.
  induction te as [|e te IH]; [reflexivity|].
  cbn [map filter]. destruct (Trial e) as [k'|]; [destruct (k' =? k)|];
    cbn [List.length]; now rewrite IH.
Qed.

Lemma trial_numbers_map (te : list event) :
  fluency_proc_subject.trial_numbers te
  = Pandas.unique (flat_map (fun t => match t with
                                      | Some k => [k]
                                      | None => []
                                      end) (map Trial te)).
Proof.
  unfold fluency_proc_subject.trial_numbers. f_equal.
  induction te as [|e te IH]; [reflexivity|].
  cbn [map flat_map]. now rewrite IH.
Qed.

Lemma returned_table_trials (mark_start : string -> event -> event)
      (df : list sample) (te : list event) :
  TrialEvents.get_trial_events mark_start df = Ok te ->
  fluency_proc_subject.trial_numbers te = [1; 2; 3; 4; 5; 6]
  /\ forall k,
      List.length (fluency_proc_subject.trial_times te k)
      = if (1 <=? k) && (k <=? 6) then 4 else 0.
Proof.
  intros H. apply get_trial_events_positional in H. destruct H as [HT _].
  split.
  - rewrite trial_numbers_map, HT. reflexivity.
  - intros k. rewrite trial_times_length, HT.
    destruct k as [|[|[|[|[|[|[|k]]]]]]]; reflexivity.
Qed.

Lemma every_trial_has_a_window (df : list sample) (te : list event) :
  (fluency_proc_subject.get_trial_events df = Ok te ->
   fluency_proc_subject.trial_numbers te = [1; 2; 3; 4; 5; 6]
   /\ forall k, In k [1; 2; 3; 4; 5; 6] ->
                exists w, fluency_proc_subject.rawtrial df te k = Ok w)
  /\ (hvlt_recall_proc_subject.get_trial_events df = Ok te ->
      hvlt_recall_proc_subject.trial_numbers te = [1; 2; 3; 4; 5; 6]
      /\ forall k, In k [1; 2; 3; 4; 5; 6] ->
                   exists w, hvlt_recall_proc_subject.window df te k = Ok w).
Proof.
  split; intros H; apply returned_table_trials in H; destruct H as [HN HL];
    (split; [exact HN|]); intros k Hk;
    specialize (HL k);
    replace ((1 <=? k) && (k <=? 6)) with true in HL
      by (cbn [In] in Hk; repeat (destruct Hk as [<-|Hk]; [reflexivity|]);
          contradiction).
  - unfold fluency_proc_subject.rawtrial.
    destruct (fluency_proc_subject.trial_times te k) as [|t ts];
      [discriminate HL|].
    cbn [fluency_proc_subject.iloc_first_last rbind]. eexists. reflexivity.
  - unfold hvlt_recall_proc_subject.window.
    change (map e_TETTime (hvlt_recall_proc_subject.trial_rows te k))
      with (fluency_proc_subject.trial_times te k).
    destruct (fluency_proc_subject.trial_times te k)
      as [|t1 [|t2 [|t3 [|t4 [|t5 ts]]]]]; try discriminate HL.
    cbn [hvlt_recall_proc_subject.unpack4 rbind]. eexists. reflexivity.
Qed.

(** X6: for every table the extraction returns, whatever the stream, the
    trial numbers met by [clean_trials] are 1, 2, ..., 6 in this order and
    every one of them has exactly four time stamps: the fluency loop finds a
    first and a last time stamp for each (no [IndexError]) and the recall
    loop can unpack its four boundaries for each (no [ValueError]). *)
Theorem X6_every_trial_has_a_window (df : list sample) (te : list event) :
  (fluency_proc_subject.get_trial_events df = Ok te ->
   fluency_proc_subject.trial_numbers te = [1; 2; 3; 4; 5; 6]
   /\ forall k, In k [1; 2; 3; 4; 5; 6] ->
                exists w, fluency_proc_subject.rawtrial df te k = Ok w)
  /\ (hvlt_recall_proc_subject.get_trial_events df = Ok te ->
      hvlt_recall_proc_subject.trial_numbers te = [1; 2; 3; 4; 5; 6]
      /\ forall k, In k [1; 2; 3; 4; 5; 6] ->
                   exists w, hvlt_recall_proc_subject.window df te k = Ok w).
Proof. exact (every_trial_has_a_window df te). Qed.

Lemma X6_witness :
  exists te,
    fluency_proc_subject.get_trial_events Samples.scrambled = Ok te
    /\ fluency_proc_subject.trial_numbers te = [1; 2; 3; 4; 5; 6]
    /\ forall k, In k [1; 2; 3; 4; 5; 6] ->
                 exists w,
                   fluency_proc_subject.rawtrial Samples.scrambled te k = Ok w.
Proof.
  eexists. split; [vm_compute; reflexivity|].
  refine (proj1 (@X6_every_trial_has_a_window Samples.scrambled _) _).
  vm_compute. reflexivity.
Defined.

(** ** The per-trial loops *)

Lemma rmapM_raises {A B} (f : A -> result B) (l : list A) (a : A) (e : exn) :
  In a l -> f a = Raise e -> exists e', rmapM f l = Raise e'.
Proof.
  induction l as [|x l IH]; intros Hin Ha; [contradiction|].
  cbn [rmapM]. destruct (f x) as [b|ex] eqn:Ex; cbn [rbind].
  - destruct Hin as [->|Hin]; [congruence|].
    destruct (IH Hin Ha) as (e' & E). rewrite E. cbn [rbind].
    now exists e'.
  - now exists ex.
Qed.

(** X7: with conditioning stages that return normally on every window, the
    fluency [clean_trials] applied to any table the extraction returns
    yields exactly six conditioned trials, keyed 1, 2, ..., 6 in this
    order. *)
Theorem X7_fluency_clean_trials_six_entries
        (clean resamp : Type)
        (deblink : list sample -> result clean)
        (resamp_filt_data : clean -> result resamp)
        (df : list sample) (te : list event) :
  fluency_proc_subject.get_trial_events df = Ok te ->
  (forall w, exists c, deblink w = Ok c) ->
  (forall c, exists r, resamp_filt_data c = Ok r) ->
  exists res,
    fluency_proc_subject.clean_trials deblink resamp_filt_data df te = Ok res
    /\ map fst res = [1; 2; 3; 4; 5; 6].
Proof.
  intros H Hd Hr.
  destruct (proj1 (@every_trial_has_a_window df te) H) as [HN HW].
  unfold fluency_proc_subject.clean_trials. rewrite HN.
  match goal with
  | |- exists res, rmapM ?f ?l = Ok res /\ _ =>
      destruct (@rmapM_total _ _ f l) as (res & E & F)
  end.
  - intros k Hk. destruct (HW k Hk) as (w & Ew). rewrite Ew. cbn [rbind].
    destruct (Hd w) as (c & Ec). rewrite Ec. cbn [rbind].
    destruct (Hr c) as (r & Er). rewrite Er. cbn [rbind].
    eexists. reflexivity.
  - exists res. split; [exact E|].
    clear E. revert F. generalize [1; 2; 3; 4; 5; 6].
    induction res as [|[k r] res IH]; intros l F; inversion F; subst;
      [reflexivity|].
    cbn [map fst]. f_equal; [|now apply IH].
    match goal with
    | Hx : _ = Ok (k, r) |- _ =>
        destruct (fluency_proc_subject.rawtrial df te _); cbn [rbind] in Hx;
        [|discriminate];
        destruct (deblink _); cbn [rbind] in Hx; [|discriminate];
        destruct (resamp_filt_data _); cbn [rbind] in Hx; [|discriminate];
        now injection Hx
    end.
Qed.

Lemma X7_witness :
  exists res,
    fluency_proc_subject.clean_trials
      (Samples.pass_deblink 0%Q 0%Q) Samples.pass_resamp
      Samples.session6
      (match fluency_proc_subject.get_trial_events Samples.session6 with
       | Ok te => te
       | Raise _ => []
       end) = Ok res
    /\ map fst res = [1; 2; 3; 4; 5; 6].
Proof.
  refine (@X7_fluency_clean_trials_six_entries
            _ _ (Samples.pass_deblink 0%Q 0%Q) Samples.pass_resamp
            Samples.session6 _ _ _ _).
  - vm_compute. reflexivity.
  - intros w. exists w. reflexivity.
  - intros c. eexists. reflexivity.
Defined.

Lemma encoding_clean_trials_loop
      (deblink : Q -> Q -> list sample -> result (list sample))
      (resamp_filt_data : list sample -> result (list resampled))
      (trialevents : list (nat * sample)) :
  hvlt_encoding_proc_subject.clean_trials deblink resamp_filt_data trialevents
  = rmapM (encoding_trial_result deblink resamp_filt_data trialevents)
          (hvlt_encoding_proc_subject.trial_numbers trialevents).
Proof. reflexivity. Qed.

(** X8: the encoding [clean_trials] is all or nothing.  When the loop body
    raises for one trial of the table (a conditioning stage fails, or the
    conditioned trial has no PlayWord row left), [clean_trials] raises and
    returns no trial at all, the good ones included. *)
Theorem X8_one_bad_trial_aborts_the_subject
        (deblink : Q -> Q -> list sample -> result (list sample))
        (resamp_filt_data : list sample -> result (list resampled))
        (trialevents : list (nat * sample)) (trial : nat) (e : exn) :
  In trial (hvlt_encoding_proc_subject.trial_numbers trialevents) ->
  encoding_trial_result deblink resamp_filt_data trialevents trial = Raise e ->
  exists e',
    hvlt_encoding_proc_subject.clean_trials deblink resamp_filt_data
                                            trialevents = Raise e'.
Proof.
  intros Hin He. rewrite encoding_clean_trials_loop.
  eapply rmapM_raises; eassumption.
Qed.

Lemma X8_witness :
  exists e',
    hvlt_encoding_proc_subject.clean_trials
      Samples.pass_deblink Samples.pass_resamp
      [(1, Samples.word_row 0 (Some "PlayWord1"%string) 3);
       (2, Samples.word_row 2 (Some "Ready"%string) 2)] = Raise e'.
Proof.
  refine (@X8_one_bad_trial_aborts_the_subject
            Samples.pass_deblink Samples.pass_resamp _ 2 IndexError _ _).
  - vm_compute. tauto.
  - vm_compute. reflexivity.
Defined.

(** ** Trial numbers of an encoding session *)

Lemma label_runs_dense (df : list sample) :
  forall n in_run, dense n (map fst (label_runs n in_run df)).
Proof.
  induction df as [|s df IH]; intros n in_run; [exact I|].
  cbn [label_runs]. destruct (CurrentObject s); [|apply IH].
  cbn [map fst dense]. split; [destruct in_run; auto | apply IH].
Qed.

Lemma label_runs_app (l1 l2 : list sample) :
  forall n in_run,
    label_runs n in_run (l1 ++ l2)
    = label_runs n in_run l1
        ++ label_runs (fst (run_state n in_run l1))
                      (snd (run_state n in_run l1)) l2.
Proof.
  induction l1 as [|s l1 IH]; intros n in_run; [reflexivity|].
  cbn [app label_runs run_state]. destruct (CurrentObject s).
  - cbn [app]. f_equal. apply IH.
  - apply IH.
Qed.

Lemma run_state_blanks (n : nat) (in_run : bool) (l : list sample) :
  l <> [] -> Forall blank l -> run_state n in_run l = (n, false).
Proof.
  intros Hne H. revert in_run. induction H as [|s l Hs _ IH]; intros in_run;
    [congruence|].
  cbn [run_state]. unfold blank in Hs. rewrite Hs.
  destruct l as [|s' l]; [reflexivity|]. apply IH. discriminate.
Qed.

Lemma get_trial_events_runs (df : list sample) (te : list (nat * sample)) :
  hvlt_encoding_proc_subject.get_trial_events df = Ok te ->
  te = label_runs 0 false df.
Proof.
  rewrite get_trial_events_label_runs.
  destruct (label_runs 0 false df); [discriminate | now intros [= <-]].
Qed.

Lemma label_runs_first (df : list sample) (n : nat) :
  label_runs n false df = []
  \/ exists s rest,
      label_runs n false df = (S n, s) :: label_runs (S n) true rest.
Proof.
  induction df as [|x df IH]; [now left|].
  cbn [label_runs]. destruct (CurrentObject x); [|exact IH].
  right. now exists x, df.
Qed.

(** X9: the trial numbers the encoding [get_trial_events] writes are
    1-based and dense in stream order: the first row of the table belongs to
    trial 1 and every later row carries the number of the row before it or
    that number plus one. *)
Theorem X9_trial_numbers_dense (df : list sample) (te : list (nat * sample)) :
  hvlt_encoding_proc_subject.get_trial_events df = Ok te ->
  exists l, map fst te = 1 :: l /\ dense 1 l.
Proof.
  intros H. pose proof H as H'. apply get_trial_events_runs in H. subst te.
  rewrite get_trial_events_label_runs in H'.
  destruct (label_runs_first df 0) as [E|(s & rest & E)]; rewrite E in *;
    [discriminate|].
  cbn [map fst]. eexists. split; [reflexivity|]. apply label_runs_dense.
Qed.

Lemma X9_witness :
  exists l,
    map fst (match hvlt_encoding_proc_subject.get_trial_events
                     Samples.encoding_stream with
             | Ok te => te
             | Raise _ => []
             end) = 1 :: l
    /\ dense 1 l.
Proof.
  refine (@X9_trial_numbers_dense Samples.encoding_stream _ _).
  vm_compute. reflexivity.
Defined.

(** X10: two rows with a label that follow one another in the stream get
    the same trial number, and two rows with a label that are separated by
    one or more rows without a label, and by nothing else, get consecutive
    trial numbers: a trial ends exactly where the labels stop. *)
Theorem X10_runs_split_at_blank_rows
        (pre post gap : list sample) (a b : sample)
        (te : list (nat * sample)) :
  labelled a -> labelled b -> Forall blank gap ->
  hvlt_encoding_proc_subject.get_trial_events (pre ++ a :: gap ++ b :: post)
  = Ok te ->
  exists k front back,
    te = front
           ++ (k, a) :: (match gap with [] => k | _ => S k end, b) :: back
    /\ map snd front
       = filter (fun s => match CurrentObject s with
                          | None => false
                          | Some _ => true
                          end) pre.
Proof.
  intros Ha Hb Hg H. apply get_trial_events_runs in H. subst te.
  rewrite label_runs_app.
  destruct (run_state 0 false pre) as [n r]. cbn [fst snd].
  unfold labelled in Ha, Hb.
  cbn [label_runs]. destruct (CurrentObject a) as [la|] eqn:Ea;
    [|congruence].
  set (k := if r then n else S n).
  exists k, (label_runs 0 false pre).
  rewrite label_runs_app.
  destruct gap as [|g gap].
  - cbn [label_runs fst snd run_state app].
    destruct (CurrentObject b) as [lb|] eqn:Eb; [|congruence].
    eexists. split; [reflexivity | apply label_runs_rows].
  - rewrite run_state_blanks by (discriminate || exact Hg).
    cbn [fst snd].
    assert (E : forall m q, label_runs m q (g :: gap) = []).
    { clear -Hg. induction Hg as [|x l Hx _ IH]; intros m q; [reflexivity|].
      cbn [label_runs]. unfold blank in Hx. rewrite Hx. apply IH. }
    rewrite E. cbn [app label_runs].
    destruct (CurrentObject b) as [lb|] eqn:Eb; [|congruence].
    eexists. split; [reflexivity | apply label_runs_rows].
Qed.

Lemma X10_witness :
  exists k front back,
    match hvlt_encoding_proc_subject.get_trial_events
            ([Samples.word_row 0 None 3]
               ++ Samples.word_row 1 (Some "PlayWord1"%string) 3
               :: [Samples.word_row 2 None 3]
               ++ Samples.word_row 3 (Some "Ready"%string) 2 :: []) with
    | Ok te => te
    | Raise _ => []
    end
    = front ++ (k, Samples.word_row 1 (Some "PlayWord1"%string) 3)
        :: (S k, Samples.word_row 3 (Some "Ready"%string) 2) :: back
    /\ map snd front = [].
Proof.
  refine (@X10_runs_split_at_blank_rows
            [Samples.word_row 0 None 3] [] [Samples.word_row 2 None 3]
            (Samples.word_row 1 (Some "PlayWord1"%string) 3)
            (Samples.word_row 3 (Some "Ready"%string) 2) _ _ _ _ _).
  - discriminate.
  - discriminate.
  - repeat constructor.
  - vm_compute. reflexivity.
Defined.

(** ** Lines 59-63 of the encoding script *)

(** X11: what lines 59-63 of the encoding script do with a conditioned
    trial has exactly three outcomes: a [ValueError] when some row has no
    label (the boolean mask of line 62 then holds a missing value), an
    [IndexError] when every row has a label and none starts with PlayWord
    (line 63 asks for the first index of an empty frame), and otherwise the
    PlayWord rows, as many as there are. *)
Theorem X11_dilation_rows_outcomes (tr : list resampled) :
  match hvlt_encoding_proc_subject.dilation_rows tr with
  | Ok out =>
      all_labelled tr
      /\ out <> []
      /\ List.length out = List.length (filter is_playword tr)
  | Raise e =>
      (e = ValueError /\ ~ all_labelled tr)
      \/ (e = IndexError /\ all_labelled tr /\ filter is_playword tr = [])
  end.
Proof.
  rewrite dilation_rows_unfold.
  destruct (forallb _ tr) eqn:E.
  - apply forallb_labelled in E.
    destruct (filter is_playword tr) as [|r0 rest].
    + right. auto.
    + split; [exact E|]. split; [discriminate|].
      now rewrite length_map.
  - left. split; [reflexivity|]. intros H. apply forallb_labelled in H.
    congruence.
Qed.

(** X12: in the output of lines 59-63 elapsed time restarts at the first
    PlayWord row: every output row keeps its distance to that row as its
    time stamp, so the first output time stamp is 0, and for a trial in time
    order the output is in time order with no negative time stamp. *)
Theorem X12_response_time_restarts_at_zero (tr out : list resampled) :
  hvlt_encoding_proc_subject.dilation_rows tr = Ok out ->
  exists r0 rest,
    filter is_playword tr = r0 :: rest
    /\ map Timestamp out
       = map (fun r => Timestamp r - Timestamp r0)%Z (r0 :: rest)
    /\ hd_error (map Timestamp out) = Some 0%Z
    /\ (time_ordered tr ->
        time_ordered out /\ Forall (fun t => 0 <= t)%Z (map Timestamp out)).
Proof.
  rewrite dilation_rows_unfold.
  destruct (forallb _ tr); [|discriminate].
  pose proof (time_ordered_filter is_playword (rows := tr)) as Hf.
  destruct (filter is_playword tr) as [|r0 rest]; [discriminate|].
  intros [= <-]. exists r0, rest. split; [reflexivity|].
  match goal with
  | |- context [?x :: map ?F rest] =>
      change (x :: map F rest) with (map F (r0 :: rest))
  end.
  rewrite map_map. cbn [Timestamp set_Timestamp].
  split; [reflexivity|].
  split; [cbn [map hd_error]; f_equal; lia|].
  intros Ho. specialize (Hf Ho). apply time_ordered_strong in Hf.
  cbn [map] in Hf. inversion Hf as [|? ? Hs Hall]; subst.
  assert (Hall' : Forall (fun t => 0 <= t)%Z
                         (map (fun r => Timestamp r - Timestamp r0)%Z rest)).
  { rewrite Forall_map. rewrite Forall_map in Hall.
    eapply Forall_impl; [|exact Hall]. cbn beta. intros; lia. }
  split.
  - unfold time_ordered. rewrite map_map. cbn [Timestamp set_Timestamp].
    apply StronglySorted_Sorted.
    assert (M : forall l, StronglySorted Z.le (map Timestamp l) ->
                          StronglySorted Z.le
                            (map (fun r => Timestamp r - Timestamp r0)%Z l)).
    { induction l as [|x l IH]; cbn [map]; intros H; [constructor|].
      inversion H as [|? ? Hs' Ha']; subst.
      constructor; [now apply IH|].
      rewrite Forall_map. rewrite Forall_map in Ha'.
      eapply Forall_impl; [|exact Ha']. cbn beta. intros; lia. }
    apply (M (r0 :: rest)). now constructor.
  - cbn [map]. constructor; [lia | exact Hall'].
Qed.

Lemma X12_witness :
  exists r0 rest,
    filter is_playword Samples.encoding_trial = r0 :: rest
    /\ map Timestamp
           (match hvlt_encoding_proc_subject.dilation_rows
                    Samples.encoding_trial with
            | Ok out => out
            | Raise _ => []
            end)
       = map (fun r => Timestamp r - Timestamp r0)%Z (r0 :: rest).
Proof.
  destruct (@X12_response_time_restarts_at_zero
              Samples.encoding_trial _ eq_refl)
    as (r0 & rest & E & M & _).
  exists r0, rest. split; [exact E | exact M].
Defined.

(** ** From the dilation rows to the bins *)

Section MeanFacts.
Import Pandas.










End MeanFacts.



(** ** [define_condition] *)

Lemma Ok_inj {A} (a b : A) : Ok a = Ok b -> a = b.
Proof. congruence. Qed.

Lemma threshold_blocks (t0 : Z) (l : list sample) :
  StronglySorted Z.le (map TETTime l) ->
  exists n,
    (n <= List.length l)%nat
    /\ map (fun s => if (1000 <? TETTime s - t0)%Z then "Record"%string
                     else "Ready"%string) l
       = repeat "Ready"%string n
                ++ repeat "Record"%string (List.length l - n)
    /\ Forall (fun s => (TETTime s - t0 <= 1000)%Z) (firstn n l)
    /\ Forall (fun s => (1000 < TETTime s - t0)%Z) (skipn n l).
Proof.
  induction l as [|s l IH]; intros H.
  - exists 0. repeat split; constructor.
  - cbn [map] in *. inversion H as [|? ? Hs Hall]; subst.
    destruct (Z.ltb_spec 1000 (TETTime s - t0)) as [Hlt|Hge].
    + exists 0. cbn [firstn skipn repeat app List.length Nat.sub].
      assert (F : Forall (fun x => (1000 < TETTime x - t0)%Z) l).
      { apply Forall_forall. intros x Hx.
        rewrite Forall_forall in Hall.
        specialize (Hall (TETTime x) (in_map _ _ _ Hx)). lia. }
      split; [lia|]. split; [|split; [constructor | now constructor]].
      cbn [repeat]. f_equal.
      clear - F. induction F as [|x l Hx _ IHl]; [reflexivity|].
      cbn [map List.length repeat].
      rewrite (proj2 (Z.ltb_lt _ _) Hx). now rewrite IHl.
    + destruct (IH Hs) as (n & Hn & E & F1 & F2).
      exists (S n). cbn [firstn skipn repeat app List.length Nat.sub].
      split; [lia|]. split; [now rewrite E|].
      split; [now constructor | exact F2].
Qed.

(** X14: [define_condition] labels the rows of a frame relative to its
    first row and to a threshold of one second.  It keeps the rows as
    they are and gives each a condition: 'Record' when the row lies more
    than 1000 ms after the first row, 'Ready' otherwise.  The first row
    is 'Ready', and when the rows are in time order the conditions are a
    block of 'Ready' followed by a block of 'Record', the cut being where
    the distance to the first row passes one second: the rows of the
    first block are at most 1000 ms after the first row, the rows of the
    second block more than that. *)
Theorem X14_define_condition_blocks
        (trialdf : list sample) (out : list (sample * string)) :
  hvlt_encoding_script.define_condition trialdf = Ok out ->
  Sorted Z.le (map TETTime trialdf) ->
  map fst out = trialdf
  /\ hd_error (map snd out) = Some "Ready"%string
  /\ exists s0 n,
      hd_error trialdf = Some s0
      /\ Forall (fun p =>
                   snd p = if (1000 <? TETTime (fst p) - TETTime s0)%Z
                           then "Record"%string else "Ready"%string) out
      /\ (0 < n <= List.length trialdf)%nat
      /\ map snd out
         = repeat "Ready"%string n
                  ++ repeat "Record"%string (List.length trialdf - n)
      /\ Forall (fun s => (TETTime s - TETTime s0 <= 1000)%Z)
                (firstn n trialdf)
      /\ Forall (fun s => (1000 < TETTime s - TETTime s0)%Z)
                (skipn n trialdf).
Proof.
  unfold hvlt_encoding_script.define_condition.
  destruct trialdf as [|s0 rest]; [discriminate|].
  intros E Hs. apply Ok_inj in E. subst out.
  assert (H0 : (1000 <? TETTime s0 - TETTime s0)%Z = false)
    by (apply Z.ltb_ge; lia).
  split; [rewrite map_map; cbn [fst]; apply map_id|].
  split; [cbn [map snd hd_error]; now rewrite H0|].
  apply Sorted_StronglySorted in Hs; [|intros a b c; lia].
  cbn [map] in Hs. inversion Hs as [|? ? Hs' Hall]; subst.
  destruct (threshold_blocks (TETTime s0) rest Hs')
    as (n & Hn & Eb & F1 & F2).
  exists s0, (S n).
  split; [reflexivity|].
  split; [apply Forall_forall; intros p Hp;
          apply in_map_iff in Hp; destruct Hp as (s & <- & _);
          reflexivity|].
  cbn [List.length firstn skipn Nat.sub].
  split; [lia|].
  split.
  - cbn [map snd]. rewrite H0. cbn [repeat app]. f_equal.
    rewrite map_map. cbn [snd]. exact Eb.
  - split; [constructor; [lia | exact F1] | exact F2].
Qed.

(** Three rows 0, 1000 and 1500 ms after the first: two 'Ready', one
    'Record'. *)
Lemma X14_witness :
  exists out,
    hvlt_encoding_script.define_condition
      [Samples.word_row 0 (Some "Ready"%string) 2;
       Samples.word_row 2 (Some "Ready"%string) 2;
       Samples.word_row 3 (Some "PlayWord1"%string) 3] = Ok out
    /\ map snd out = ["Ready"%string; "Ready"%string; "Record"%string]
    /\ hd_error (map snd out) = Some "Ready"%string.
Proof.
  eexists. split; [reflexivity|]. split; [reflexivity|].
  refine (proj1 (proj2 (@X14_define_condition_blocks
                          [Samples.word_row 0 (Some "Ready"%string) 2;
                           Samples.word_row 2 (Some "Ready"%string) 2;
                           Samples.word_row 3 (Some "PlayWord1"%string) 3]
                          _ eq_refl _))).
  cbn. repeat constructor; lia.
Defined.

(** ** The recall script as a whole *)

Section RecallRun.
Import Py hvlt_recall_proc_subject.

Variable read_csv : string -> result (list sample).
Variable read_excel : string -> result (list sample).
Variable deblink : list sample -> result (list sample).
Variable resamp_filt_data : list sample -> result (list resampled).
Variable get_proc_outfile : string -> string -> string.

Local Abbreviation run_script :=
  (run read_csv read_excel deblink resamp_filt_data get_proc_outfile).

Lemma recall_rejects_extension (fname : string) (rest : list string) :
  accepted fname = false ->
  run_script (fname :: rest)
  = (Raise (IOError ("Could not open " ++ fname)%string),
     mkState [("fname"%string, VStr fname)]
             [Print ("Processing " ++ fname)%string]).
Proof.
  unfold accepted, run. intros Ha.
  apply orb_false_iff in Ha. destruct Ha as [Ha Hx].
  cbn [proc_subject]. unfold proc_file.
  unfold bind, assign, emit, lift, load, as_frame, ret, throw.
  cbn. rewrite Ha, Hx. reflexivity.
Qed.

Lemma recall_only_first_file (fname : string) (rest : list string) :
  run_script (fname :: rest) = run_script [fname].
Proof.
  unfold run. cbn [proc_subject]. unfold proc_file.
  unfold bind, assign, emit, lift, load, as_frame, ret, throw.
  cbn.
  destruct (String.eqb (splitext_ext fname) ".gazedata"
            || String.eqb (splitext_ext fname) ".csv")%bool.
  - cbn. destruct (read_csv fname) as [df|e]; cbn; [|reflexivity].
    destruct (select_recall df) as [kept|e]; cbn; [|reflexivity].
    destruct (deblink _) as [cl|e]; cbn; [|reflexivity].
    destruct (resamp_filt_data cl) as [rs|e]; cbn; reflexivity.
  - destruct (String.eqb (splitext_ext fname) ".xlsx"); cbn; [|reflexivity].
    destruct (read_excel fname) as [df|e]; cbn; [|reflexivity].
    destruct (select_recall df) as [kept|e]; cbn; [|reflexivity].
    destruct (deblink _) as [cl|e]; cbn; [|reflexivity].
    destruct (resamp_filt_data cl) as [rs|e]; cbn; reflexivity.
Qed.
End RecallRun.

(** X15: the recall [proc_subject] refuses a file whose extension is not
    .gazedata, .csv or .xlsx before it opens anything: the run ends with
    [IOError] carrying the message "Could not open <file>", and the only
    thing done is the "Processing <file>" print. *)
Theorem X15_recall_rejects_unknown_extension
        (read_csv read_excel : string -> result (list sample))
        (deblink : list sample -> result (list sample))
        (resamp_filt_data : list sample -> result (list resampled))
        (get_proc_outfile : string -> string -> string)
        (fname : string) (rest : list string) :
  hvlt_recall_proc_subject.accepted fname = false ->
  hvlt_recall_proc_subject.run read_csv read_excel deblink resamp_filt_data
                               get_proc_outfile (fname :: rest)
  = (Raise (IOError ("Could not open " ++ fname)%string),
     Py.mkState [("fname"%string, Py.VStr fname)]
                [Py.Print ("Processing " ++ fname)%string]).
Proof. apply recall_rejects_extension. Qed.

Lemma X15_witness :
  fst (hvlt_recall_proc_subject.run
         Samples.read_sample Samples.read_sample
         (Samples.pass_deblink 0%Q 0%Q) Samples.pass_resamp Samples.outfile
         ["notes.txt"%string; "sub-01_recall.gazedata"%string])
  = Raise (IOError "Could not open notes.txt").
Proof.
  exact (f_equal fst
           (@X15_recall_rejects_unknown_extension
              Samples.read_sample Samples.read_sample
              (Samples.pass_deblink 0%Q 0%Q) Samples.pass_resamp
              Samples.outfile "notes.txt"
              ["sub-01_recall.gazedata"%string] eq_refl)).
Defined.

(** X16: the recall [proc_subject] never gets past the first file of its
    list: whatever the collaborators do, a run on a list of files ends in
    the same exception and the same state as a run on its first file
    alone, so no later file is ever opened. *)
Theorem X16_recall_stops_at_first_file
        (read_csv read_excel : string -> result (list sample))
        (deblink : list sample -> result (list sample))
        (resamp_filt_data : list sample -> result (list resampled))
        (get_proc_outfile : string -> string -> string)
        (fname : string) (rest : list string) :
  hvlt_recall_proc_subject.run read_csv read_excel deblink resamp_filt_data
                               get_proc_outfile (fname :: rest)
  = hvlt_recall_proc_subject.run read_csv read_excel deblink
                                 resamp_filt_data get_proc_outfile [fname].
Proof. apply recall_only_first_file. Qed.

(** ** The encoding script as a whole *)

Section EncodingRun.
Import Py hvlt_encoding_script.

Variable read_csv : string -> result (list sample).
Variable read_excel : string -> result (list sample).
Variable get_subid : list sample -> string -> result string.
Variable get_timepoint : list sample -> string -> result string.
Variable deblink : Q -> Q -> list sample -> result (list sample).
Variable resamp_filt_data : list sample -> result (list resampled).
Variable get_proc_outfile : string -> string -> string.

Local Abbreviation proc_file_script :=
  (proc_file read_csv read_excel get_subid get_timepoint deblink
             resamp_filt_data get_proc_outfile).
Local Abbreviation proc_subject_script :=
  (proc_subject read_csv read_excel get_subid get_timepoint deblink
                resamp_filt_data get_proc_outfile).
Local Abbreviation file_ok_script :=
  (file_ok read_csv read_excel get_subid get_timepoint deblink
           resamp_filt_data).

(** One file whose steps all return normally. *)
Lemma proc_file_complete (fname : string) (st : state) :
  file_ok_script fname ->
  proc_file_script fname st
  = (Ok tt,
     mkState (locals st) (trace st ++ file_trace get_proc_outfile fname)).
Proof.
  intros [Ha (df & subid & tp & te & rs & Hr & Hs & Ht & He & Hc)].
  unfold hvlt_recall_proc_subject.accepted,
    hvlt_recall_proc_subject.reader in *.
  unfold proc_file, file_trace.
  unfold bind, assign, emit, lift, ret, throw.
  destruct (String.eqb (splitext_ext fname) ".gazedata"
            || String.eqb (splitext_ext fname) ".csv")%bool.
  - cbn. rewrite Hr. cbn. rewrite Hs. cbn. rewrite Ht. cbn.
    rewrite He. cbn. rewrite Hc. cbn.
    rewrite <- !app_assoc. reflexivity.
  - cbn [orb] in Ha. rewrite Ha.
    cbn. rewrite Hr. cbn. rewrite Hs. cbn. rewrite Ht. cbn.
    rewrite He. cbn. rewrite Hc. cbn.
    rewrite <- !app_assoc. reflexivity.
Qed.


Lemma proc_file_rejects (fname : string) (st : state) :
  hvlt_recall_proc_subject.accepted fname = false ->
  proc_file_script fname st
  = (Raise (IOError ("Could not open " ++ fname)%string),
     mkState (locals st) (trace st ++ [Print ("Processing " ++ fname)%string])).
Proof.
  unfold hvlt_recall_proc_subject.accepted. intros Ha.
  apply orb_false_iff in Ha. destruct Ha as [Ha Hx].
  unfold proc_file.
  unfold bind, assign, emit, lift, ret, throw.
  cbn. rewrite Ha, Hx. reflexivity.
Qed.

Lemma proc_subject_app (l1 l2 : list string) :
  Forall file_ok_script l1 ->
  forall st,
    proc_subject_script (l1 ++ l2) st
    = proc_subject_script l2
        (mkState (locals st)
                 (trace st ++ flat_map (file_trace get_proc_outfile) l1)).
Proof.
  induction 1 as [|f files Hf _ IH]; intros st.
  - cbn. rewrite app_nil_r. now destruct st.
  - cbn [app proc_subject flat_map]. unfold bind at 1.
    rewrite (proc_file_complete st Hf). rewrite IH. cbn [locals trace].
    now rewrite app_assoc.
Qed.

(** The loop stops at the first file whose body raises. *)
Lemma proc_subject_stops (fname : string) (rest : list string)
      (st st' : state) (e : exn) :
  proc_file_script fname st = (Raise e, st') ->
  proc_subject_script (fname :: rest) st = (Raise e, st').
Proof.
  intros H. cbn [proc_subject]. unfold bind at 1. now rewrite H.
Qed.
End EncodingRun.


(** X18: the encoding [proc_subject] stops at the first file it cannot
    handle and keeps what it has done so far: after files that were
    processed completely, a file whose extension is not .gazedata, .csv or
    .xlsx ends the run with [IOError] "Could not open <file>"; the outputs
    of the earlier files have been written, the refused file is not read,
    and the files after it are not touched. *)
Theorem X18_encoding_stops_at_refused_file
        (read_csv read_excel : string -> result (list sample))
        (get_subid get_timepoint : list sample -> string -> result string)
        (deblink : Q -> Q -> list sample -> result (list sample))
        (resamp_filt_data : list sample -> result (list resampled))
        (get_proc_outfile : string -> string -> string)
        (done : list string) (fname : string) (rest : list string) :
  Forall (hvlt_encoding_script.file_ok read_csv read_excel get_subid
            get_timepoint deblink resamp_filt_data) done ->
  hvlt_recall_proc_subject.accepted fname = false ->
  hvlt_encoding_script.run read_csv read_excel get_subid get_timepoint
                           deblink resamp_filt_data get_proc_outfile
                           (done ++ fname :: rest)
  = (Raise (IOError ("Could not open " ++ fname)%string),
     Py.mkState []
       (flat_map (hvlt_encoding_script.file_trace get_proc_outfile) done
          ++ [Py.Print ("Processing " ++ fname)%string])).
Proof.
  intros Hd Ha. unfold hvlt_encoding_script.run.
  rewrite proc_subject_app by exact Hd.
  erewrite proc_subject_stops; [reflexivity|].
  now rewrite proc_file_rejects.
Qed.


Lemma X18_witness :
  hvlt_encoding_script.run
    EncodingSamples.read_encoding EncodingSamples.read_encoding
    EncodingSamples.name_of EncodingSamples.name_of
    Samples.pass_deblink Samples.pass_resamp Samples.outfile
    ["sub-01.gazedata"%string; "notes.txt"%string; "sub-02.xlsx"%string]
  = (Raise (IOError "Could not open notes.txt"),
     Py.mkState []
       (hvlt_encoding_script.file_trace Samples.outfile "sub-01.gazedata"
          ++ [Py.Print "Processing notes.txt"])).
Proof.
  refine (eq_trans
            (@X18_encoding_stops_at_refused_file
               EncodingSamples.read_encoding EncodingSamples.read_encoding
               EncodingSamples.name_of EncodingSamples.name_of
               Samples.pass_deblink Samples.pass_resamp Samples.outfile
               ["sub-01.gazedata"%string] "notes.txt"
               ["sub-02.xlsx"%string] _ eq_refl) _).
  - apply Forall_cons; [|apply Forall_nil].
    split; [reflexivity|].
    exists EncodingSamples.encoding_file.
    exists "sub-01.gazedata"%string, "sub-01.gazedata"%string.
    eexists. eexists.
    split; [reflexivity|]. split; [reflexivity|]. split; [reflexivity|].
    split; vm_compute; reflexivity.
  - reflexivity.
Defined.

(** ** The two phases of a recall trial *)

(** Lines 55-57 on four increasing times, row by row. *)
Lemma recall_rawtrial_phase (df : list sample) (bs be rs re : Z) :
  (bs < be)%Z -> (be < rs)%Z -> (rs < re)%Z ->
  Forall2 (fun s x =>
             s_index x = s_index s
             /\ TETTime x = TETTime s
             /\ CurrentObject x = CurrentObject s
             /\ DiameterPupilLR x = DiameterPupilLR s
             /\ Phase x = if (TETTime s <=? be)%Z
                          then Some "Baseline"%string
                          else if (rs <=? TETTime s)%Z
                               then Some "Response"%string
                               else Phase s)
          (filter (fun s => (bs <=? TETTime s)%Z && (TETTime s <=? re)%Z) df)
          (hvlt_recall_proc_subject.rawtrial
             df (Some bs) (Some be) (Some rs) (Some re)).
Proof.
  intros H1 H2 H3.
  unfold hvlt_recall_proc_subject.rawtrial.
  rewrite map_map.
  change (filter (hvlt_recall_proc_subject.between (Some bs) (Some re)) df)
    with (filter (fun s => (bs <=? TETTime s)%Z && (TETTime s <=? re)%Z) df).
  induction df as [|s df IH]; [constructor|].
  cbn [filter].
  destruct ((bs <=? TETTime s)%Z && (TETTime s <=? re)%Z) eqn:E;
    [|exact IH].
  cbn [map]. constructor; [|exact IH].
  apply andb_prop in E. destruct E as [E1 E2].
  apply Z.leb_le in E1, E2.
  unfold hvlt_recall_proc_subject.between.
  rewrite (proj2 (Z.leb_le _ _) E1). cbn [andb].
  destruct (Z.leb_spec (TETTime s) be) as [Hb|Hb].
  - cbn [TETTime set_Phase].
    destruct (Z.leb_spec rs (TETTime s)) as [Hr|Hr]; [lia|].
    cbn [andb]. repeat split.
  - destruct (Z.leb_spec rs (TETTime s)) as [Hr|Hr]; cbn [andb].
    + rewrite (proj2 (Z.leb_le _ _) E2). repeat split.
    + repeat split.
Qed.

Lemma recall_phase_windows (df : list sample) (te : list event)
      (ts : list Z) :
  map (fun e => (Trial e, e_TETTime e)) te
  = combine (map Some (Pandas.np_repeat (Pandas.range 1 7) 4)) (map Some ts) ->
  List.length ts = 24 -> Sorted Z.lt ts ->
  forall k, (1 <= k <= 6)%nat ->
    exists bs be rs re,
      map e_TETTime (hvlt_recall_proc_subject.trial_rows te k)
      = [Some bs; Some be; Some rs; Some re]
      /\ (bs < be)%Z /\ (be < rs)%Z /\ (rs < re)%Z
      /\ hvlt_recall_proc_subject.window df te k
         = Ok (hvlt_recall_proc_subject.rawtrial
                 df (Some bs) (Some be) (Some rs) (Some re)).
Proof.
  intros Hp Hl Hs k Hk.
  unfold hvlt_recall_proc_subject.window.
  rewrite trial_rows_pairs, Hp.
  explode ts Hl. invert_sorted.
  destruct k as [|[|[|[|[|[|[|k]]]]]]]; try lia; cbn;
    do 4 eexists;
    (split; [reflexivity|split; [|split; [|split; [|reflexivity]]]]);
    assumption.
Qed.

(** X19: in a well-formed session (twelve start and twelve stop rows,
    strictly alternating) whose time stamps increase with the row index,
    the four time stamps the recall [clean_trials] reads from the event
    table for a trial 1..6 are increasing, basestart < basestop <
    respstart < respstop, and the two range assignments of lines 56-57
    never touch the same row.  The window of the trial is the raw rows
    with a time stamp from basestart to respstop, in frame order, with
    index, time, label and diameter unchanged; a row is marked 'Baseline'
    when its time is at most basestop, 'Response' when its time is at
    least respstart, and keeps the Phase it came with when it lies
    strictly between the two. *)
Theorem X19_recall_phases_split_the_window (df : list sample) :
  Grammar.well_formed df = true ->
  Grammar.increasing_time df ->
  exists te,
    hvlt_recall_proc_subject.get_trial_events df = Ok te
    /\ forall k, (1 <= k <= 6)%nat ->
         exists bs be rs re w,
           map e_TETTime (hvlt_recall_proc_subject.trial_rows te k)
           = [Some bs; Some be; Some rs; Some re]
           /\ (bs < be)%Z /\ (be < rs)%Z /\ (rs < re)%Z
           /\ hvlt_recall_proc_subject.window df te k = Ok w
           /\ Forall2
                (fun s x =>
                   s_index x = s_index s
                   /\ TETTime x = TETTime s
                   /\ CurrentObject x = CurrentObject s
                   /\ DiameterPupilLR x = DiameterPupilLR s
                   /\ Phase x = if (TETTime s <=? be)%Z
                                then Some "Baseline"%string
                                else if (rs <=? TETTime s)%Z
                                     then Some "Response"%string
                                     else Phase s)
                (filter (fun s => (bs <=? TETTime s)%Z
                                  && (TETTime s <=? re)%Z) df)
                w.
Proof.
  intros Hw Hi.
  destruct (event_times_increase set_StatStop
              (fun _ _ => eq_refl) (fun _ _ => eq_refl) Hw Hi)
    as (te & ts & E & P & L & S).
  exists te. split; [exact E|].
  intros k Hk.
  destruct (@recall_phase_windows df te ts P L S k Hk)
    as (bs & be & rs & re & T & H1 & H2 & H3 & W).
  exists bs, be, rs, re. eexists.
  split; [exact T|].
  split; [exact H1|]. split; [exact H2|]. split; [exact H3|].
  split; [exact W|].
  now apply recall_rawtrial_phase.
Qed.

(** In the sample session the first trial runs from 0 to 40 ms: the
    letter is read until 20 ms and the answer recorded from 30 ms on. *)
Lemma X19_witness :
  Grammar.well_formed Samples.session6 = true
  /\ exists te,
       hvlt_recall_proc_subject.get_trial_events Samples.session6 = Ok te
       /\ map e_TETTime (hvlt_recall_proc_subject.trial_rows te 1)
          = [Some 0%Z; Some 20%Z; Some 30%Z; Some 40%Z]
       /\ exists w,
            hvlt_recall_proc_subject.window Samples.session6 te 1 = Ok w
            /\ map Phase w
               = [Some "Baseline"%string; Some "Baseline"%string;
                  Some "Baseline"%string; Some "Response"%string;
                  Some "Response"%string].
Proof.
  split; [vm_compute; reflexivity|].
  destruct (X19_recall_phases_split_the_window
              (df := Samples.session6)
              ltac:(vm_compute; reflexivity) session6_increasing_time)
    as (te & E & _).
  exists te. split; [exact E|].
  vm_compute in E. apply Ok_inj in E. subst te.
  split; [vm_compute; reflexivity|].
  eexists. split; vm_compute; reflexivity.
Defined.
